(** * barcode-identifier-api: synchronisation and versioning core

    A shallow embedding of

    - [barcode_blastn/helper/parse_gb.py]: GenBank record parsing
      ([parse_gb_handle]) and the batched fetch client
      ([send_gb_request], [retrieve_gb]);
    - [barcode_blastn/controllers/blastdb_controller.py]: the diff engine
      ([calculate_update_summary]), the sealing routine ([save_blastdb]),
      the collection mutators ([add_sequences_to_database],
      [update_sequences_in_database], [delete_sequences_in_database],
      [filter_sequences_in_database]), the deletion of snapshots and
      libraries ([delete_blastdb], [delete_library]) and [compareHits];
    - the parts of [barcode_blastn/models.py] these rely on.

    Python objects that are mutated in place live in an explicit [World];
    exceptions are values of [Exn]; the network, the file system and the
    external build tool are an environment [Env] the functions consult. *)

From Stdlib Require Import String Ascii List ZArith Bool Lia Arith Permutation.
From Stdlib Require Import DecimalString.
From Stdlib Require QArith.
Import ListNotations.
Local Open Scope string_scope.
Local Open Scope Z_scope.

Set Implicit Arguments.

(* ===================================================================== *)
(** * Python built-ins used by the sources                                *)
(* ===================================================================== *)

Module Py.

(** [str.lower] / [str.upper] on the ASCII range. *)
Definition lower_ascii (c : ascii) : ascii :=
  let n := nat_of_ascii c in
  if (Nat.leb 65 n && Nat.leb n 90)%bool then ascii_of_nat (n + 32) else c.

Definition upper_ascii (c : ascii) : ascii :=
  let n := nat_of_ascii c in
  if (Nat.leb 97 n && Nat.leb n 122)%bool then ascii_of_nat (n - 32) else c.

Fixpoint map_string (f : ascii -> ascii) (s : string) : string :=
  match s with
  | EmptyString => EmptyString
  | String c s' => String (f c) (map_string f s')
  end.

Definition lower : string -> string := map_string lower_ascii.
Definition upper : string -> string := map_string upper_ascii.

(** [s.startswith(p)] *)
Definition startswith (s p : string) : bool := String.prefix p s.

(** [sub in s] for strings. *)
Fixpoint contains (sub s : string) : bool :=
  match s with
  | EmptyString => String.prefix sub EmptyString
  | String _ s' => (String.prefix sub s || contains sub s')%bool
  end.

(** [s[n:]] *)
Fixpoint drop (n : nat) (s : string) : string :=
  match n, s with
  | O, _ => s
  | S _, EmptyString => EmptyString
  | S n', String _ s' => drop n' s'
  end.

(** [len(s)] *)
Definition len (s : string) : Z := Z.of_nat (String.length s).

(** [len([base for base in s if base == c])] *)
Fixpoint count_char (c : ascii) (s : string) : nat :=
  match s with
  | EmptyString => O
  | String d s' => (if Ascii.eqb d c then 1 else 0) + count_char c s'
  end.

(** [s.replace(c, '')] for a one-character pattern. *)
Fixpoint remove_char (c : ascii) (s : string) : string :=
  match s with
  | EmptyString => EmptyString
  | String d s' => if Ascii.eqb d c then remove_char c s' else String d (remove_char c s')
  end.

(** [sep.join(l)] *)
Definition join (sep : string) (l : list string) : string := String.concat sep l.

(** [x in l] for a list (or set) of strings. *)
Definition mem (x : string) (l : list string) : bool :=
  existsb (String.eqb x) l.

(** [list(set(l))]: the distinct elements of [l].  Python leaves the
    iteration order of a set unspecified; the order chosen here (that of
    the last occurrences) is one admissible order, and no result below
    depends on it. *)
Definition list_set (l : list string) : list string := nodup string_dec l.

(** [str(n)] for an integer. *)
Definition str_of_Z (z : Z) : string := NilZero.string_of_int (Z.to_int z).

(** [s.split(':')] *)
Fixpoint split_colon_aux (acc : string) (s : string) : list string :=
  match s with
  | EmptyString => [acc]
  | String c s' =>
      if Ascii.eqb c ":"%char then acc :: split_colon_aux EmptyString s'
      else split_colon_aux (acc ++ String c EmptyString) s'
  end.
Definition split_colon (s : string) : list string := split_colon_aux EmptyString s.

(** [c.isspace()], for a character read as a code point below 256: the
    tabulation and line controls 9 to 13, the separators 28 to 31, the
    space, the next-line control 133 and the no-break space 160. *)
Definition is_space (c : ascii) : bool :=
  let n := nat_of_ascii c in
  (Nat.eqb n 32 || (Nat.leb 9 n && Nat.leb n 13) || (Nat.leb 28 n && Nat.leb n 31)
   || Nat.eqb n 133 || Nat.eqb n 160)%bool.

(** [s.strip()] *)

Fixpoint lstrip (s : string) : string :=
  match s with
  | EmptyString => EmptyString
  | String c s' => if is_space c then lstrip s' else s
  end.

Fixpoint rstrip (s : string) : string :=
  match s with
  | EmptyString => EmptyString
  | String c s' =>
      match rstrip s' with
      | EmptyString => if is_space c then EmptyString else String c EmptyString
      | r => String c r
      end
  end.

Definition strip (s : string) : string := rstrip (lstrip s).

End Py.

(* ===================================================================== *)
(** * Values, dictionaries and exceptions                                 *)
(* ===================================================================== *)

(** The Python values that occur in the fetched-record dictionaries and in
    exception payloads. *)
Inductive PyVal : Type :=
| PyNone
| PyStr (s : string)
| PyInt (z : Z)
| PyStrList (l : list string).

(** [str(v)] *)
Definition py_str (v : PyVal) : string :=
  match v with
  | PyNone => "None"
  | PyStr s => s
  | PyInt z => Py.str_of_Z z
  | PyStrList l => "[" ++ Py.join ", " (map (fun s => "'" ++ s ++ "'") l) ++ "]"
  end.

(** Python dictionaries with string keys: keys in insertion order, one
    entry per key. *)
Fixpoint dict_get {V : Type} (d : list (string * V)) (k : string) : option V :=
  match d with
  | [] => None
  | (k', v) :: d' => if String.eqb k' k then Some v else dict_get d' k
  end.

(** [d[k] = v] *)
Fixpoint dict_set {V : Type} (d : list (string * V)) (k : string) (v : V) : list (string * V) :=
  match d with
  | [] => [(k, v)]
  | (k', v') :: d' =>
      if String.eqb k' k then (k, v) :: d' else (k', v') :: dict_set d' k v
  end.

(** [k in d] *)
Definition dict_mem {V : Type} (d : list (string * V)) (k : string) : bool :=
  match dict_get d k with Some _ => true | None => false end.

(** A [Dict[str, Any]] *)
Definition Dict := list (string * PyVal).

Definition dict_keys (d : Dict) : list string := map fst d.

(** The exceptions raised by the two modules, with their payloads.
    [AccessionLimitExceeded.curr_accessions] is whatever the raise site
    passes, hence a [PyVal]. *)
Inductive Exn : Type :=
| InsufficientAccessionData (missing_accessions : list string) (term : string)
| AccessionLimitExceeded (curr_accessions : PyVal) (max_accessions : Z)
| GenBankConnectionError (queried_accessions : list string) (term : string)
| TaxonomyConnectionError (queried_ids : list string)
| AccessionsAlreadyExist (accession_numbers : list string)
| AccessionsNotFound (accession_numbers : list string)
| DatabaseLocked
| ValueError (msg : string)
| OSError (msg : string)
| KeyError (key : string)
| IndexError
| TypeError
| AttributeError (name : string)
| FieldDoesNotExist (name : string).

Inductive Result (A : Type) : Type :=
| Ok (a : A)
| Raise (e : Exn).
Arguments Ok {A} a.
Arguments Raise {A} e.

(* ===================================================================== *)
(** * models.py                                                           *)
(* ===================================================================== *)

(** [class BlastDb(models.Model)].  Primary keys are UUIDs, kept as their
    text.  [_change_reason], [added], [deleted] and [search_terms] are the
    attributes the controller sets on the instance for the history log;
    [None] stands for an attribute that was never set. *)
Module BlastDb.
Record t : Type := mk {
  id : string;
  library : string;
  genbank_version : Z;
  major_version : Z;
  minor_version : Z;
  locked : bool;
  _change_reason : option string;
  added : option string;
  deleted : option string;
  search_terms : option string
}.

Definition set_version (g m n : Z) (o : t) : t :=
  mk (id o) (library o) g m n (locked o) (_change_reason o) (added o) (deleted o) (search_terms o).
Definition set_locked (b : bool) (o : t) : t :=
  mk (id o) (library o) (genbank_version o) (major_version o) (minor_version o) b
     (_change_reason o) (added o) (deleted o) (search_terms o).
Definition set_change_reason (r : string) (o : t) : t :=
  mk (id o) (library o) (genbank_version o) (major_version o) (minor_version o) (locked o)
     (Some r) (added o) (deleted o) (search_terms o).
Definition set_added (a : string) (o : t) : t :=
  mk (id o) (library o) (genbank_version o) (major_version o) (minor_version o) (locked o)
     (_change_reason o) (Some a) (deleted o) (search_terms o).
Definition set_deleted (a : string) (o : t) : t :=
  mk (id o) (library o) (genbank_version o) (major_version o) (minor_version o) (locked o)
     (_change_reason o) (added o) (Some a) (search_terms o).
Definition set_search_terms (a : string) (o : t) : t :=
  mk (id o) (library o) (genbank_version o) (major_version o) (minor_version o) (locked o)
     (_change_reason o) (added o) (deleted o) (Some a).

Definition version_triple (o : t) : Z * Z * Z :=
  (genbank_version o, major_version o, minor_version o).

(** [Meta.ordering = ['genbank_version', 'major_version', 'minor_version']] *)
Definition version_ltb (a b : t) : bool :=
  (genbank_version a <? genbank_version b)
  || ((genbank_version a =? genbank_version b)
      && ((major_version a <? major_version b)
          || ((major_version a =? major_version b)
              && (minor_version a <? minor_version b)))).

(** [BlastDbManager.latest]:
    [BlastDb.objects.filter(library=library, locked=True).last()], the
    last row in the model's ordering.  Among rows with equal version
    triples the database decides; the model takes the later row. *)
Definition latest (rows : list t) (lib : string) : option t :=
  fold_left
    (fun best r =>
       match best with
       | None => Some r
       | Some b => if version_ltb r b then Some b else Some r
       end)
    (filter (fun r => String.eqb (library r) lib && locked r) rows)
    None.

(** [obj.save()]: update the row with this primary key, or insert it.
    The three version numbers are small-integer columns; the refusal of a
    number such a column cannot hold is not modelled, so what is proved of
    a sealing call that writes a version is proved of the calls that
    return. *)
Fixpoint save (o : t) (rows : list t) : list t :=
  match rows with
  | [] => [o]
  | r :: rows' => if String.eqb (id r) (id o) then o :: rows' else r :: save o rows'
  end.
End BlastDb.

(** [class NuccoreSequence(models.Model)], with the eight taxonomic rank
    references the controller reads and the [updated] stamp it sets. *)
Module NuccoreSequence.
Record t : Type := mk {
  id : string;
  owner_database : string;
  accession_number : string;
  version : string;
  definition : string;
  organism : string;
  organelle : string;
  isolate : string;
  country : string;
  specimen_voucher : string;
  dna_sequence : string;
  lat_lon : string;
  type_material : string;
  taxa : list (string * PyVal);
  updated : option Z
}.

(** [getattr(seq, field)] for the text columns. *)
Definition getattr (s : t) (field : string) : option string :=
  if String.eqb field "accession_number" then Some (accession_number s)
  else if String.eqb field "version" then Some (version s)
  else if String.eqb field "definition" then Some (definition s)
  else if String.eqb field "organism" then Some (organism s)
  else if String.eqb field "organelle" then Some (organelle s)
  else if String.eqb field "isolate" then Some (isolate s)
  else if String.eqb field "country" then Some (country s)
  else if String.eqb field "specimen_voucher" then Some (specimen_voucher s)
  else if String.eqb field "dna_sequence" then Some (dna_sequence s)
  else if String.eqb field "lat_lon" then Some (lat_lon s)
  else if String.eqb field "type_material" then Some (type_material s)
  else None.

(** [setattr(seq, field, value)] for the text columns; any other name
    becomes an attribute of the instance that no column stores. *)
Definition setattr (field : string) (v : string) (s : t) : t :=
  let upd (f : string) (old : string) := if String.eqb field f then v else old in
  mk (id s) (owner_database s)
     (upd "accession_number" (accession_number s))
     (upd "version" (version s))
     (upd "definition" (definition s))
     (upd "organism" (organism s))
     (upd "organelle" (organelle s))
     (upd "isolate" (isolate s))
     (upd "country" (country s))
     (upd "specimen_voucher" (specimen_voucher s))
     (upd "dna_sequence" (dna_sequence s))
     (upd "lat_lon" (lat_lon s))
     (upd "type_material" (type_material s))
     (taxa s) (updated s).

Definition set_updated (u : Z) (s : t) : t :=
  mk (id s) (owner_database s) (accession_number s) (version s) (definition s)
     (organism s) (organelle s) (isolate s) (country s) (specimen_voucher s)
     (dna_sequence s) (lat_lon s) (type_material s) (taxa s) (Some u).

(** [__str__] *)
Definition str (s : t) : string :=
  accession_number s ++ ", " ++ organism s ++ " (" ++ id s ++ ")".

(** [NuccoreSequence.objects.filter(owner_database=db)]: the rows of the
    snapshot, here in table order.  The code receives them in the order of
    [Meta.ordering], by accession number under the collation of the
    database; the results below speak of these rows as a set, or of lists
    built from them up to a permutation. *)
Definition of_database (db : string) (rows : list t) : list t :=
  filter (fun s => String.eqb (owner_database s) db) rows.
End NuccoreSequence.


(* ===================================================================== *)
(** * Biopython interface: parsed GenBank records and Entrez calls        *)
(* ===================================================================== *)

Module Bio.
(** [Bio.GenBank.Record.Reference] *)
Record Reference : Type := mkReference {
  journal : string;
  authors : string;
  title : string
}.

(** [Bio.SeqFeature.SeqFeature]: its type and its qualifier dictionary
    (qualifier name to list of values). *)
Record SeqFeature : Type := mkSeqFeature {
  type : string;
  qualifiers : list (string * list string)
}.

(** [Bio.SeqIO.SeqRecord].  [seq = None] is a sequence whose [str()]
    raises [UndefinedSequenceError]; [keywords = None] is a record whose
    annotations have no ['keywords'] entry. *)
Record SeqRecord : Type := mkSeqRecord {
  name : string;
  description : string;
  seq : option string;
  id : string;
  keywords : option (list string);
  taxonomy : list string;
  date : string;
  references : list Reference;
  features : list SeqFeature
}.

(** [name in feature.qualifiers] and [feature.qualifiers[name]] *)
Fixpoint qualifier (qs : list (string * list string)) (k : string) : option (list string) :=
  match qs with
  | [] => None
  | (k', v) :: qs' => if String.eqb k' k then Some v else qualifier qs' k
  end.

(** The keyword arguments [send_gb_request] hands to [Entrez.efetch]
    (besides the constant [db], [rettype] and [retmode]). *)
Record EFetchArgs : Type := mkEFetchArgs {
  arg_id : option string;
  arg_webenv : option string;
  arg_retstart : option Z;
  arg_retmax : option Z;
  arg_query_key : option string
}.

(** What [Entrez.efetch] does: raise [HTTPError] with a status code, raise
    anything else, or return a handle, given here by the records
    [SeqIO.parse] yields from it. *)
Inductive EFetchReply : Type :=
| HTTPError (code : Z)
| OtherError
| Handle (records : list SeqRecord).

(** The fields of an [Entrez.esearch] answer the client reads. *)
Record ESearchReply : Type := mkESearchReply {
  Count : Z;
  WebEnv : string;
  QueryKey : string
}.
End Bio.

(* ===================================================================== *)
(** * The world the operations run in                                     *)
(* ===================================================================== *)

(** Everything observable an operation does outside the process. *)
Inductive Event : Type :=
| EvESearch (term : string)
| EvEFetch (args : Bio.EFetchArgs)
| EvTaxonomy
| EvSleep (seconds : Z)
| EvMkdir (path : string)
| EvRemove (path : string)
| EvRmtree (path : string)
| EvWriteFile (path : string) (content : string)
| EvSystem (command : string).

(** The events that reach the external registry. *)
Definition is_network (e : Event) : bool :=
  match e with
  | EvESearch _ | EvEFetch _ | EvTaxonomy => true
  | _ => false
  end.

(** [class SequenceUpdateSummary]: five lists declared in the class body.
    They are class attributes: an instance created by
    [SequenceUpdateSummary()] has none of its own, so [summary.added] is the
    list stored in the class, shared by every instance of the process. *)
Record SequenceUpdateSummary : Type := mkSummary {
  no_change : list string;
  accession_version_changed : list string;
  metadata_changed : list string;
  deleted : list string;
  added : list string
}.

Definition empty_summary : SequenceUpdateSummary := mkSummary [] [] [] [] [].

(** The mutable state:
    - [obj], the [BlastDb] instance the operation was handed (Python passes
      the reference, the operation mutates the instance in place);
    - the two tables;
    - the class attributes of [SequenceUpdateSummary];
    - how many primary keys were drawn so far;
    - the events so far, oldest first. *)
Record World : Type := mkWorld {
  obj : BlastDb.t;
  blastdbs : list BlastDb.t;
  sequences : list NuccoreSequence.t;
  summary_class : SequenceUpdateSummary;
  uuid_count : nat;
  trace : list Event
}.

Definition set_obj (o : BlastDb.t) (w : World) : World :=
  mkWorld o (blastdbs w) (sequences w) (summary_class w) (uuid_count w) (trace w).
Definition set_blastdbs (t : list BlastDb.t) (w : World) : World :=
  mkWorld (obj w) t (sequences w) (summary_class w) (uuid_count w) (trace w).
Definition set_sequences (t : list NuccoreSequence.t) (w : World) : World :=
  mkWorld (obj w) (blastdbs w) t (summary_class w) (uuid_count w) (trace w).
Definition set_summary_class (s : SequenceUpdateSummary) (w : World) : World :=
  mkWorld (obj w) (blastdbs w) (sequences w) s (uuid_count w) (trace w).
Definition set_uuid_count (n : nat) (w : World) : World :=
  mkWorld (obj w) (blastdbs w) (sequences w) (summary_class w) n (trace w).
Definition set_trace (t : list Event) (w : World) : World :=
  mkWorld (obj w) (blastdbs w) (sequences w) (summary_class w) (uuid_count w) t.

(** What the operations ask of their surroundings.  Answers of the
    registry may change from call to call: they are indexed by the number
    of events that happened before.
    - [get_data_library_path], [get_data_fishdb_path], [get_ncbi_folder]
      are the functions of [barcode_blastn.file_paths];
    - the four booleans are what [os.path.exists], [os.path.isfile] and
      [shutil.rmtree] answer during sealing; [makeblastdb_status] is what
      [os.system] returns for the build command. *)
Record Env : Type := mkEnv {
  esearch : nat -> string -> option Bio.ESearchReply;
  efetch : nat -> Bio.EFetchArgs -> Bio.EFetchReply;
  uuid4 : nat -> string;
  now : nat -> Z;
  get_data_library_path : string -> string;
  get_data_fishdb_path : BlastDb.t -> string;
  get_ncbi_folder : string -> string;
  library_path_exists : bool;
  library_path_isfile : bool;
  fishdb_path_exists : bool;
  rmtree_succeeds : bool;
  makeblastdb_status : Z
}.

(** Computations that read and write the world and may raise.  The world
    is returned also when an exception is raised: what was mutated before
    the raise stays mutated. *)
Definition M (A : Type) : Type := World -> Result A * World.

Definition ret {A : Type} (a : A) : M A := fun w => (Ok a, w).
Definition raise {A : Type} (e : Exn) : M A := fun w => (Raise e, w).
Definition bind {A B : Type} (m : M A) (k : A -> M B) : M B :=
  fun w => match m w with
           | (Ok a, w') => k a w'
           | (Raise e, w') => (Raise e, w')
           end.
Definition get : M World := fun w => (Ok w, w).
Definition modify (f : World -> World) : M unit := fun w => (Ok tt, f w).
Definition emit (e : Event) : M unit := modify (fun w => set_trace (trace w ++ [e])%list w).
Definition lift {A : Type} (r : Result A) : M A := fun w => (r, w).

Declare Scope m_scope.
Delimit Scope m_scope with M.
Notation "x <- c ;; k" := (bind c (fun x => k))
  (at level 61, c at next level, right associativity) : m_scope.
Notation "c ;;; k" := (bind c (fun _ => k))
  (at level 61, right associativity) : m_scope.
Local Open Scope m_scope.

(** List concatenation where string concatenation is in scope. *)
Local Infix "++l" := (@List.app _) (at level 60, right associativity).

(** [for x in l: body] threading an accumulator. *)
Fixpoint for_each {A S : Type} (l : list A) (body : A -> S -> M S) (s : S) : M S :=
  match l with
  | [] => ret s
  | x :: l' => s' <- body x s ;; for_each l' body s'
  end.


(* ===================================================================== *)
(** * helper/parse_gb.py                                                  *)
(* ===================================================================== *)

Definition PERIOD : Z := 1.
Definition ACCESSIONS_PER_REQUEST : nat := 300.
Definition MAX_ACCESSIONS : Z := 1500.

Definition newline : string := String (ascii_of_nat 10) EmptyString.

Definition qualifiers_to_extract : list string :=
  ["organism"; "organelle"; "isolate"; "country"; "specimen_voucher"; "type_material";
   "lat_lon"; "db_xref"; "identified_by"; "collected_by"; "collection_date"].

(** The dictionary literal [current_data] of [parse_gb_handle].  The
    record is one that carries the annotations [taxonomy], [date] and
    [references], which the code reads by subscript, and whose date has
    the form the code parses; the date is kept as its text. *)
Definition initial_data (r : Bio.SeqRecord) (dna_sequence : string) : Dict :=
  [("accession_number", PyStr (Bio.name r));
   ("definition", PyStr (Bio.description r));
   ("dna_sequence", PyStr dna_sequence);
   ("version", PyStr (Bio.id r));
   ("keywords", PyStr (Py.join "," (match Bio.keywords r with Some k => k | None => [] end)));
   ("journal", PyStr "");
   ("authors", PyStr "");
   ("title", PyStr "");
   ("taxid", PyStr "");
   ("taxonomy", PyStr (Py.join "," (Bio.taxonomy r)));
   ("genbank_modification_date", PyStr (Bio.date r));
   ("taxon_superkingdom", PyNone);
   ("taxon_kingdom", PyNone);
   ("taxon_phylum", PyNone);
   ("taxon_class", PyNone);
   ("taxon_order", PyNone);
   ("taxon_family", PyNone);
   ("taxon_genus", PyNone);
   ("taxon_species", PyNone)].

(** "Get first reference to papers, publications, submissions, etc." *)
Definition first_reference (r : Bio.SeqRecord) (current_data : Dict) : Dict :=
  match Bio.references r with
  | [] => current_data
  | ref :: _ =>
      dict_set (dict_set (dict_set current_data
        "journal" (PyStr (Bio.journal ref)))
        "authors" (PyStr (Bio.authors ref)))
        "title" (PyStr (Bio.title ref))
  end.

(** The loop over the values of [db_xref]: the first value naming the
    [taxon] database sets [taxid].  A value that does not split into exactly
    two parts makes the tuple unpacking raise [ValueError], which the
    surrounding [except IndexError] does not catch. *)
Fixpoint db_xref_loop (values : list string) (current_data : Dict) : Result Dict :=
  match values with
  | [] => Ok current_data
  | qualifier_value :: rest =>
      match Py.split_colon qualifier_value with
      | [database; identifier] =>
          if String.eqb database "taxon"
          then Ok (dict_set current_data "taxid" (PyStr identifier))
          else db_xref_loop rest current_data
      | _ => Raise (ValueError "unpack")
      end
  end.

(** One turn of [for qualifier_name in qualifiers_to_extract]. *)
Definition extract_qualifier (source_feature : Bio.SeqFeature)
    (qualifier_name : string) (current_data : Dict) : Result Dict :=
  match Bio.qualifier (Bio.qualifiers source_feature) qualifier_name with
  | Some values =>
      if String.eqb qualifier_name "db_xref" then db_xref_loop values current_data
      else match values with
           | v :: _ => Ok (dict_set current_data qualifier_name (PyStr v))
           | [] => Ok (dict_set current_data qualifier_name (PyStr "error"))
           end
  | None => Ok (dict_set current_data qualifier_name (PyStr ""))
  end.

Fixpoint extract_qualifiers (source_feature : Bio.SeqFeature)
    (names : list string) (current_data : Dict) : Result Dict :=
  match names with
  | [] => Ok current_data
  | qualifier_name :: rest =>
      match extract_qualifier source_feature qualifier_name current_data with
      | Ok d => extract_qualifiers source_feature rest d
      | Raise e => Raise e
      end
  end.

(** "use type material specified in 'note' if no type_material was found":
    the block guarded by
    [current_data['type_material'] == '' and 'note' in source_feature.qualifiers].
    Qualifier values are lists of strings, on which [join] does not raise,
    so the [except] arm that would set ['error'] is not taken.  The
    assignment sits in [finally]: it is executed whatever the test on the
    two keywords gave. *)
Definition infer_type_material (source_feature : Bio.SeqFeature) (current_data : Dict) : Dict :=
  match dict_get current_data "type_material",
        Bio.qualifier (Bio.qualifiers source_feature) "note" with
  | Some (PyStr tm), Some note =>
      if String.eqb tm "" then
        let notes := Py.join newline note in
        let notes_lower := Py.lower notes in
        let notes :=
          if Py.contains "paratype" notes_lower || Py.contains "holotype" notes_lower then
            if Py.startswith notes_lower "type: " && (6 <? Py.len notes_lower)
            then Py.drop 6 notes
            else notes
          else notes in
        dict_set current_data "type_material" (PyStr notes)
      else current_data
  | _, _ => current_data
  end.

(** The body of [for seq_record in seq_records], after the sequence was
    read: [None] when the record has no ['source'] feature. *)
Definition source_feature_of (r : Bio.SeqRecord) : option Bio.SeqFeature :=
  match filter (fun feature => String.eqb (Bio.type feature) "source") (Bio.features r) with
  | [] => None
  | f :: _ => Some f
  end.

Definition parse_record (r : Bio.SeqRecord) (dna_sequence : string) : Result Dict :=
  let current_data := first_reference r (initial_data r dna_sequence) in
  match source_feature_of r with
  | None =>
      Ok (fold_left (fun d qualifier_name => dict_set d qualifier_name (PyStr "N/A"))
                    qualifiers_to_extract current_data)
  | Some source_feature =>
      match extract_qualifiers source_feature qualifiers_to_extract current_data with
      | Ok d => Ok (infer_type_material source_feature d)
      | Raise e => Raise e
      end
  end.

(** [parse_gb_handle]: records whose sequence is undefined are skipped; an
    exception escaping one record ends the whole call. *)
Fixpoint parse_gb_handle (handle : list Bio.SeqRecord) : Result (list Dict) :=
  match handle with
  | [] => Ok []
  | seq_record :: rest =>
      match Bio.seq seq_record with
      | None => parse_gb_handle rest
      | Some dna_sequence =>
          match parse_record seq_record dna_sequence with
          | Raise e => Raise e
          | Ok current_data =>
              match parse_gb_handle rest with
              | Ok result => Ok (current_data :: result)
              | Raise e => Raise e
              end
          end
      end
  end.

(** [entry[k]] as text, for the keys every parsed entry carries. *)
Definition entry_str (entry : Dict) (k : string) : string :=
  match dict_get entry k with
  | Some v => py_str v
  | None => ""
  end.

Section FetchClient.

Variable env : Env.

(** [send_gb_request]: one [Entrez.efetch] call and the parsing of its
    answer.  No caller passes [term] among the keyword arguments, so the
    [term] payload of the exceptions is the default [''].  The decorators
    [sleep_and_retry] and [limits] only delay the call. *)
Definition send_gb_request (accession_numbers : list string) (raise_if_missing : bool)
    (kwargs : Bio.EFetchArgs) : M (list Dict) :=
  let kwargs :=
    if (0 <? length accession_numbers)%nat
    then Bio.mkEFetchArgs (Some (Py.join "," accession_numbers)) (Bio.arg_webenv kwargs)
           (Bio.arg_retstart kwargs) (Bio.arg_retmax kwargs) (Bio.arg_query_key kwargs)
    else kwargs in
  w <- get ;;
  emit (EvEFetch kwargs) ;;;
  match efetch env (length (trace w)) kwargs with
  | Bio.HTTPError code =>
      if code =? 400
      then raise (InsufficientAccessionData accession_numbers "")
      else raise (GenBankConnectionError accession_numbers "")
  | Bio.OtherError => raise (GenBankConnectionError accession_numbers "")
  | Bio.Handle handle =>
      result <- lift (parse_gb_handle handle) ;;
      if raise_if_missing then
        let successful_queries :=
          (map (fun entry => entry_str entry "accession_number") result
           ++ map (fun entry => entry_str entry "version") result)%list in
        let failed_queries :=
          filter (fun d => negb (Py.mem d successful_queries)) accession_numbers in
        if (0 <? length failed_queries)%nat
        then raise (InsufficientAccessionData failed_queries "")
        else ret result
      else ret result
  end.

(** [while count > 0] of [retrieve_gb]: the batches of a search, fetched
    through the history server.  [fuel] bounds the number of turns; [count]
    loses [ACCESSIONS_PER_REQUEST] at each turn, so [Z.to_nat count] turns
    are enough (see [search_batches_fuel]). *)
Fixpoint search_batches (fuel : nat) (webenv query_key : string) (count retstart : Z)
    (all_data : list Dict) : M (list Dict) :=
  match fuel with
  | O => ret all_data
  | S fuel' =>
      if 0 <? count then
        let retmax := Z.of_nat ACCESSIONS_PER_REQUEST in
        batch <- send_gb_request [] false
                   (Bio.mkEFetchArgs None (Some webenv) (Some retstart) (Some retmax)
                      (Some query_key)) ;;
        emit (EvSleep 1) ;;;
        search_batches fuel' webenv query_key (count - retmax) (retstart + retmax)
          (all_data ++ batch)%list
      else ret all_data
  end.

(** [while len(desired_numbers) > 0] of [retrieve_gb]: the requested
    accessions, [ACCESSIONS_PER_REQUEST] at a time. *)
Fixpoint id_batches (fuel : nat) (desired_numbers : list string) (raise_if_missing : bool)
    (all_data : list Dict) : M (list Dict) :=
  match fuel with
  | O => ret all_data
  | S fuel' =>
      if (0 <? length desired_numbers)%nat then
        let next_numbers := firstn ACCESSIONS_PER_REQUEST desired_numbers in
        let desired_numbers := skipn ACCESSIONS_PER_REQUEST desired_numbers in
        batch_result <- send_gb_request next_numbers raise_if_missing
                          (Bio.mkEFetchArgs None None None None None) ;;
        (if (0 <? length desired_numbers)%nat then emit (EvSleep 1) else ret tt) ;;;
        id_batches fuel' desired_numbers raise_if_missing (all_data ++ batch_result)%list
      else ret all_data
  end.

(** [retrieve_gb] *)
Definition retrieve_gb (accession_numbers : list string) (term : option string)
    (raise_if_missing : bool) : M (list Dict) :=
  if ((length accession_numbers =? 0)%nat && match term with None => true | Some _ => false end)%bool
  then raise (ValueError "List of accession numbers and search terms to query is empty.")
  else if Z.of_nat (length accession_numbers) >? MAX_ACCESSIONS
  then raise (AccessionLimitExceeded (PyStrList accession_numbers) MAX_ACCESSIONS)
  else
    let desired_numbers := Py.list_set accession_numbers in
    all_data <-
      match term with
      | None => ret []
      | Some term =>
          let term := Py.strip term in
          if 0 <? Py.len term then
            w <- get ;;
            emit (EvESearch term) ;;;
            match esearch env (length (trace w)) term with
            | None => raise (GenBankConnectionError [] term)
            | Some resp =>
                let count := Bio.Count resp in
                if count >? MAX_ACCESSIONS
                then raise (AccessionLimitExceeded (PyInt count) MAX_ACCESSIONS)
                else search_batches (Z.to_nat count) (Bio.WebEnv resp) (Bio.QueryKey resp)
                       count 0 []
            end
          else ret []
      end ;;
    id_batches (length desired_numbers) desired_numbers raise_if_missing all_data.

End FetchClient.


(* ===================================================================== *)
(** * controllers/blastdb_controller.py                                   *)
(* ===================================================================== *)

(** [summary.<bucket>.append(x)]: the list appended to is the class
    attribute. *)
Definition append_no_change (x : string) : M unit :=
  modify (fun w => let s := summary_class w in
    set_summary_class (mkSummary (no_change s ++ [x])%list (accession_version_changed s)
      (metadata_changed s) (deleted s) (added s)) w).
Definition append_accession_version_changed (x : string) : M unit :=
  modify (fun w => let s := summary_class w in
    set_summary_class (mkSummary (no_change s) (accession_version_changed s ++ [x])%list
      (metadata_changed s) (deleted s) (added s)) w).
Definition append_metadata_changed (x : string) : M unit :=
  modify (fun w => let s := summary_class w in
    set_summary_class (mkSummary (no_change s) (accession_version_changed s)
      (metadata_changed s ++ [x])%list (deleted s) (added s)) w).
Definition append_deleted (x : string) : M unit :=
  modify (fun w => let s := summary_class w in
    set_summary_class (mkSummary (no_change s) (accession_version_changed s)
      (metadata_changed s) (deleted s ++ [x])%list (added s)) w).
Definition append_added (x : string) : M unit :=
  modify (fun w => let s := summary_class w in
    set_summary_class (mkSummary (no_change s) (accession_version_changed s)
      (metadata_changed s) (deleted s) (added s ++ [x])%list) w).

Definition fields_to_check : list string :=
  ["definition"; "dna_sequence"; "organism"; "organelle"; "isolate"; "country";
   "specimen_voucher"; "type_material"; "lat_lon"].

Definition opt_string_eqb (a b : option string) : bool :=
  match a, b with
  | Some x, Some y => String.eqb x y
  | None, None => true
  | _, _ => false
  end.

(** The inner loop over [fields_to_check]. *)
Definition has_any_field_changed (current_seq instance : NuccoreSequence.t) : bool :=
  fold_left
    (fun changed field =>
       if negb changed
          && negb (opt_string_eqb (NuccoreSequence.getattr current_seq field)
                                  (NuccoreSequence.getattr instance field))
       then true else changed)
    fields_to_check false.

(** The second loop of [calculate_update_summary], for one current
    sequence. *)
Definition classify (an_to_last : list (string * NuccoreSequence.t))
    (current_seq : NuccoreSequence.t) : M unit :=
  match dict_get an_to_last (NuccoreSequence.accession_number current_seq) with
  | None => append_added (NuccoreSequence.accession_number current_seq)
  | Some instance =>
      if negb (String.eqb (NuccoreSequence.version current_seq) (NuccoreSequence.version instance))
         || negb (String.eqb (NuccoreSequence.dna_sequence current_seq)
                             (NuccoreSequence.dna_sequence instance))
      then append_accession_version_changed (NuccoreSequence.accession_number current_seq)
      else if has_any_field_changed current_seq instance
      then append_metadata_changed (NuccoreSequence.accession_number instance)
      else append_no_change (NuccoreSequence.accession_number instance)
  end.

(** [calculate_update_summary].  The rows of a snapshot are taken in table
    order.  The value returned is the instance [summary]; reading its
    buckets reads the class attributes as they are when the call returns. *)
Definition calculate_update_summary (last current : BlastDb.t) : M SequenceUpdateSummary :=
  w <- get ;;
  let last_sequences := NuccoreSequence.of_database (BlastDb.id last) (sequences w) in
  let current_sequences := NuccoreSequence.of_database (BlastDb.id current) (sequences w) in
  let an_to_current :=
    fold_left (fun d seq => dict_set d (NuccoreSequence.accession_number seq) seq)
              current_sequences [] in
  an_to_last <-
    for_each last_sequences
      (fun seq an_to_last =>
         (if negb (dict_mem an_to_current (NuccoreSequence.accession_number seq))
          then append_deleted (NuccoreSequence.accession_number seq)
          else ret tt) ;;;
         ret (dict_set an_to_last (NuccoreSequence.accession_number seq) seq))
      [] ;;
  for_each current_sequences (fun current_seq _ => classify an_to_last current_seq) tt ;;;
  w' <- get ;;
  ret (summary_class w').

(** The version ladder of [save_blastdb], for a library that has a
    published version. *)
Definition next_version (lastPublished : BlastDb.t) (sequence_summary : SequenceUpdateSummary)
    : Z * Z * Z :=
  if (0 <? length (deleted sequence_summary))%nat
     || (0 <? length (added sequence_summary))%nat
     || (0 <? length (accession_version_changed sequence_summary))%nat
  then (BlastDb.genbank_version lastPublished + 1, 0, 0)
  else if (0 <? length (metadata_changed sequence_summary))%nat
  then (BlastDb.genbank_version lastPublished, BlastDb.major_version lastPublished + 1, 0)
  else (BlastDb.genbank_version lastPublished, BlastDb.major_version lastPublished,
        BlastDb.minor_version lastPublished + 1).

Section Controller.

Variable env : Env.

(** [os.system(command)]: runs the command and returns its exit status. *)
Definition os_system (command : string) : M Z :=
  emit (EvSystem command) ;;;
  ret (makeblastdb_status env).

(** The version chosen when [perform_lock] is set: lines
    "lastPublished = ..." to the end of the ladder. *)
Definition version_nums : M (Z * Z * Z) :=
  w <- get ;;
  match BlastDb.latest (blastdbs w) (BlastDb.library (obj w)) with
  | None => ret (1, 0, 0)
  | Some lastPublished =>
      sequence_summary <- calculate_update_summary lastPublished (obj w) ;;
      ret (next_version lastPublished sequence_summary)
  end.

(** "Make database files": the library folder, then the folder of this
    version, emptied if it exists.  Of the calls to the file system only
    [shutil.rmtree], whose failure the code catches, can fail here;
    [os.mkdir], [os.remove] and the opening of the FASTA file are taken to
    succeed, so what is proved of a sealing call beyond this point is
    proved of the calls that return. *)
Definition make_directories : M string :=
  w <- get ;;
  let library_path := get_data_library_path env (BlastDb.library (obj w)) in
  (if negb (library_path_exists env) then emit (EvMkdir library_path)
   else if library_path_isfile env
        then emit (EvRemove library_path) ;;; emit (EvMkdir library_path)
        else ret tt) ;;;
  let fishdb_path := get_data_fishdb_path env (obj w) in
  (if negb (fishdb_path_exists env) then emit (EvMkdir fishdb_path)
   else if rmtree_succeeds env
        then emit (EvRmtree fishdb_path) ;;; emit (EvMkdir fishdb_path)
        else raise (OSError "Encountered error while setting up database files.")) ;;;
  ret fishdb_path.

(** The FASTA file: a header line with the version tag, then the
    sequence. *)
Definition fasta_text (rows : list NuccoreSequence.t) : string :=
  String.concat ""
    (map (fun x => ">" ++ NuccoreSequence.version x ++ newline
                   ++ NuccoreSequence.dna_sequence x ++ newline) rows).

(** [save_blastdb(obj, perform_lock)], on the instance held in [obj]. *)
Definition save_blastdb (perform_lock : bool) : M BlastDb.t :=
  (if perform_lock then
     nums <- version_nums ;;
     fishdb_path <- make_directories ;;
     let fasta_file := fishdb_path ++ "/database.fasta" in
     w <- get ;;
     emit (EvWriteFile fasta_file
             (fasta_text (NuccoreSequence.of_database (BlastDb.id (obj w)) (sequences w)))) ;;;
     let blast_root := get_ncbi_folder env "ncbi-blast-2.12.0+" in
     let command :=
       blast_root ++ "/makeblastdb" ++ " -in " ++ fasta_file ++ " -dbtype nucl -out "
       ++ fishdb_path ++ "/database" ++ " -title " ++ "database" ++ " -parse_seqids" in
     _ <- os_system command ;;
     modify (fun w =>
       let '(g, m, n) := nums in
       set_obj (BlastDb.set_locked true (BlastDb.set_version g m n (obj w))) w) ;;;
     w <- get ;;
     match BlastDb._change_reason (obj w) with
     | None => raise (AttributeError "_change_reason")
     | Some reason =>
         let new_change_reason :=
           if (0 <? String.length reason)%nat then ["Locked database"; reason]
           else ["Locked database"] in
         modify (fun w => set_obj (BlastDb.set_change_reason (Py.join ", " new_change_reason)
                                     (obj w)) w)
     end
   else ret tt) ;;;
  modify (fun w => set_blastdbs (BlastDb.save (obj w) (blastdbs w)) w) ;;;
  w <- get ;;
  ret (obj w).

(** [append_change_reason] *)
Definition append_change_reason (reason : string) : M unit :=
  modify (fun w =>
    let change_reason :=
      match BlastDb._change_reason (obj w) with Some r => r | None => "" end in
    let reasons :=
      if (0 <? String.length change_reason)%nat then [change_reason; reason] else [reason] in
    set_obj (BlastDb.set_change_reason (Py.join ", " reasons) (obj w)) w).

(** The guard shared by [log_deleted_sequences] and [log_added_sequences]:
    [str(i)] is the text [NuccoreSequence.__str__] gives for the
    instance. *)
Definition any_mismatch (instances : list NuccoreSequence.t) (db_id : string) : bool :=
  existsb (fun i => negb (String.eqb (NuccoreSequence.str i) db_id)) instances.

(** The message of the [ValueError].  The literal runs over a line break
    escaped by a backslash: the indentation of its second line, 25 spaces,
    is part of the message. *)
Definition mismatch_message : string :=
  "One of the provided instances does not belong to the                          database specified".

(** [log_deleted_sequences] *)
Definition log_deleted_sequences (instances : list NuccoreSequence.t) : M unit :=
  w <- get ;;
  if any_mismatch instances (BlastDb.id (obj w)) then raise (ValueError mismatch_message)
  else
    append_change_reason "Deleted sequences" ;;;
    modify (fun w =>
      set_obj (BlastDb.set_deleted (Py.join ", " (map NuccoreSequence.version instances))
                 (obj w)) w).

(** [log_added_sequences] *)
Definition log_added_sequences (instances : list NuccoreSequence.t)
    (search_term : option string) : M unit :=
  w <- get ;;
  if any_mismatch instances (BlastDb.id (obj w)) then raise (ValueError mismatch_message)
  else
    append_change_reason "Added sequences" ;;;
    let search_term := match search_term with Some t => t | None => "" end in
    modify (fun w =>
      set_obj (BlastDb.set_search_terms search_term
                 (BlastDb.set_added (Py.join ", " (map NuccoreSequence.version instances))
                    (obj w))) w).

(** [delete_sequences_in_database].  [to_delete] is a query: it is
    evaluated again, on the table as it then is, when it is iterated after
    [to_delete.delete()].  [QuerySet.delete()] reports a per-model count
    only for models of which rows were deleted. *)
Definition delete_sequences_in_database (desired_nums : list string) : M Z :=
  w <- get ;;
  if BlastDb.locked (obj w) then raise DatabaseLocked
  else
    let desired_nums := Py.list_set desired_nums in
    let to_delete (rows : list NuccoreSequence.t) :=
      filter (fun s => Py.mem (NuccoreSequence.accession_number s) desired_nums)
             (NuccoreSequence.of_database (BlastDb.id (obj w)) rows) in
    let in_to_delete (s : NuccoreSequence.t) :=
      String.eqb (NuccoreSequence.owner_database s) (BlastDb.id (obj w))
      && Py.mem (NuccoreSequence.accession_number s) desired_nums in
    let result := length (to_delete (sequences w)) in
    modify (fun w => set_sequences (filter (fun s => negb (in_to_delete s)) (sequences w)) w) ;;;
    w' <- get ;;
    log_deleted_sequences (to_delete (sequences w')) ;;;
    save_blastdb false ;;;
    if (0 <? result)%nat then ret (Z.of_nat result)
    else raise (KeyError "barcode_blastn.NuccoreSequence").

(** The columns [bulk_update] writes: for every instance, the listed
    columns of its row are overwritten with the instance's values. *)
Definition copy_columns (fields : list string) (src dst : NuccoreSequence.t) : NuccoreSequence.t :=
  let dst :=
    fold_left
      (fun d field =>
         match NuccoreSequence.getattr src field with
         | Some v => NuccoreSequence.setattr field v d
         | None => d
         end)
      fields dst in
  if Py.mem "updated" fields
  then match NuccoreSequence.updated src with
       | Some u => NuccoreSequence.set_updated u dst
       | None => dst
       end
  else dst.

Definition write_columns (objs : list NuccoreSequence.t) (fields : list string)
    (rows : list NuccoreSequence.t) : list NuccoreSequence.t :=
  map (fun row =>
         match find (fun o => String.eqb (NuccoreSequence.id o) (NuccoreSequence.id row)) objs with
         | Some o => copy_columns fields o row
         | None => row
         end)
      rows.

(** The names [NuccoreSequence._meta.get_field] resolves: the fields the
    class declares in models.py, the column of its foreign key, and the
    reverse relation from [Hit]. *)
Definition known_fields : list string :=
  ["id"; "owner_database"; "owner_database_id"; "created"; "accession_number"; "version";
   "uid"; "definition"; "organism"; "organelle"; "isolate"; "country"; "specimen_voucher";
   "dna_sequence"; "translation"; "lat_lon"; "type_material"; "hit"].

(** [NuccoreSequence.objects.bulk_update(objs, fields)].  Before it writes
    anything Django resolves every name of [fields] with [get_field], which
    raises [FieldDoesNotExist] at the first name the class does not have;
    it then refuses relations and the primary key. *)
Definition bulk_update (objs : list NuccoreSequence.t) (fields : list string) : M unit :=
  if (length fields =? 0)%nat
  then raise (ValueError "Field names must be given to bulk_update().")
  else
    match find (fun name => negb (Py.mem name known_fields)) fields with
    | Some name => raise (FieldDoesNotExist name)
    | None =>
        if Py.mem "hit" fields
        then raise (ValueError "bulk_update() can only be used with concrete fields.")
        else if Py.mem "id" fields
        then raise (ValueError "bulk_update() cannot be used with primary key fields.")
        else modify (fun w => set_sequences (write_columns objs fields (sequences w)) w)
    end.

(** [update_sequences_in_database].  [fields_to_update] ends with
    ['updated'], which the class of models.py does not declare. *)
Definition update_sequences_in_database (desired_numbers : list string)
    : M (list NuccoreSequence.t) :=
  w <- get ;;
  if BlastDb.locked (obj w) then raise DatabaseLocked
  else
    let desired_numbers := Py.list_set desired_numbers in
    let of_db := NuccoreSequence.of_database (BlastDb.id (obj w)) (sequences w) in
    existing <-
      (if (0 <? length desired_numbers)%nat then
         let existing :=
           filter (fun s => Py.mem (NuccoreSequence.accession_number s) desired_numbers) of_db in
         if (length existing <? length desired_numbers)%nat then
           let existing_nums := map NuccoreSequence.accession_number existing in
           raise (AccessionsNotFound
                    (filter (fun d => negb (Py.mem d existing_nums)) desired_numbers))
         else ret existing
       else ret of_db) ;;
    genbank_data <- retrieve_gb env desired_numbers None false ;;
    let keys := map (fun d => entry_str d "accession_number") genbank_data in
    let acc_to_data :=
      fold_left (fun acc kd => dict_set acc (fst kd) (snd kd)) (combine keys genbank_data) [] in
    to_update <-
      for_each existing
        (fun record to_update =>
           match dict_get acc_to_data (NuccoreSequence.accession_number record) with
           | None => raise (KeyError (NuccoreSequence.accession_number record))
           | Some data =>
               w <- get ;;
               let record :=
                 fold_left (fun r kv => NuccoreSequence.setattr (fst kv) (py_str (snd kv)) r)
                           data record in
               let record := NuccoreSequence.set_updated (now env (length (trace w))) record in
               ret (to_update ++ [record])%list
           end)
        [] ;;
    match genbank_data with
    | [] => raise IndexError
    | first :: _ =>
        let fields_to_update := (dict_keys first ++ ["updated"])%list in
        bulk_update to_update fields_to_update ;;;
        ret to_update
    end.

(** The rows [filter_sequences_in_database] selects: the blacklist, then
    one more alternative for each bound that is set. *)
Definition violates (min_length max_length max_ambiguous_bases : Z) (blacklist : list string)
    (s : NuccoreSequence.t) : bool :=
  let length := Py.len (NuccoreSequence.dna_sequence s) in
  let uppercase := Py.upper (NuccoreSequence.dna_sequence s) in
  let ambiguous := Py.len uppercase - Py.len (Py.remove_char "N"%char uppercase) in
  (Py.mem (NuccoreSequence.accession_number s) blacklist
   || Py.mem (NuccoreSequence.version s) blacklist)
  || ((-1 <? min_length) && (length <? min_length))
  || ((-1 <? max_length) && (max_length <? length))
  || ((-1 <? max_ambiguous_bases) && (max_ambiguous_bases <? ambiguous)).

(** [filter_sequences_in_database].  [require_taxonomy] is a parameter of
    the function; its body does not read it.  The value returned is the
    query [violations], evaluated on the table as it is after the
    deletion. *)
Definition filter_sequences_in_database (min_length max_length max_ambiguous_bases : Z)
    (blacklist : list string) (require_taxonomy : bool) : M (list NuccoreSequence.t) :=
  w <- get ;;
  let violations (rows : list NuccoreSequence.t) :=
    filter (violates min_length max_length max_ambiguous_bases blacklist)
           (NuccoreSequence.of_database (BlastDb.id (obj w)) rows) in
  let change_reason : list string :=
    (if (0 <? length blacklist)%nat
     then ["Remove using blacklist " ++ Py.join ", " blacklist] else [])
    ++l (if -1 <? min_length
         then ["Delete length < " ++ Py.str_of_Z min_length ++ " bp"] else [])
    ++l (if -1 <? max_length
         then ["Delete length > " ++ Py.str_of_Z max_length ++ " bp"] else [])
    ++l (if -1 <? max_ambiguous_bases
         then ["Delete if Ns > " ++ Py.str_of_Z max_ambiguous_bases ++ " bp"] else []) in
  modify (fun w' =>
    set_sequences
      (filter (fun s =>
                 negb (String.eqb (NuccoreSequence.owner_database s) (BlastDb.id (obj w))
                       && violates min_length max_length max_ambiguous_bases blacklist s))
              (sequences w'))
      w') ;;;
  append_change_reason (Py.join newline change_reason) ;;;
  modify (fun w => set_blastdbs (BlastDb.save (obj w) (blastdbs w)) w) ;;;
  w' <- get ;;
  ret (violations (sequences w')).

Definition taxa : list string :=
  ["superkingdom"; "kingdom"; "phylum"; "class"; "order"; "family"; "genus"; "species"].

(** [data.get(k)] *)
Definition data_get (data : Dict) (k : string) : PyVal :=
  match dict_get data k with Some v => v | None => PyNone end.

Definition is_none (v : PyVal) : bool :=
  match v with PyNone => true | _ => false end.

(** [len(sequence)] and the count of its items equal to ['N'], for the
    values on which [len] is defined. *)
Definition py_len (v : PyVal) : option Z :=
  match v with
  | PyStr s => Some (Py.len s)
  | PyStrList l => Some (Z.of_nat (length l))
  | _ => None
  end.

Definition count_N (v : PyVal) : Z :=
  match v with
  | PyStr s => Z.of_nat (Py.count_char "N"%char s)
  | PyStrList l => Z.of_nat (length (filter (String.eqb "N") l))
  | _ => 0
  end.

(** The keyword arguments the constructor of [NuccoreSequence] accepts
    beside [owner_database]: the other fields of the class in models.py,
    the column of the foreign key, and [pk]. *)
Definition constructor_names : list string :=
  ["id"; "owner_database_id"; "created"; "accession_number"; "version"; "uid";
   "definition"; "organism"; "organelle"; "isolate"; "country"; "specimen_voucher";
   "dna_sequence"; "translation"; "lat_lon"; "type_material"; "pk"].

(** [NuccoreSequence(owner_database=database, **data)].  A key of [data]
    that the constructor does not accept, or a second [owner_database],
    raises [TypeError].  Otherwise the columns named by keys of [data] take
    their values and the other columns their default; [id] is the key
    drawn on construction unless [data] gives one. *)
Definition new_sequence (id owner : string) (data : Dict) : Result NuccoreSequence.t :=
  if forallb (fun k => Py.mem k constructor_names) (dict_keys data)
  then
    let given (k : string) (default : string) :=
      match dict_get data k with Some v => py_str v | None => default end in
    Ok (NuccoreSequence.mk (given "pk" (given "id" id)) (given "owner_database_id" owner)
          (entry_str data "accession_number") (entry_str data "version")
          (entry_str data "definition") (entry_str data "organism")
          (entry_str data "organelle") (entry_str data "isolate")
          (entry_str data "country") (entry_str data "specimen_voucher")
          (entry_str data "dna_sequence") (entry_str data "lat_lon")
          (entry_str data "type_material")
          [] None)
  else Raise TypeError.

(** One turn of [for data in genbank_data] in [add_sequences_to_database];
    the state is the set [existing] and the list [to_create]. *)
Definition add_one (min_length max_length max_ambiguous_bases : Z) (blacklist : list string)
    (require_taxonomy : bool) (data : Dict)
    (st : list string * list NuccoreSequence.t) : M (list string * list NuccoreSequence.t) :=
  let existing := fst st in
  let to_create := snd st in
  let an := py_str (data_get data "accession_number") in
  let version := py_str (data_get data "version") in
  if Py.mem an existing then ret st
  else
    match dict_get data "dna_sequence" with
    | None => raise (KeyError "dna_sequence")
    | Some sequence =>
        match py_len sequence with
        | None => raise TypeError
        | Some seq_len =>
            if (-1 <? min_length) && (seq_len <? min_length) then ret st
            else if (-1 <? max_length) && (max_length <? seq_len) then ret st
            else
              let n := count_N sequence in
              if (-1 <? max_ambiguous_bases) && (max_ambiguous_bases <? n) then ret st
              else
                let missing :=
                  filter (fun t => is_none (data_get data ("taxon_" ++ t))) taxa in
                if require_taxonomy && (0 <? length missing)%nat then ret st
                else if Py.mem an blacklist || Py.mem version blacklist then ret st
                else if negb (Py.mem an existing) then
                  w <- get ;;
                  modify (fun w => set_uuid_count (S (uuid_count w)) w) ;;;
                  new_seq <- lift (new_sequence (uuid4 env (uuid_count w))
                                     (BlastDb.id (obj w)) data) ;;
                  ret (an :: existing, to_create ++l [new_seq])
                else ret st
        end
    end.

(** [save_taxonomy(genbank_data)].  [parse_gb.save_taxonomy] has two
    positional parameters, [taxonomy_info] and [user], neither with a
    default: called with one argument it raises [TypeError] before its body
    runs.  Its decorators [sleep_and_retry] and [limits] pass the arguments
    on and only delay the call. *)
Definition call_save_taxonomy (genbank_data : list Dict) : M (list Dict) :=
  raise TypeError.

(** [add_sequences_to_database] *)
Definition add_sequences_to_database (desired_numbers : list string)
    (search_term : option string) (min_length max_length max_ambiguous_bases : Z)
    (blacklist : list string) (require_taxonomy : bool) : M (list NuccoreSequence.t) :=
  w <- get ;;
  if BlastDb.locked (obj w) then raise DatabaseLocked
  else if ((length desired_numbers =? 0)%nat
           && match search_term with None => true | Some _ => false end)%bool
  then ret []
  else
    let desired_numbers := Py.list_set desired_numbers in
    let existing :=
      Py.list_set (map NuccoreSequence.accession_number
                     (NuccoreSequence.of_database (BlastDb.id (obj w)) (sequences w))) in
    let conflicts := filter (fun e => Py.mem e existing) desired_numbers in
    if (0 <? length conflicts)%nat then raise (AccessionsAlreadyExist conflicts)
    else
      genbank_data <- retrieve_gb env desired_numbers search_term false ;;
      genbank_data <- call_save_taxonomy genbank_data ;;
      st <- for_each genbank_data
              (add_one min_length max_length max_ambiguous_bases blacklist require_taxonomy)
              (existing, []) ;;
      let to_create := snd st in
      modify (fun w => set_sequences (sequences w ++l to_create) w) ;;;
      let created_sequences := to_create in
      log_added_sequences created_sequences search_term ;;;
      save_blastdb false ;;;
      ret created_sequences.

End Controller.


(* ===================================================================== *)
(** * Concrete libraries, snapshots and environments                      *)
(* ===================================================================== *)

Module Fixtures.

(** A row with the given key, owner, accession, version tag, sequence and
    organism; every other column empty. *)
Definition mkseq (id owner an ver dna org : string) : NuccoreSequence.t :=
  NuccoreSequence.mk id owner an ver "" org "" "" "" "" dna "" "" [] None.

(** An environment in which the registry is unreachable, the folders do
    not yet exist, and the build tool exits with [status]. *)
Definition env_status (status : Z) : Env :=
  mkEnv (fun _ _ => None) (fun _ _ => Bio.OtherError)
        (fun n => "new-" ++ Py.str_of_Z (Z.of_nat n)) (fun _ => 0)
        (fun l => "/data/" ++ l)
        (fun o => "/data/" ++ BlastDb.library o ++ "/" ++ BlastDb.id o)
        (fun v => "/ncbi/" ++ v)
        true false false true status.

(** Snapshot [db0] of library [lib]: published as 1.0.0, holding A1. *)
Definition S0 : BlastDb.t := BlastDb.mk "db0" "lib" 1 0 0 true (Some "") None None None.

(** Snapshot [db1] of the same library: the working copy, holding A1 and a
    short A2. *)
Definition S1 : BlastDb.t := BlastDb.mk "db1" "lib" 0 0 0 false (Some "") None None None.

Definition rows : list NuccoreSequence.t :=
  [mkseq "s1" "db0" "A1" "A1.1" "ACGTACGTACGT" "Danio rerio";
   mkseq "s2" "db1" "A1" "A1.1" "ACGTACGTACGT" "Danio rerio";
   mkseq "s3" "db1" "A2" "A2.1" "ACGTA" "Danio rerio"].

(** The process has just started: the class lists are empty. *)
Definition world (o : BlastDb.t) : World :=
  mkWorld o [S0; S1] rows empty_summary 0 [].

End Fixtures.


(* ===================================================================== *)
(** * Properties of the version policy, stated on triples                                                      *)
(* ===================================================================== *)

(** Lexicographic order on version triples, the order of
    [BlastDb.Meta.ordering]. *)
Definition lex_lt (a b : Z * Z * Z) : Prop :=
  let '(g, m, n) := a in
  let '(g', m', n') := b in
  g < g' \/ (g = g' /\ (m < m' \/ (m = m' /\ n < n'))).

(** The statement "no component decreases and at least one increases". *)
Definition componentwise_increase (a b : Z * Z * Z) : Prop :=
  let '(g, m, n) := a in
  let '(g', m', n') := b in
  g <= g' /\ m <= m' /\ n <= n' /\ (g < g' \/ m < m' \/ n < n').

(* ===================================================================== *)
(** * Properties of the diff engine                                       *)
(* ===================================================================== *)

(** The five buckets of a summary, side by side. *)
Definition buckets (s : SequenceUpdateSummary) : list string :=
  (no_change s ++ accession_version_changed s ++ metadata_changed s
   ++ deleted s ++ added s)%list.

(** The accession numbers of the records of a snapshot. *)
Definition accessions_of (db : BlastDb.t) (w : World) : list string :=
  map NuccoreSequence.accession_number
      (NuccoreSequence.of_database (BlastDb.id db) (sequences w)).

(** "The buckets partition the union of the two sets of identifiers": no
    identifier twice, and exactly the identifiers of either set. *)
Definition partitions (s : SequenceUpdateSummary) (previous current : list string) : Prop :=
  NoDup (buckets s) /\ forall a, In a (buckets s) <-> In a previous \/ In a current.

(** The dictionary built from rows, keyed by accession number. *)
Definition by_accession (rows : list NuccoreSequence.t)
    (d : list (string * NuccoreSequence.t)) : list (string * NuccoreSequence.t) :=
  fold_left (fun d seq => dict_set d (NuccoreSequence.accession_number seq) seq) rows d.

(** The four buckets the second loop of [calculate_update_summary] fills. *)
Definition current_buckets (s : SequenceUpdateSummary) : list string :=
  (no_change s ++ accession_version_changed s ++ metadata_changed s ++ added s)%list.

(* ===================================================================== *)
(** * Properties of sealing                                               *)
(* ===================================================================== *)

(** The environment [env] with another exit status of the build tool. *)
Definition with_status (status : Z) (env : Env) : Env :=
  mkEnv (esearch env) (efetch env) (uuid4 env) (now env)
        (get_data_library_path env) (get_data_fishdb_path env) (get_ncbi_folder env)
        (library_path_exists env) (library_path_isfile env) (fishdb_path_exists env)
        (rmtree_succeeds env) status.

(** "Sealing a locked snapshot fails with [DatabaseLocked] and leaves its
    record set, version triple and locked flag as they were." *)
Definition seal_guard (env : Env) (w : World) : Prop :=
  BlastDb.locked (obj w) = true ->
  fst (save_blastdb env true w) = Raise DatabaseLocked
  /\ sequences (snd (save_blastdb env true w)) = sequences w
  /\ BlastDb.version_triple (obj (snd (save_blastdb env true w)))
     = BlastDb.version_triple (obj w)
  /\ BlastDb.locked (obj (snd (save_blastdb env true w))) = BlastDb.locked (obj w).

(** "If the build tool fails, sealing raises and the snapshot stays
    unlocked, with its version triple." *)
Definition build_failure_aborts (env : Env) (w : World) : Prop :=
  makeblastdb_status env <> 0 ->
  BlastDb.locked (obj w) = false ->
  (exists e, fst (save_blastdb env true w) = Raise e)
  /\ BlastDb.locked (obj (snd (save_blastdb env true w))) = false
  /\ BlastDb.version_triple (obj (snd (save_blastdb env true w)))
     = BlastDb.version_triple (obj w).

(** The folders can be prepared: the folder of the version is absent, or
    deleting it succeeds. *)
Definition directories_ready (env : Env) : Prop :=
  fishdb_path_exists env = false \/ rmtree_succeeds env = true.

(* ===================================================================== *)
(** * Properties of the collection mutators                               *)
(* ===================================================================== *)

(** The record has no node for at least one of the eight ranks. *)
Definition lacks_taxonomy (s : NuccoreSequence.t) : bool :=
  existsb (fun t => is_none (data_get (NuccoreSequence.taxa s) ("taxon_" ++ t))) taxa.

(** The number of [N] and [n] in the sequence of a record. *)
Definition ambiguous_bases (s : NuccoreSequence.t) : Z :=
  Z.of_nat (Py.count_char "N"%char (Py.upper (NuccoreSequence.dna_sequence s))).

(* ===================================================================== *)
(** * Inputs for the fetch client and the parser                          *)
(* ===================================================================== *)

Module Inputs.

(** 1501 accession numbers, ACC0 to ACC1500. *)
Definition accessions_1501 : list string :=
  map (fun n => "ACC" ++ Py.str_of_Z (Z.of_nat n)) (seq 0 1501).

(** A GenBank record whose source feature has no [type_material]
    qualifier and whose only note says nothing about type material. *)
Definition record_with_note (note : string) : Bio.SeqRecord :=
  Bio.mkSeqRecord "A1" "Danio rerio COI gene" (Some "ACGT") "A1.1" None
    ["Eukaryota"] "01-JAN-2020" []
    [Bio.mkSeqFeature "source" [("organism", ["Danio rerio"]); ("note", [note])]].

(** The same record without any note. *)
Definition record_without_note : Bio.SeqRecord :=
  Bio.mkSeqRecord "A1" "Danio rerio COI gene" (Some "ACGT") "A1.1" None
    ["Eukaryota"] "01-JAN-2020" []
    [Bio.mkSeqFeature "source" [("organism", ["Danio rerio"])]].

End Inputs.

(* ===================================================================== *)
(** * Properties of the addition of records                               *)
(* ===================================================================== *)

(** The accession numbers already in the snapshot being edited. *)
Definition existing_accessions (w : World) : list string := accessions_of (obj w) w.

(** The requested accession numbers that are already in the snapshot. *)
Definition conflicts_of (desired_numbers : list string) (w : World) : list string :=
  filter (fun e => Py.mem e (Py.list_set (existing_accessions w)))
         (Py.list_set desired_numbers).

(** The accession number [add_sequences_to_database] reads from a fetched
    entry. *)
Definition fetched_accession (data : Dict) : string :=
  py_str (data_get data "accession_number").

(** A submission reference, as a record with a REFERENCE block has. *)
Definition direct_submission : Bio.Reference :=
  Bio.mkReference "Submitted (01-JAN-2020) Fish Lab" "Doe,J." "Direct Submission".

(** An environment whose registry finds two records for every search, A1
    and A9, and returns them on every fetch. *)
Definition env_search : Env :=
  mkEnv (fun _ _ => Some (Bio.mkESearchReply 2 "webenv" "1"))
        (fun _ _ =>
           Bio.Handle
             [Bio.mkSeqRecord "A1" "Danio rerio COI gene" (Some "ACGTACGTACGT") "A1.1"
                (Some [""]) ["Eukaryota"] "01-JAN-2020" [direct_submission]
                [Bio.mkSeqFeature "source" [("organism", ["Danio rerio"])]];
              Bio.mkSeqRecord "A9" "Danio rerio COI gene" (Some "ACGTACGTACGT") "A9.1"
                (Some [""]) ["Eukaryota"] "01-JAN-2020" [direct_submission]
                [Bio.mkSeqFeature "source" [("organism", ["Danio rerio"])]]])
        (fun n => "new-" ++ Py.str_of_Z (Z.of_nat n)) (fun _ => 0)
        (fun l => "/data/" ++ l)
        (fun o => "/data/" ++ BlastDb.library o ++ "/" ++ BlastDb.id o)
        (fun v => "/ncbi/" ++ v)
        true false false true 0.

(** An environment whose registry counts 2000 records for every search. *)
Definition env_many : Env :=
  mkEnv (fun _ _ => Some (Bio.mkESearchReply 2000 "webenv" "1"))
        (fun _ _ => Bio.Handle [])
        (fun n => "new-" ++ Py.str_of_Z (Z.of_nat n)) (fun _ => 0)
        (fun l => "/data/" ++ l)
        (fun o => "/data/" ++ BlastDb.library o ++ "/" ++ BlastDb.id o)
        (fun v => "/ncbi/" ++ v)
        true false false true 0.

(* ===================================================================== *)
(** * Properties of the published versions of a library                  *)
(* ===================================================================== *)

(** The row is a sealed snapshot of the library. *)
Definition published (lib : string) (r : BlastDb.t) : Prop :=
  BlastDb.library r = lib /\ BlastDb.locked r = true.

(** The events of "Make database files" that prepare the folders. *)
Definition is_directory_event (e : Event) : bool :=
  match e with
  | EvMkdir _ | EvRemove _ | EvRmtree _ => true
  | _ => false
  end.

(** The FASTA file a sealing call writes for the snapshot held in [obj]. *)
Definition fasta_event (env : Env) (w : World) : Event :=
  EvWriteFile (get_data_fishdb_path env (obj w) ++ "/database.fasta")
    (fasta_text (NuccoreSequence.of_database (BlastDb.id (obj w)) (sequences w))).

(** The change reason a sealing call leaves on the instance. *)
Definition locked_reason (reason : string) : string :=
  Py.join ", " (if (0 <? String.length reason)%nat then ["Locked database"; reason]
                else ["Locked database"]).

(* ===================================================================== *)
(** * Properties of the parser                                            *)
(* ===================================================================== *)

(** The records of a handle that have a defined sequence, with it. *)
Definition defined_records (handle : list Bio.SeqRecord) : list (Bio.SeqRecord * string) :=
  flat_map (fun r => match Bio.seq r with Some s => [(r, s)] | None => [] end) handle.

(** What identifies a parsed entry: accession number, version tag and
    sequence. *)
Definition identity_of (entry : Dict) : string * string * string :=
  (entry_str entry "accession_number", entry_str entry "version",
   entry_str entry "dna_sequence").

(** A record with two features, of which the second is the source, with a
    type material and a note. *)
Definition record_with_type_material : Bio.SeqRecord :=
  Bio.mkSeqRecord "A1" "Danio rerio COI gene" (Some "ACGT") "A1.1" None
    ["Eukaryota"] "01-JAN-2020" []
    [Bio.mkSeqFeature "gene" [("gene", ["COI"])];
     Bio.mkSeqFeature "source"
       [("organism", ["Danio rerio"; "Brachydanio rerio"]);
        ("type_material", ["holotype of Danio rerio"]);
        ("db_xref", ["BOLD:AAA1111"; "taxon:7955"]);
        ("note", ["type: paratype of something else"])]].

(* ===================================================================== *)
(** * Properties of the strict mode of the fetch client                   *)
(* ===================================================================== *)

(** The entry answers a requested identifier: it carries it as accession
    number or as version tag. *)
Definition answers (a : string) (entry : Dict) : Prop :=
  entry_str entry "accession_number" = a \/ entry_str entry "version" = a.

(* ===================================================================== *)
(** * Deleting snapshots and libraries; comparing hits                    *)
(* ===================================================================== *)

(** [class Hit(models.Model)]: the column [compareHits] reads.
    [percent_identity] is a [DecimalField], an exact decimal number. *)
Module Hit.
Record t : Type := mk {
  percent_identity : QArith_base.Q
}.
End Hit.

(** [compareHits] *)
Definition compareHits (hitA hitB : Hit.t) : Z :=
  if QArith_base.Qlt_le_dec (Hit.percent_identity hitA) (Hit.percent_identity hitB) then 1
  else if QArith_base.Qlt_le_dec (Hit.percent_identity hitB) (Hit.percent_identity hitA) then -1
  else 0.

(** The rows of a [BlastDb] query in the order of [Meta.ordering]; rows
    with equal version triples are left in table order. *)
Fixpoint insert_by_version (r : BlastDb.t) (l : list BlastDb.t) : list BlastDb.t :=
  match l with
  | [] => [r]
  | x :: l' => if BlastDb.version_ltb x r then x :: insert_by_version r l' else r :: l
  end.

Definition ordered (rows : list BlastDb.t) : list BlastDb.t :=
  fold_right insert_by_version [] rows.

(** The events that remove a folder with all it holds. *)
Definition is_rmtree (e : Event) : bool :=
  match e with
  | EvRmtree _ => true
  | _ => false
  end.

Section Deletion.

Variable env : Env.

(** [os.path.exists] *)
Variable path_exists : string -> bool.

(** [blast_db.delete()]: the row of the snapshot goes, and with it the
    records that refer to it ([on_delete=models.CASCADE]). *)
Definition delete_row (blast_db : BlastDb.t) : M unit :=
  modify (fun w =>
    set_sequences
      (filter (fun s => negb (String.eqb (NuccoreSequence.owner_database s)
                                         (BlastDb.id blast_db)))
              (sequences w))
      (set_blastdbs
         (filter (fun r => negb (String.eqb (BlastDb.id r) (BlastDb.id blast_db)))
                 (blastdbs w))
         w)).

(** [delete_blastdb].  [shutil.rmtree(..., ignore_errors=True)] does not
    raise, so the [except] arm is not taken. *)
Definition delete_blastdb (blast_db : option BlastDb.t) : M unit :=
  match blast_db with
  | None => raise (ValueError "Library cannnot be None")
  | Some blast_db =>
      let local_db_folder := get_data_fishdb_path env blast_db in
      (if (0 <? String.length (BlastDb.id blast_db))%nat && path_exists local_db_folder
       then emit (EvRmtree local_db_folder)
       else ret tt) ;;;
      delete_row blast_db
  end.

(** [delete_library].  A library is known by its key.  [dbs] is evaluated
    when the loop starts.  [library.delete()] removes the library and, by
    cascade, the snapshots that still refer to it and their records. *)
Definition delete_library (library : option string) : M unit :=
  match library with
  | None => raise (ValueError "Library cannnot be None")
  | Some library =>
      w <- get ;;
      let dbs := ordered (filter (fun r => String.eqb (BlastDb.library r) library)
                                 (blastdbs w)) in
      for_each dbs (fun db _ => delete_blastdb (Some db)) tt ;;;
      modify (fun w =>
        let gone := map BlastDb.id
                        (filter (fun r => String.eqb (BlastDb.library r) library)
                                (blastdbs w)) in
        set_sequences
          (filter (fun s => negb (Py.mem (NuccoreSequence.owner_database s) gone))
                  (sequences w))
          (set_blastdbs
             (filter (fun r => negb (String.eqb (BlastDb.library r) library)) (blastdbs w))
             w))
  end.

End Deletion.

(** The library has no snapshot left, and no record of a snapshot of the
    library is left. *)
Definition library_gone (library : string) (before after : World) : Prop :=
  blastdbs after
  = filter (fun r => negb (String.eqb (BlastDb.library r) library)) (blastdbs before)
  /\ sequences after
     = filter (fun s =>
                 negb (Py.mem (NuccoreSequence.owner_database s)
                         (map BlastDb.id
                            (filter (fun r => String.eqb (BlastDb.library r) library)
                                    (blastdbs before)))))
              (sequences before).

(** A second library, with one sealed snapshot holding one record. *)
Definition world_two_libraries : World :=
  mkWorld Fixtures.S1
    [Fixtures.S0; Fixtures.S1;
     BlastDb.mk "db2" "other" 1 0 0 true (Some "") None None None]
    (Fixtures.rows ++ [Fixtures.mkseq "s4" "db2" "A1" "A1.1" "ACGTACGTACGT" "Danio rerio"])%list
    empty_summary 0 [].

(* ===================================================================== *)
(** * Properties of the requests sent to the registry                     *)
(* ===================================================================== *)

(** A fetch request within the batch size: it lists at most
    [ACCESSIONS_PER_REQUEST] identifiers, all among those asked for, or it
    reads at most that many records of a stored search. *)
Definition bounded_request (accession_numbers : list string) (ev : Event) : Prop :=
  match ev with
  | EvEFetch args =>
      match Bio.arg_id args with
      | Some ids =>
          exists chunk,
            ids = Py.join "," chunk
            /\ (0 < length chunk <= ACCESSIONS_PER_REQUEST)%nat
            /\ incl chunk accession_numbers
      | None => Bio.arg_retmax args = Some (Z.of_nat ACCESSIONS_PER_REQUEST)
      end
  | _ => True
  end.

(** The exceptions of the controller itself; a function of the fetch
    client raises none of them. *)
Definition raised_by_controller (e : Exn) : Prop :=
  e = DatabaseLocked
  \/ (exists l, e = AccessionsAlreadyExist l)
  \/ (exists l, e = AccessionsNotFound l).

(** A computation that changes nothing in the world but the trace, to
    which it appends events that satisfy [E], and that raises only
    exceptions that satisfy [X]. *)
Definition runs_within (E : Event -> Prop) (X : Exn -> Prop) {A : Type} (m : M A) : Prop :=
  forall w,
    exists t,
      snd (m w) = set_trace (trace w ++ t)%list w
      /\ Forall E t
      /\ forall e, fst (m w) = Raise e -> X e.

(** A computation that does not return normally. *)
Definition never_returns {A : Type} (m : M A) : Prop :=
  forall w a, fst (m w) <> Ok a.

(** A library without a sealed snapshot: the working copy alone. *)
Definition world_unpublished : World :=
  mkWorld Fixtures.S1 [Fixtures.S1] Fixtures.rows empty_summary 0 [].


(* ===================================================================== *)
(** * Version policy: results                                             *)
(* ===================================================================== *)

Lemma length_pos_iff {A : Type} (l : list A) : (0 <? length l)%nat = true <-> l <> [].
Proof.
  destruct l; simpl; split; intro H; try discriminate; try congruence; reflexivity.
Qed.

Lemma length_zero_iff {A : Type} (l : list A) : (0 <? length l)%nat = false <-> l = [].
Proof.
  destruct l; simpl; split; intro H; try discriminate; try congruence; reflexivity.
Qed.

(** C8, as stated, fails: a genbank bump resets the major and minor
    components, so a previous version 1.1.0 with one added accession gives
    2.0.0, whose major component is smaller. *)
Lemma next_version_resets_components :
  ~ componentwise_increase
      (BlastDb.version_triple (BlastDb.mk "db0" "lib" 1 1 0 true None None None None))
      (next_version (BlastDb.mk "db0" "lib" 1 1 0 true None None None None)
                    (mkSummary [] [] [] [] ["A3"])).
Proof.
  unfold componentwise_increase, next_version; simpl. lia.
Qed.

(** C8, amended: the next version is strictly greater than the previous
    one in lexicographic order; the genbank component never decreases;
    exactly one component grows, by one, and the components after it are
    reset to zero. *)
Theorem next_version_lex_increase (lastPublished : BlastDb.t) (s : SequenceUpdateSummary) :
  let '(g, m, n) := BlastDb.version_triple lastPublished in
  let '(g', m', n') := next_version lastPublished s in
  lex_lt (g, m, n) (g', m', n')
  /\ g <= g'
  /\ ((g' = g + 1 /\ m' = 0 /\ n' = 0)
      \/ (g' = g /\ m' = m + 1 /\ n' = 0)
      \/ (g' = g /\ m' = m /\ n' = n + 1)).
Proof.
  unfold BlastDb.version_triple, next_version, lex_lt.
  destruct (_ || _ || _); [|destruct (_ <? _)%nat]; lia.
Qed.

(* ===================================================================== *)
(** * Diff engine: results                                                *)
(* ===================================================================== *)

Ltac run_m := unfold bind, get, modify, emit, ret, raise, lift in *; simpl in *.

Lemma set_summary_class_same (w : World) : set_summary_class (summary_class w) w = w.
Proof. destruct w; reflexivity. Qed.

Lemma dict_get_set {V : Type} (d : list (string * V)) (k k' : string) (v : V) :
  dict_get (dict_set d k v) k' = if String.eqb k k' then Some v else dict_get d k'.
Proof.
  induction d as [|[k0 v0] d IH]; simpl.
  - reflexivity.
  - destruct (String.eqb k0 k) eqn:E0; simpl.
    + apply String.eqb_eq in E0; subst k0.
      destruct (String.eqb k k'); reflexivity.
    + destruct (String.eqb k0 k') eqn:E1.
      * apply String.eqb_eq in E1; subst k0. rewrite String.eqb_sym, E0. reflexivity.
      * apply IH.
Qed.

Lemma mem_In (x : string) (l : list string) : Py.mem x l = true <-> In x l.
Proof.
  unfold Py.mem. rewrite existsb_exists. split.
  - intros [y [Hy E]]. apply String.eqb_eq in E. subst. assumption.
  - intro H. exists x. split; [assumption | apply String.eqb_refl].
Qed.

Lemma mem_false (x : string) (l : list string) : Py.mem x l = false <-> ~ In x l.
Proof.
  rewrite <- mem_In. destruct (Py.mem x l); split; congruence.
Qed.

Lemma by_accession_mem (rows : list NuccoreSequence.t) :
  forall d a,
    dict_mem (by_accession rows d) a
    = dict_mem d a || Py.mem a (map NuccoreSequence.accession_number rows).
Proof.
  induction rows as [|r rows IH]; intros d a; simpl.
  - rewrite orb_false_r. reflexivity.
  - unfold by_accession in *. simpl. rewrite IH. unfold dict_mem at 1.
    rewrite dict_get_set. rewrite (String.eqb_sym a).
    destruct (String.eqb (NuccoreSequence.accession_number r) a); simpl.
    + rewrite orb_true_r. reflexivity.
    + reflexivity.
Qed.

Lemma by_accession_keys (rows : list NuccoreSequence.t) :
  forall d,
    (forall k v, dict_get d k = Some v -> NuccoreSequence.accession_number v = k) ->
    forall k v, dict_get (by_accession rows d) k = Some v ->
                NuccoreSequence.accession_number v = k.
Proof.
  induction rows as [|r rows IH]; intros d Hd k v; simpl.
  - apply Hd.
  - apply IH. intros k' v'. rewrite dict_get_set.
    destruct (String.eqb (NuccoreSequence.accession_number r) k') eqn:E.
    + intro H. inversion H; subst. apply String.eqb_eq. assumption.
    + apply Hd.
Qed.

(** The first loop of [calculate_update_summary]: it builds [an_to_last]
    and appends to [deleted] the accessions absent from the current
    snapshot. *)
Lemma last_loop (an_to_current : list (string * NuccoreSequence.t))
    (l : list NuccoreSequence.t) :
  forall d w,
    for_each l
      (fun seq an_to_last =>
         (if negb (dict_mem an_to_current (NuccoreSequence.accession_number seq))
          then append_deleted (NuccoreSequence.accession_number seq)
          else ret tt) ;;;
         ret (dict_set an_to_last (NuccoreSequence.accession_number seq) seq))
      d w
    = (Ok (by_accession l d),
       set_summary_class
         (mkSummary (no_change (summary_class w))
            (accession_version_changed (summary_class w))
            (metadata_changed (summary_class w))
            (deleted (summary_class w)
             ++ filter (fun a => negb (dict_mem an_to_current a))
                       (map NuccoreSequence.accession_number l))
            (added (summary_class w)))
         w).
Proof.
  induction l as [|seq l IH]; intros d w.
  - simpl. unfold ret. rewrite app_nil_r.
    destruct w as [o b sq [nc avc mc de ad] u t]; reflexivity.
  - simpl. unfold bind at 1.
    destruct (negb (dict_mem an_to_current (NuccoreSequence.accession_number seq))) eqn:E.
    + unfold bind at 1. unfold append_deleted, modify, ret. simpl.
      rewrite IH. simpl. rewrite <- app_assoc. reflexivity.
    + unfold bind at 1. unfold ret. rewrite IH. reflexivity.
Qed.

Ltac perm_count :=
  apply (Permutation_count_occ string_dec); intro;
  repeat rewrite count_occ_app; simpl;
  repeat match goal with |- context [string_dec ?a ?b] => destruct (string_dec a b) end;
  repeat rewrite count_occ_app; simpl;
  lia.

(** One turn of the second loop puts the accession of the current record
    into exactly one of the four buckets, and leaves [deleted] alone. *)
Lemma classify_spec (d : list (string * NuccoreSequence.t)) (c : NuccoreSequence.t) (w : World) :
  (forall k v, dict_get d k = Some v -> NuccoreSequence.accession_number v = k) ->
  exists s',
    classify d c w = (Ok tt, set_summary_class s' w)
    /\ deleted s' = deleted (summary_class w)
    /\ Permutation (current_buckets s')
         (NuccoreSequence.accession_number c :: current_buckets (summary_class w)).
Proof.
  intro Hd. unfold classify.
  destruct (dict_get d (NuccoreSequence.accession_number c)) as [instance|] eqn:E.
  - apply Hd in E. rewrite E.
    destruct (negb _ || negb _);
      [|destruct (has_any_field_changed c instance)];
      eexists; (split; [reflexivity|]); (split; [reflexivity|]);
      unfold current_buckets; simpl; perm_count.
  - eexists; (split; [reflexivity|]); (split; [reflexivity|]);
      unfold current_buckets; simpl; perm_count.
Qed.

Lemma current_loop (d : list (string * NuccoreSequence.t)) (l : list NuccoreSequence.t) :
  (forall k v, dict_get d k = Some v -> NuccoreSequence.accession_number v = k) ->
  forall w,
  exists s',
    for_each l (fun current_seq _ => classify d current_seq) tt w
    = (Ok tt, set_summary_class s' w)
    /\ deleted s' = deleted (summary_class w)
    /\ Permutation (current_buckets s')
         (map NuccoreSequence.accession_number l ++ current_buckets (summary_class w)).
Proof.
  intro Hd. induction l as [|c l IH]; intro w.
  - exists (summary_class w). simpl. unfold ret.
    rewrite set_summary_class_same. auto.
  - simpl. unfold bind.
    destruct (@classify_spec d c w Hd) as [s1 [E1 [D1 P1]]]. rewrite E1.
    destruct (IH (set_summary_class s1 w)) as [s2 [E2 [D2 P2]]]. rewrite E2.
    exists s2. simpl in *. split; [reflexivity|]. split; [congruence|].
    eapply Permutation_trans; [exact P2|].
    eapply Permutation_trans; [apply Permutation_app_head; exact P1|].
    apply Permutation_sym, Permutation_middle.
Qed.

(** What one call of [calculate_update_summary] does: it never raises, it
    touches nothing but the class lists, and it appends to them: to
    [deleted] the accessions of [last] absent from [current], to the four
    other buckets the accessions of [current], each to one bucket. *)
Lemma calculate_update_summary_spec (last current : BlastDb.t) (w : World) :
  exists s,
    calculate_update_summary last current w = (Ok s, set_summary_class s w)
    /\ deleted s
       = (deleted (summary_class w)
          ++ filter (fun a => negb (Py.mem a (accessions_of current w)))
                    (accessions_of last w))%list
    /\ Permutation (current_buckets s)
         (accessions_of current w ++ current_buckets (summary_class w)).
Proof.
  unfold calculate_update_summary. unfold bind at 1. unfold get at 1.
  unfold bind at 1. rewrite last_loop.
  unfold bind at 1.
  match goal with
  | |- context [for_each ?l (fun c _ => classify ?d c) tt ?w0] =>
      destruct (@current_loop d l) with (w := w0) as [s2 [E2 [D2 P2]]]
  end.
  { apply by_accession_keys. intros k v H. discriminate. }
  rewrite E2. unfold bind, get, ret. simpl.
  exists s2. split; [reflexivity|]. simpl in D2, P2. split.
  - rewrite D2. f_equal. unfold accessions_of. apply filter_ext.
    intro a. f_equal.
    change (fold_left _ ?l []) with (by_accession l []).
    rewrite by_accession_mem. reflexivity.
  - exact P2.
Qed.

Lemma buckets_split (s : SequenceUpdateSummary) :
  Permutation (buckets s) (current_buckets s ++ deleted s).
Proof. unfold buckets, current_buckets. perm_count. Qed.

(** X1: the first call in a process: with the class lists still empty
    and accession numbers unique within each snapshot, the call returns and
    the five buckets partition the union of the two sets of accession
    numbers. *)
Lemma calculate_update_summary_fresh_partition (last current : BlastDb.t) (w : World) :
  summary_class w = empty_summary ->
  NoDup (accessions_of last w) ->
  NoDup (accessions_of current w) ->
  exists s,
    calculate_update_summary last current w = (Ok s, set_summary_class s w)
    /\ partitions s (accessions_of last w) (accessions_of current w).
Proof.
  intros Hfresh Hl Hc.
  destruct (calculate_update_summary_spec last current w) as [s [E [D P]]].
  exists s. split; [exact E|].
  rewrite Hfresh in D, P. simpl in D, P. rewrite app_nil_r in P.
  assert (Hperm : Permutation (buckets s)
            (accessions_of current w
             ++ filter (fun a => negb (Py.mem a (accessions_of current w)))
                       (accessions_of last w))).
  { eapply Permutation_trans; [apply buckets_split|].
    rewrite D. apply Permutation_app_tail. exact P. }
  split.
  - eapply Permutation_NoDup; [apply Permutation_sym; exact Hperm|].
    apply NoDup_app.
    + exact Hc.
    + apply NoDup_filter. exact Hl.
    + intros a Ha Hf. apply filter_In in Hf. destruct Hf as [_ Hf].
      apply negb_true_iff, mem_false in Hf. contradiction.
  - intro a. split.
    + intro Ha. apply (Permutation_in _ Hperm) in Ha.
      apply in_app_or in Ha. destruct Ha as [Ha|Ha].
      * right. exact Ha.
      * left. apply filter_In in Ha. tauto.
    + intro Ha. apply (Permutation_in _ (Permutation_sym Hperm)).
      apply in_or_app.
      destruct (Py.mem a (accessions_of current w)) eqn:M.
      * left. apply mem_In. exact M.
      * right. apply filter_In. rewrite M. simpl.
        destruct Ha as [Ha|Ha]; [tauto|].
        apply mem_false in M. contradiction.
Qed.

(** C2 at a later call in the same process.  The first seal of the process
    compared the published snapshot {A1} with the working copy {A1, A2};
    the class lists kept A1 (unchanged) and A2 (added).  A second
    comparison, of {A1} with {A1}, returns buckets in which A1 occurs
    twice and A2, which is in neither set, occurs as added: the buckets do
    not partition the union of the two sets. *)
Theorem calculate_update_summary_second_call :
  let w1 := snd (calculate_update_summary Fixtures.S0 Fixtures.S1 (Fixtures.world Fixtures.S1)) in
  exists s,
    fst (calculate_update_summary Fixtures.S0 Fixtures.S0 w1) = Ok s
    /\ accessions_of Fixtures.S0 w1 = ["A1"]
    /\ no_change s = ["A1"; "A1"]
    /\ added s = ["A2"]
    /\ ~ partitions s (accessions_of Fixtures.S0 w1) (accessions_of Fixtures.S0 w1).
Proof.
  eexists. split; [vm_compute; reflexivity|].
  split; [vm_compute; reflexivity|].
  split; [reflexivity|]. split; [reflexivity|].
  intros [Hnd _]. vm_compute in Hnd.
  inversion Hnd as [|x l Hnotin _]. apply Hnotin. left. reflexivity.
Qed.

(* ===================================================================== *)
(** * The published versions of a library                                 *)
(* ===================================================================== *)

Lemma version_ltb_lex (a b : BlastDb.t) :
  BlastDb.version_ltb a b = true
  <-> lex_lt (BlastDb.version_triple a) (BlastDb.version_triple b).
Proof.
  unfold BlastDb.version_ltb, BlastDb.version_triple, lex_lt.
  rewrite !Bool.orb_true_iff, !Bool.andb_true_iff, !Bool.orb_true_iff,
          !Bool.andb_true_iff, !Z.ltb_lt, !Z.eqb_eq.
  tauto.
Qed.

Lemma version_ltb_false_trans (a b c : BlastDb.t) :
  BlastDb.version_ltb a b = false -> BlastDb.version_ltb b c = false ->
  BlastDb.version_ltb a c = false.
Proof.
  intros H1 H2. apply Bool.not_true_is_false. intro H3.
  apply Bool.not_true_iff_false in H1, H2.
  rewrite version_ltb_lex in H1, H2, H3.
  unfold lex_lt, BlastDb.version_triple in *. lia.
Qed.

Lemma version_ltb_true_false (a b c : BlastDb.t) :
  BlastDb.version_ltb a b = true -> BlastDb.version_ltb c b = false ->
  BlastDb.version_ltb c a = false.
Proof.
  intros H1 H2. apply Bool.not_true_is_false. intro H3.
  apply Bool.not_true_iff_false in H2.
  rewrite version_ltb_lex in H1, H2, H3.
  unfold lex_lt, BlastDb.version_triple in *. lia.
Qed.

Lemma version_ltb_irrefl (a : BlastDb.t) : BlastDb.version_ltb a a = false.
Proof.
  apply Bool.not_true_is_false. intro H. rewrite version_ltb_lex in H.
  unfold lex_lt, BlastDb.version_triple in *. lia.
Qed.

(** The scan of [.last()] over the rows in table order. *)
Lemma last_scan (l : list BlastDb.t) (acc : option BlastDb.t) :
  match
    fold_left
      (fun best r =>
         match best with
         | None => Some r
         | Some b => if BlastDb.version_ltb r b then Some b else Some r
         end) l acc
  with
  | None => acc = None /\ l = []
  | Some b =>
      (In b l \/ acc = Some b)
      /\ (forall r, In r l -> BlastDb.version_ltb b r = false)
      /\ (forall a, acc = Some a -> BlastDb.version_ltb b a = false)
  end.
Proof.
  revert acc. induction l as [|r l IH]; intro acc; simpl.
  - destruct acc as [a|].
    + split; [right; reflexivity|]. split; [intros r []|].
      intros a' E. inversion E; subst. apply version_ltb_irrefl.
    + split; reflexivity.
  - match goal with |- context [fold_left ?f l ?acc'] =>
      specialize (IH acc'); destruct (fold_left f l acc') as [b|] eqn:Ef
    end.
    + destruct IH as [Hin [Hmax Hacc]].
      destruct acc as [a|].
      * destruct (BlastDb.version_ltb r a) eqn:Era.
        -- split; [destruct Hin as [Hin|Hin]; [left; right; exact Hin|right; exact Hin]|].
           split.
           ++ intros r' [E|Hr']; [subst r'|apply Hmax; exact Hr'].
              apply (@version_ltb_true_false r a b Era). apply Hacc. reflexivity.
           ++ exact Hacc.
        -- split.
           ++ destruct Hin as [Hin|Hin]; [left; right; exact Hin|].
              inversion Hin; subst. left. left. reflexivity.
           ++ split.
              ** intros r' [E|Hr']; [subst r'|apply Hmax; exact Hr'].
                 apply Hacc. reflexivity.
              ** intros a' E. inversion E; subst a'.
                 apply (@version_ltb_false_trans b r a); [apply Hacc; reflexivity|exact Era].
      * split.
        -- destruct Hin as [Hin|Hin]; [left; right; exact Hin|].
           inversion Hin; subst. left. left. reflexivity.
        -- split.
           ++ intros r' [E|Hr']; [subst r'|apply Hmax; exact Hr'].
              apply Hacc. reflexivity.
           ++ intros a' E. discriminate.
    + destruct IH as [Hacc _]. destruct acc as [a|]; [destruct (BlastDb.version_ltb r a)|];
        discriminate.
Qed.

Lemma published_filter (lib : string) (r : BlastDb.t) :
  (String.eqb (BlastDb.library r) lib && BlastDb.locked r)%bool = true <-> published lib r.
Proof.
  unfold published. rewrite Bool.andb_true_iff, String.eqb_eq. tauto.
Qed.

Lemma latest_spec (rows : list BlastDb.t) (lib : string) :
  match BlastDb.latest rows lib with
  | None => forall r, In r rows -> ~ published lib r
  | Some b =>
      In b rows /\ published lib b
      /\ forall r, In r rows -> published lib r -> BlastDb.version_ltb b r = false
  end.
Proof.
  unfold BlastDb.latest.
  match goal with |- context [fold_left ?f ?l None] =>
    pose proof (last_scan l None) as H; cbv beta in H;
    destruct (fold_left f l None) as [b|]
  end.
  - destruct H as [[Hin|Hin] [Hmax _]]; [|discriminate].
    apply filter_In in Hin. destruct Hin as [Hin Hp].
    split; [exact Hin|]. split; [apply published_filter; exact Hp|].
    intros r Hr Hpr. apply Hmax. apply filter_In. split; [exact Hr|].
    apply published_filter. exact Hpr.
  - destruct H as [_ Hnil]. intros r Hr Hp.
    assert (Hf : In r (filter (fun r => String.eqb (BlastDb.library r) lib && BlastDb.locked r)%bool
                          rows)).
    { apply filter_In. split; [exact Hr|]. apply published_filter. exact Hp. }
    rewrite Hnil in Hf. exact Hf.
Qed.

(** X12: [BlastDb.objects.latest(library)] returns [None] exactly when the
    library has no sealed snapshot; otherwise it returns a sealed snapshot
    of that library of which the version triple is not below that of any
    other sealed snapshot of the library, in the lexicographic order of
    (genbank, major, minor). *)
Theorem latest_is_maximal (rows : list BlastDb.t) (lib : string) :
  (BlastDb.latest rows lib = None <-> forall r, In r rows -> ~ published lib r)
  /\ forall b,
       BlastDb.latest rows lib = Some b ->
       In b rows /\ published lib b
       /\ forall r,
            In r rows -> published lib r ->
            ~ lex_lt (BlastDb.version_triple b) (BlastDb.version_triple r).
Proof.
  pose proof (latest_spec rows lib) as H.
  destruct (BlastDb.latest rows lib) as [b|].
  - destruct H as [Hin [Hp Hmax]]. split.
    + split; [discriminate|]. intro Hno. exfalso. exact (Hno b Hin Hp).
    + intros b' E. inversion E; subst b'. split; [exact Hin|]. split; [exact Hp|].
      intros r Hr Hpr Hlt. apply version_ltb_lex in Hlt.
      rewrite (Hmax r Hr Hpr) in Hlt. discriminate.
  - split; [split; [intros _; exact H|reflexivity]|]. intros b E. discriminate.
Qed.

(* ===================================================================== *)
(** * Sealing: results                                                    *)
(* ===================================================================== *)

(** The version chosen at seal time, for a library with a published
    version: the diff never raises, and the ladder is applied to its
    result. *)
Lemma version_nums_spec (w : World) (lastPublished : BlastDb.t) :
  BlastDb.latest (blastdbs w) (BlastDb.library (obj w)) = Some lastPublished ->
  exists s,
    calculate_update_summary lastPublished (obj w) w = (Ok s, set_summary_class s w)
    /\ version_nums w = (Ok (next_version lastPublished s), set_summary_class s w).
Proof.
  intro H.
  destruct (calculate_update_summary_spec lastPublished (obj w) w) as [s [E _]].
  exists s. split; [exact E|].
  unfold version_nums, bind, get. rewrite H, E. reflexivity.
Qed.

Lemma version_nums_first (w : World) :
  BlastDb.latest (blastdbs w) (BlastDb.library (obj w)) = None ->
  version_nums w = (Ok (1, 0, 0), w).
Proof.
  intro H. unfold version_nums, bind, get. rewrite H. reflexivity.
Qed.

(** C3: the version computed at seal time from the previous version
    (g, m, n) and the update summary is (g+1, 0, 0) if [added], [deleted] or
    [accession_version_changed] is non-empty, otherwise (g, m+1, 0) if
    [metadata_changed] is non-empty, otherwise (g, m, n+1); in particular
    non-empty [added] together with non-empty [metadata_changed] gives the
    genbank bump. *)
Theorem version_ladder (w : World) (lastPublished : BlastDb.t) :
  BlastDb.latest (blastdbs w) (BlastDb.library (obj w)) = Some lastPublished ->
  exists s v,
    calculate_update_summary lastPublished (obj w) w = (Ok s, set_summary_class s w)
    /\ version_nums w = (Ok v, set_summary_class s w)
    /\ v = next_version lastPublished s
    /\ let g := BlastDb.genbank_version lastPublished in
       let m := BlastDb.major_version lastPublished in
       let n := BlastDb.minor_version lastPublished in
       ((added s <> [] \/ deleted s <> [] \/ accession_version_changed s <> [] ->
         v = (g + 1, 0, 0))
        /\ (added s = [] -> deleted s = [] -> accession_version_changed s = [] ->
            metadata_changed s <> [] -> v = (g, m + 1, 0))
        /\ (added s = [] -> deleted s = [] -> accession_version_changed s = [] ->
            metadata_changed s = [] -> v = (g, m, n + 1))
        /\ (added s <> [] -> metadata_changed s <> [] -> v = (g + 1, 0, 0))).
Proof.
  intro H. destruct (version_nums_spec w H) as [s [E V]].
  exists s, (next_version lastPublished s).
  split; [exact E|]. split; [exact V|]. split; [reflexivity|].
  unfold next_version.
  destruct (added s) as [|a la], (deleted s) as [|b lb],
           (accession_version_changed s) as [|c lc], (metadata_changed s) as [|e le];
    simpl; repeat split; intros; try reflexivity; try congruence;
    repeat match goal with H : _ \/ _ |- _ => destruct H end; congruence.
Qed.

(** The theorem applied to the working copy of the fixtures, whose library
    has the published version 1.0.0. *)
Lemma version_ladder_witness :
  BlastDb.latest (blastdbs (Fixtures.world Fixtures.S1))
                 (BlastDb.library (obj (Fixtures.world Fixtures.S1))) = Some Fixtures.S0
  /\ exists s v,
       calculate_update_summary Fixtures.S0 (obj (Fixtures.world Fixtures.S1))
         (Fixtures.world Fixtures.S1)
       = (Ok s, set_summary_class s (Fixtures.world Fixtures.S1))
       /\ version_nums (Fixtures.world Fixtures.S1)
          = (Ok v, set_summary_class s (Fixtures.world Fixtures.S1))
       /\ v = (2, 0, 0).
Proof.
  split; [reflexivity|].
  destruct (@version_ladder (Fixtures.world Fixtures.S1) Fixtures.S0 eq_refl)
    as [s [v [E [V [Hv L]]]]].
  exists s, v. split; [exact E|]. split; [exact V|].
  destruct L as [L _]. apply L. left.
  assert (Hs : s = mkSummary ["A1"] [] [] [] ["A2"]).
  { vm_compute in E. congruence. }
  rewrite Hs. simpl. discriminate.
Defined.

Lemma version_nums_frame (w : World) :
  exists v s, version_nums w = (Ok v, set_summary_class s w).
Proof.
  destruct (BlastDb.latest (blastdbs w) (BlastDb.library (obj w))) as [lp|] eqn:E.
  - destruct (version_nums_spec w E) as [s [_ V]]. eauto.
  - exists (1, 0, 0), (summary_class w).
    rewrite set_summary_class_same. apply version_nums_first. exact E.
Qed.

Lemma save_In (o : BlastDb.t) (rows : list BlastDb.t) : In o (BlastDb.save o rows).
Proof.
  induction rows as [|r rows IH]; simpl.
  - left. reflexivity.
  - destruct (String.eqb (BlastDb.id r) (BlastDb.id o)); simpl; auto.
Qed.

(** C1, as stated, fails: [save_blastdb] has no test of [obj.locked].
    Sealing the published snapshot 1.0.0 of the fixtures again returns
    normally and makes it version 1.0.1. *)
Lemma seal_guard_fails :
  ~ seal_guard (Fixtures.env_status 0) (Fixtures.world Fixtures.S0).
Proof.
  unfold seal_guard. intro H. destruct (H eq_refl) as [H1 _].
  vm_compute in H1. discriminate.
Qed.

(** C6, as stated, fails: the exit status of [os.system] is discarded.
    With a build tool that exits with status 1, sealing the working copy of
    the fixtures returns normally and locks it. *)
Lemma build_failure_does_not_abort :
  ~ build_failure_aborts (Fixtures.env_status 1) (Fixtures.world Fixtures.S1).
Proof.
  unfold build_failure_aborts. intro H.
  destruct H as [_ [H _]]; [simpl; lia | reflexivity |].
  vm_compute in H. discriminate.
Qed.

(* ===================================================================== *)
(** * Collection mutators: results                                        *)
(* ===================================================================== *)

Lemma length_remove_char (c : ascii) (s : string) :
  String.length s = (String.length (Py.remove_char c s) + Py.count_char c s)%nat.
Proof.
  induction s as [|d s IH]; simpl.
  - reflexivity.
  - destruct (Ascii.eqb d c); simpl; lia.
Qed.

(** What [violates] decides, in words of the record. *)
Lemma violates_iff (min_length max_length max_ambiguous_bases : Z) (blacklist : list string)
    (s : NuccoreSequence.t) :
  violates min_length max_length max_ambiguous_bases blacklist s = true
  <-> (In (NuccoreSequence.accession_number s) blacklist
       \/ In (NuccoreSequence.version s) blacklist
       \/ (-1 < min_length /\ Py.len (NuccoreSequence.dna_sequence s) < min_length)
       \/ (-1 < max_length /\ max_length < Py.len (NuccoreSequence.dna_sequence s))
       \/ (-1 < max_ambiguous_bases /\ max_ambiguous_bases < ambiguous_bases s)).
Proof.
  unfold violates, ambiguous_bases.
  assert (Hamb : Py.len (Py.upper (NuccoreSequence.dna_sequence s))
                 - Py.len (Py.remove_char "N" (Py.upper (NuccoreSequence.dna_sequence s)))
                 = Z.of_nat (Py.count_char "N" (Py.upper (NuccoreSequence.dna_sequence s)))).
  { unfold Py.len.
    rewrite (length_remove_char "N" (Py.upper (NuccoreSequence.dna_sequence s))) at 1. lia. }
  rewrite Hamb.
  repeat rewrite orb_true_iff. repeat rewrite andb_true_iff.
  repeat rewrite Z.ltb_lt. repeat rewrite mem_In. tauto.
Qed.

(** What [filter_sequences_in_database] removes: of the rows of the
    snapshot, those that [violates] selects; the flag [require_taxonomy]
    plays no part, and neither does the locked flag. *)
Lemma filter_sequences_in_database_removes (min_length max_length max_ambiguous_bases : Z)
    (blacklist : list string) (require_taxonomy : bool) (w : World) :
  exists removed,
    fst (filter_sequences_in_database min_length max_length max_ambiguous_bases blacklist
           require_taxonomy w) = Ok removed
    /\ forall r,
         In r (sequences (snd (filter_sequences_in_database min_length max_length
                                 max_ambiguous_bases blacklist require_taxonomy w)))
         <-> In r (sequences w)
             /\ ~ (NuccoreSequence.owner_database r = BlastDb.id (obj w)
                   /\ violates min_length max_length max_ambiguous_bases blacklist r = true).
Proof.
  unfold filter_sequences_in_database, append_change_reason. run_m.
  eexists. split; [reflexivity|].
  intro r. rewrite filter_In. rewrite negb_true_iff, andb_false_iff.
  rewrite String.eqb_neq.
  destruct (violates min_length max_length max_ambiguous_bases blacklist r);
    destruct (string_dec (NuccoreSequence.owner_database r) (BlastDb.id (obj w)));
    intuition congruence.
Qed.

Lemma filter_sequences_in_database_flag (min_length max_length max_ambiguous_bases : Z)
    (blacklist : list string) (w : World) :
  filter_sequences_in_database min_length max_length max_ambiguous_bases blacklist true w
  = filter_sequences_in_database min_length max_length max_ambiguous_bases blacklist false w.
Proof. reflexivity. Qed.

(** C4 on the working copy of the fixtures, none of whose records has a
    taxonomic rank: filtering with [require_taxonomy] set, no bound and an
    empty blacklist removes no record. *)
Theorem filter_ignores_require_taxonomy :
  Forall (fun s => lacks_taxonomy s = true) (sequences (Fixtures.world Fixtures.S1))
  /\ BlastDb.locked (obj (Fixtures.world Fixtures.S1)) = false
  /\ sequences (snd (filter_sequences_in_database (-1) (-1) (-1) [] true
                       (Fixtures.world Fixtures.S1)))
     = sequences (Fixtures.world Fixtures.S1).
Proof.
  split; [repeat constructor|]. split; reflexivity.
Qed.

(** X2: the three mutators that test [database.locked]: on a locked
    snapshot [add_sequences_to_database], [update_sequences_in_database]
    and [delete_sequences_in_database] raise [DatabaseLocked] and leave the
    world as it was. *)
Lemma guarded_mutators_on_locked (env : Env) (w : World)
    (accessions : list string) (search_term : option string)
    (min_length max_length max_ambiguous_bases : Z) (blacklist : list string)
    (require_taxonomy : bool) :
  BlastDb.locked (obj w) = true ->
  add_sequences_to_database env accessions search_term min_length max_length
    max_ambiguous_bases blacklist require_taxonomy w = (Raise DatabaseLocked, w)
  /\ update_sequences_in_database env accessions w = (Raise DatabaseLocked, w)
  /\ delete_sequences_in_database env accessions w = (Raise DatabaseLocked, w).
Proof.
  intro H.
  unfold add_sequences_to_database, update_sequences_in_database,
    delete_sequences_in_database, bind, get, raise.
  rewrite H. auto.
Qed.

(** C5 on the published (locked) snapshot of the fixtures, whose record A1
    has twelve bases: filtering with a minimal length of twenty returns
    normally and deletes the record. *)
Theorem filter_on_locked_snapshot :
  BlastDb.locked (obj (Fixtures.world Fixtures.S0)) = true
  /\ map NuccoreSequence.accession_number
         (NuccoreSequence.of_database "db0" (sequences (Fixtures.world Fixtures.S0)))
     = ["A1"]
  /\ fst (filter_sequences_in_database 20 (-1) (-1) [] false (Fixtures.world Fixtures.S0))
     = Ok []
  /\ NuccoreSequence.of_database "db0"
       (sequences (snd (filter_sequences_in_database 20 (-1) (-1) [] false
                          (Fixtures.world Fixtures.S0))))
     = [].
Proof.
  repeat split.
Qed.

(* ===================================================================== *)
(** * Computations that only talk to the registry                         *)
(* ===================================================================== *)

Lemma runs_within_ret (E : Event -> Prop) (X : Exn -> Prop) {A : Type} (a : A) :
  runs_within E X (ret a).
Proof.
  intro w. exists []. unfold ret. cbn [fst snd]. rewrite app_nil_r.
  split; [destruct w; reflexivity|]. split; [constructor|discriminate].
Qed.

Lemma runs_within_raise (E : Event -> Prop) (X : Exn -> Prop) {A : Type} (e : Exn) :
  X e -> runs_within E X (@raise A e).
Proof.
  intros He w. exists []. unfold raise. cbn [fst snd]. rewrite app_nil_r.
  split; [destruct w; reflexivity|]. split; [constructor|].
  intros e' H. injection H as <-. exact He.
Qed.

Lemma runs_within_lift (E : Event -> Prop) (X : Exn -> Prop) {A : Type} (r : Result A) :
  (forall e, r = Raise e -> X e) -> runs_within E X (lift r).
Proof.
  intros He w. exists []. unfold lift. cbn [fst snd]. rewrite app_nil_r.
  split; [destruct w; reflexivity|]. split; [constructor|exact He].
Qed.

Lemma runs_within_emit (E : Event -> Prop) (X : Exn -> Prop) (ev : Event) :
  E ev -> runs_within E X (emit ev).
Proof.
  intros H w. exists [ev]. split; [reflexivity|].
  split; [constructor; [exact H|constructor]|discriminate].
Qed.

Lemma runs_within_bind (E : Event -> Prop) (X : Exn -> Prop) {A B : Type}
    (m : M A) (k : A -> M B) :
  runs_within E X m -> (forall a, runs_within E X (k a)) -> runs_within E X (bind m k).
Proof.
  intros Hm Hk w. unfold bind. destruct (Hm w) as [t [Hw [Ht Hx]]].
  destruct (m w) as [[a|e] w1]; cbn [fst snd] in Hw, Hx; subst w1.
  - destruct (Hk a (set_trace (trace w ++ t) w)) as [t' [Hw' [Ht' Hx']]].
    exists (t ++ t')%list. split; [|split; [apply Forall_app; split; assumption|exact Hx']].
    rewrite Hw'. cbn [trace set_trace]. rewrite app_assoc. reflexivity.
  - exists t. split; [reflexivity|]. split; [exact Ht|].
    intros e0 H0. cbn [fst] in H0. injection H0 as <-. apply Hx. reflexivity.
Qed.

Lemma runs_within_get (E : Event -> Prop) (X : Exn -> Prop) {B : Type} (k : World -> M B) :
  (forall w, runs_within E X (k w)) -> runs_within E X (bind get k).
Proof. intros Hk w. unfold bind, get. apply Hk. Qed.

Lemma never_returns_raise {A : Type} (e : Exn) : never_returns (@raise A e).
Proof. intros w a. discriminate. Qed.

Lemma never_returns_bind_l {A B : Type} (m : M A) (k : A -> M B) :
  never_returns m -> never_returns (bind m k).
Proof.
  intros Hm w b. unfold bind. specialize (Hm w).
  destruct (m w) as [[a|e] w1]; [exfalso; exact (Hm a eq_refl)|discriminate].
Qed.

Lemma never_returns_bind_r {A B : Type} (m : M A) (k : A -> M B) :
  (forall a, never_returns (k a)) -> never_returns (bind m k).
Proof.
  intros Hk w b. unfold bind.
  destruct (m w) as [[a|e] w1]; [apply Hk|discriminate].
Qed.

(** The parser raises nothing but the [ValueError] of a [db_xref] value
    that does not split in two. *)
Lemma db_xref_loop_raises (values : list string) (d : Dict) (e : Exn) :
  db_xref_loop values d = Raise e -> e = ValueError "unpack".
Proof.
  induction values as [|v values IH]; simpl.
  - discriminate.
  - destruct (Py.split_colon v) as [|a [|b [|c l]]]; try (intro H; congruence).
    destruct (String.eqb a "taxon"); [discriminate | exact IH].
Qed.

Lemma extract_qualifiers_raises (sf : Bio.SeqFeature) (names : list string) :
  forall d e, extract_qualifiers sf names d = Raise e -> e = ValueError "unpack".
Proof.
  induction names as [|n names IH]; intros d e; simpl.
  - discriminate.
  - destruct (extract_qualifier sf n d) as [d'|e'] eqn:E.
    + apply IH.
    + intro H. inversion H; subst e'. clear H.
      unfold extract_qualifier in E.
      destruct (Bio.qualifier (Bio.qualifiers sf) n) as [values|]; [|discriminate].
      destruct (String.eqb n "db_xref").
      * eapply db_xref_loop_raises; eassumption.
      * destruct values; discriminate.
Qed.

Lemma parse_gb_handle_raises (handle : list Bio.SeqRecord) (e : Exn) :
  parse_gb_handle handle = Raise e -> e = ValueError "unpack".
Proof.
  induction handle as [|r handle IH]; simpl.
  - discriminate.
  - destruct (Bio.seq r) as [dna|]; [|exact IH].
    destruct (parse_record r dna) as [d|e'] eqn:E.
    + destruct (parse_gb_handle handle) as [ds|e'']; [discriminate|].
      intro H. inversion H; subst. apply IH. reflexivity.
    + intro H. inversion H; subst e'. clear H.
      unfold parse_record in E.
      destruct (source_feature_of r) as [sf|]; [|discriminate].
      destruct (extract_qualifiers sf qualifiers_to_extract (first_reference r (initial_data r dna)))
        as [d|e'] eqn:E'; [discriminate|].
      inversion E; subst. eapply extract_qualifiers_raises; eassumption.
Qed.

Ltac not_controller :=
  let C := fresh "C" in
  let l := fresh "l" in
  intros [C|[[l C]|[l C]]]; discriminate C.

Lemma send_gb_request_runs (E : Event -> Prop) (env : Env) (accession_numbers : list string)
    (raise_if_missing : bool) (kwargs : Bio.EFetchArgs) :
  E (EvEFetch
       (if (0 <? length accession_numbers)%nat
        then Bio.mkEFetchArgs (Some (Py.join "," accession_numbers)) (Bio.arg_webenv kwargs)
               (Bio.arg_retstart kwargs) (Bio.arg_retmax kwargs) (Bio.arg_query_key kwargs)
        else kwargs)) ->
  runs_within E (fun e => ~ raised_by_controller e)
    (send_gb_request env accession_numbers raise_if_missing kwargs).
Proof.
  intro H. unfold send_gb_request.
  apply runs_within_get; intro w0.
  apply runs_within_bind; [apply runs_within_emit; exact H|intros _].
  destruct (efetch env _ _) as [code| |handle].
  - destruct (code =? 400); apply runs_within_raise; not_controller.
  - apply runs_within_raise; not_controller.
  - apply runs_within_bind.
    + apply runs_within_lift. intros e He. apply parse_gb_handle_raises in He.
      subst e. not_controller.
    + intro result. destruct raise_if_missing; [|apply runs_within_ret].
      destruct (0 <? length (filter _ _))%nat;
        [apply runs_within_raise; not_controller|apply runs_within_ret].
Qed.

Lemma search_batches_runs (env : Env) (accession_numbers : list string)
    (webenv query_key : string) (fuel : nat) :
  forall count retstart all_data,
    runs_within (bounded_request accession_numbers) (fun e => ~ raised_by_controller e)
      (search_batches env fuel webenv query_key count retstart all_data).
Proof.
  induction fuel as [|fuel IH]; intros count retstart all_data; simpl.
  - apply runs_within_ret.
  - destruct (0 <? count); [|apply runs_within_ret].
    apply runs_within_bind.
    + apply send_gb_request_runs. reflexivity.
    + intro batch. apply runs_within_bind; [apply runs_within_emit; exact I|intros _].
      apply IH.
Qed.

Lemma id_batches_runs (env : Env) (accession_numbers : list string)
    (raise_if_missing : bool) (fuel : nat) :
  forall desired_numbers all_data,
    incl desired_numbers accession_numbers ->
    runs_within (bounded_request accession_numbers) (fun e => ~ raised_by_controller e)
      (id_batches env fuel desired_numbers raise_if_missing all_data).
Proof.
  induction fuel as [|fuel IH]; intros desired_numbers all_data Hincl.
  - apply runs_within_ret.
  - destruct desired_numbers as [|x l]; [apply runs_within_ret|].
    cbn [id_batches].
    replace ((0 <? length (x :: l))%nat) with true by reflexivity. cbv iota.
    apply runs_within_bind.
    + apply send_gb_request_runs.
      replace ((0 <? length (firstn ACCESSIONS_PER_REQUEST (x :: l)))%nat) with true
        by reflexivity.
      cbn [bounded_request Bio.arg_id].
      exists (firstn ACCESSIONS_PER_REQUEST (x :: l)). split; [reflexivity|]. split.
      * split; [unfold ACCESSIONS_PER_REQUEST; cbn [firstn length]; lia|].
        apply firstn_le_length.
      * intros a Ha. apply Hincl.
        rewrite <- (firstn_skipn ACCESSIONS_PER_REQUEST (x :: l)).
        apply in_or_app. left. exact Ha.
    + intro batch. apply runs_within_bind.
      * destruct (0 <? _)%nat; [apply runs_within_emit; exact I|apply runs_within_ret].
      * intros _. apply IH. intros a Ha. apply Hincl.
        rewrite <- (firstn_skipn ACCESSIONS_PER_REQUEST (x :: l)).
        apply in_or_app. right. exact Ha.
Qed.

(** [retrieve_gb] changes nothing but the trace, sends only requests
    within the batch size, and raises no exception of the controller. *)
Lemma retrieve_gb_runs (env : Env) (accession_numbers : list string)
    (term : option string) (raise_if_missing : bool) :
  runs_within (bounded_request accession_numbers) (fun e => ~ raised_by_controller e)
    (retrieve_gb env accession_numbers term raise_if_missing).
Proof.
  unfold retrieve_gb.
  destruct (_ && _)%bool; [apply runs_within_raise; not_controller|].
  destruct (_ >? _); [apply runs_within_raise; not_controller|].
  apply runs_within_bind.
  - destruct term as [term|]; [|apply runs_within_ret].
    destruct (0 <? _); [|apply runs_within_ret].
    apply runs_within_get; intro w0.
    apply runs_within_bind; [apply runs_within_emit; exact I|intros _].
    destruct (esearch env _ _) as [resp|]; [|apply runs_within_raise; not_controller].
    destruct (_ >? _); [apply runs_within_raise; not_controller|].
    apply search_batches_runs.
  - intro all_data. apply id_batches_runs.
    intros a Ha. unfold Py.list_set in Ha. apply nodup_In in Ha. exact Ha.
Qed.

(* ===================================================================== *)
(** * Fetch client and parser: results                                    *)
(* ===================================================================== *)

(** More requested accessions than [MAX_ACCESSIONS]: [retrieve_gb] raises
    [AccessionLimitExceeded] at once, in the world it was called in (no
    event happened), and the exception carries the list it was given. *)
Lemma retrieve_gb_over_limit (env : Env) (accession_numbers : list string)
    (term : option string) (raise_if_missing : bool) (w : World) :
  MAX_ACCESSIONS < Z.of_nat (length accession_numbers) ->
  retrieve_gb env accession_numbers term raise_if_missing w
  = (Raise (AccessionLimitExceeded (PyStrList accession_numbers) MAX_ACCESSIONS), w).
Proof.
  intro H. unfold retrieve_gb.
  destruct accession_numbers as [|a l].
  - unfold MAX_ACCESSIONS in H. simpl in H. lia.
  - replace ((length (a :: l) =? 0)%nat) with false by reflexivity. simpl andb. cbv iota.
    destruct (Z.of_nat (length (a :: l)) >? MAX_ACCESSIONS) eqn:E.
    + reflexivity.
    + rewrite Z.gtb_ltb, Z.ltb_ge in E. lia.
Qed.

(** The number of distinct requested accessions is below the number of
    requested accessions, so the ceiling also stops every request with more
    than [MAX_ACCESSIONS] distinct accessions. *)
Lemma list_set_length (l : list string) : (length (Py.list_set l) <= length l)%nat.
Proof.
  unfold Py.list_set. induction l as [|a l IH]; simpl.
  - lia.
  - destruct (in_dec string_dec a l); simpl; lia.
Qed.

(** C7 on 1501 distinct accessions: the call is stopped before any event,
    with [MAX_ACCESSIONS] as [max_accessions]; but [curr_accessions] holds
    the list of the requested accessions, not their count. *)
Theorem retrieve_gb_limit_payload (env : Env) (w : World) :
  length (Py.list_set Inputs.accessions_1501) = 1501%nat
  /\ retrieve_gb env Inputs.accessions_1501 None false w
     = (Raise (AccessionLimitExceeded (PyStrList Inputs.accessions_1501) 1500), w)
  /\ PyStrList Inputs.accessions_1501 <> PyInt 1501.
Proof.
  split; [vm_compute; reflexivity|]. split; [|discriminate].
  apply retrieve_gb_over_limit. vm_compute. reflexivity.
Qed.

(** X3: when the request stays within [MAX_ACCESSIONS] accession numbers
    and the search of a term that is not blank finds more than
    [MAX_ACCESSIONS] records, [retrieve_gb] raises [AccessionLimitExceeded]
    with the count found as payload; the search request is the only thing
    that happened: no fetch was sent and nothing else changed. *)
Lemma retrieve_gb_search_over_limit (env : Env) (accession_numbers : list string)
    (term : string) (raise_if_missing : bool) (w : World) (resp : Bio.ESearchReply) :
  Z.of_nat (length accession_numbers) <= MAX_ACCESSIONS ->
  0 < Py.len (Py.strip term) ->
  esearch env (length (trace w)) (Py.strip term) = Some resp ->
  MAX_ACCESSIONS < Bio.Count resp ->
  retrieve_gb env accession_numbers (Some term) raise_if_missing w
  = (Raise (AccessionLimitExceeded (PyInt (Bio.Count resp)) MAX_ACCESSIONS),
     set_trace (trace w ++ [EvESearch (Py.strip term)])%list w).
Proof.
  intros Hn Hlen Hs Hc. unfold retrieve_gb.
  rewrite Bool.andb_false_r.
  assert (Hle : (Z.of_nat (length accession_numbers) >? MAX_ACCESSIONS) = false).
  { rewrite Z.gtb_ltb. apply Z.ltb_ge. exact Hn. }
  rewrite Hle. apply Z.ltb_lt in Hlen. rewrite Hlen.
  unfold bind, get, emit, modify, raise. cbn [fst snd trace set_trace].
  rewrite Hs. apply Z.gtb_lt in Hc. rewrite Hc. reflexivity.
Qed.

(** The type material taken from the notes of the source feature, when it
    has no [type_material] of its own: the notes, without their first six
    characters when they contain one of the two keywords and begin (up to
    case) with "type: ". *)
Lemma infer_type_material_notes (source_feature : Bio.SeqFeature) (current_data : Dict)
    (note : list string) :
  dict_get current_data "type_material" = Some (PyStr "") ->
  Bio.qualifier (Bio.qualifiers source_feature) "note" = Some note ->
  entry_str (infer_type_material source_feature current_data) "type_material"
  = if (Py.contains "paratype" (Py.lower (Py.join newline note))
        || Py.contains "holotype" (Py.lower (Py.join newline note)))
       && (Py.startswith (Py.lower (Py.join newline note)) "type: "
           && (6 <? Py.len (Py.lower (Py.join newline note))))
    then Py.drop 6 (Py.join newline note)
    else Py.join newline note.
Proof.
  intros Ht Hn. unfold infer_type_material, entry_str. rewrite Ht, Hn. simpl String.eqb.
  cbv iota. rewrite dict_get_set. rewrite String.eqb_refl.
  destruct (_ || _); simpl; [destruct (_ && _)|]; reflexivity.
Qed.

Lemma infer_type_material_no_note (source_feature : Bio.SeqFeature) (current_data : Dict) :
  Bio.qualifier (Bio.qualifiers source_feature) "note" = None ->
  infer_type_material source_feature current_data = current_data.
Proof.
  intro Hn. unfold infer_type_material. rewrite Hn.
  destruct (dict_get current_data "type_material") as [[| | |]|]; reflexivity.
Qed.

(** C9 on a record whose only note is "collected in spring": the note has
    neither keyword, yet it becomes the type material.  With the note
    "type: holotype" the type material is "holotype"; without a note it is
    empty. *)
Theorem type_material_from_any_note :
  (exists d,
     parse_gb_handle [Inputs.record_with_note "collected in spring"] = Ok [d]
     /\ Py.contains "paratype" (Py.lower "collected in spring") = false
     /\ Py.contains "holotype" (Py.lower "collected in spring") = false
     /\ dict_get d "type_material" = Some (PyStr "collected in spring"))
  /\ (exists d,
        parse_gb_handle [Inputs.record_with_note "type: holotype"] = Ok [d]
        /\ dict_get d "type_material" = Some (PyStr "holotype"))
  /\ (exists d,
        parse_gb_handle [Inputs.record_without_note] = Ok [d]
        /\ dict_get d "type_material" = Some (PyStr "")).
Proof.
  repeat split; eexists; repeat split.
Qed.

(* ===================================================================== *)
(** * The batch loops end within their fuel                               *)
(* ===================================================================== *)

(** Any fuel of at least [Z.to_nat count] gives the same run of the search
    loop: the loop has ended when the fuel given by [retrieve_gb] is
    spent. *)
Lemma search_batches_fuel (env : Env) (webenv query_key : string) (fuel : nat) :
  forall fuel' count retstart all_data w,
    (Z.to_nat count <= fuel)%nat ->
    (Z.to_nat count <= fuel')%nat ->
    search_batches env fuel webenv query_key count retstart all_data w
    = search_batches env fuel' webenv query_key count retstart all_data w.
Proof.
  induction fuel as [|fuel IH]; intros fuel' count retstart all_data w H H'.
  - destruct fuel' as [|fuel']; [reflexivity|]. simpl.
    destruct (0 <? count) eqn:E; [|reflexivity].
    apply Z.ltb_lt in E. lia.
  - simpl. destruct (0 <? count) eqn:E.
    + apply Z.ltb_lt in E.
      destruct fuel' as [|fuel']; [lia|]. simpl.
      apply Z.ltb_lt in E. rewrite E. apply Z.ltb_lt in E.
      unfold bind.
      destruct (send_gb_request env [] false _ w) as [[batch|e] w1]; [|reflexivity].
      destruct (emit (EvSleep 1) w1) as [[u|e] w2]; [|reflexivity].
      apply IH; unfold ACCESSIONS_PER_REQUEST; lia.
    + destruct fuel' as [|fuel']; [reflexivity|]. simpl. rewrite E. reflexivity.
Qed.

(** Likewise for the loop over the requested accessions, with the number
    of accessions left as the bound. *)
Lemma id_batches_fuel (env : Env) (raise_if_missing : bool) (fuel : nat) :
  forall fuel' desired_numbers all_data w,
    (length desired_numbers <= fuel)%nat ->
    (length desired_numbers <= fuel')%nat ->
    id_batches env fuel desired_numbers raise_if_missing all_data w
    = id_batches env fuel' desired_numbers raise_if_missing all_data w.
Proof.
  induction fuel as [|fuel IH]; intros fuel' desired_numbers all_data w H H'.
  - destruct desired_numbers; [|simpl in H; lia].
    destruct fuel'; reflexivity.
  - destruct desired_numbers as [|a l].
    + destruct fuel'; reflexivity.
    + destruct fuel' as [|fuel']; [simpl in H'; lia|].
      cbn [id_batches].
      replace ((0 <? length (a :: l))%nat) with true by reflexivity.
      cbv iota. unfold bind.
      destruct (send_gb_request env _ raise_if_missing _ w) as [[batch|e] w1]; [|reflexivity].
      match goal with
      | |- context [if ?c then emit ?e else ret tt] =>
          destruct ((if c then emit e else ret tt) w1) as [[u|e'] w2]; [|reflexivity]
      end.
      assert (Hlen : (length (skipn ACCESSIONS_PER_REQUEST (a :: l)) <= length l)%nat).
      { rewrite length_skipn. unfold ACCESSIONS_PER_REQUEST. simpl. lia. }
      simpl in H, H'. apply IH; lia.
Qed.

(* ===================================================================== *)
(** * Addition of records: results                                        *)
(* ===================================================================== *)

(** The ways a call of [add_sequences_to_database] can go: the three
    tests, then the fetch, then the call of [save_taxonomy], which raises.
    The loop over the fetched entries is not reached. *)
Lemma add_sequences_to_database_run (env : Env) (desired_numbers : list string)
    (search_term : option string) (min_length max_length max_ambiguous_bases : Z)
    (blacklist : list string) (require_taxonomy : bool) (w : World) :
  add_sequences_to_database env desired_numbers search_term min_length max_length
    max_ambiguous_bases blacklist require_taxonomy w
  = if BlastDb.locked (obj w) then (Raise DatabaseLocked, w)
    else if ((length desired_numbers =? 0)%nat
             && match search_term with None => true | Some _ => false end)%bool
    then (Ok [], w)
    else if (0 <? length (conflicts_of desired_numbers w))%nat
    then (Raise (AccessionsAlreadyExist (conflicts_of desired_numbers w)), w)
    else match retrieve_gb env (Py.list_set desired_numbers) search_term false w with
         | (Ok _, w') => (Raise TypeError, w')
         | (Raise e, w') => (Raise e, w')
         end.
Proof.
  unfold add_sequences_to_database, call_save_taxonomy, conflicts_of, existing_accessions,
    accessions_of.
  unfold bind at 1, get at 1.
  destruct (BlastDb.locked (obj w)); [reflexivity|].
  destruct (_ && _)%bool; [reflexivity|].
  cbv zeta. destruct (0 <? _)%nat; [reflexivity|].
  unfold bind at 1.
  destruct (retrieve_gb env (Py.list_set desired_numbers) search_term false w) as [[data|e] w'];
    reflexivity.
Qed.

(** C10 on the code as it is.  The conflict test reads the requested
    numbers only, so a request without a conflicting number never raises
    [AccessionsAlreadyExist], whatever the search brings; but no such
    addition succeeds: [save_taxonomy] is called with one argument where
    the function has two parameters, and raises [TypeError] as soon as the
    fetch has returned.  On the working copy of the fixtures, which holds
    A1, the search brings A1 and A9: the call raises [TypeError] and the
    table is as before, A9 not inserted. *)
Theorem add_search_term_does_not_succeed :
  (forall env desired_numbers term min_length max_length max_ambiguous_bases blacklist
          require_taxonomy w,
      conflicts_of desired_numbers w = [] ->
      (forall l,
          fst (add_sequences_to_database env desired_numbers (Some term) min_length max_length
                 max_ambiguous_bases blacklist require_taxonomy w)
          <> Raise (AccessionsAlreadyExist l))
      /\ (forall created,
             fst (add_sequences_to_database env desired_numbers (Some term) min_length
                    max_length max_ambiguous_bases blacklist require_taxonomy w)
             <> Ok created))
  /\ (exists data,
         fst (retrieve_gb env_search [] (Some "danio") false (Fixtures.world Fixtures.S1))
         = Ok data
         /\ map fetched_accession data = ["A1"; "A9"])
  /\ In "A1" (existing_accessions (Fixtures.world Fixtures.S1))
  /\ fst (add_sequences_to_database env_search [] (Some "danio") (-1) (-1) (-1) [] false
            (Fixtures.world Fixtures.S1))
     = Raise TypeError
  /\ sequences (snd (add_sequences_to_database env_search [] (Some "danio") (-1) (-1) (-1) []
                       false (Fixtures.world Fixtures.S1)))
     = sequences (Fixtures.world Fixtures.S1).
Proof.
  split.
  - intros env desired_numbers term min_length max_length max_ambiguous_bases blacklist
      require_taxonomy w Hno.
    rewrite add_sequences_to_database_run, Hno.
    rewrite Bool.andb_false_r. cbn [length Nat.ltb Nat.leb].
    destruct (retrieve_gb_runs env (Py.list_set desired_numbers) (Some term) false w)
      as [t [_ [_ Hx]]].
    destruct (BlastDb.locked (obj w)); [split; intros; discriminate|].
    destruct (retrieve_gb env (Py.list_set desired_numbers) (Some term) false w)
      as [[data|e] w']; cbn [fst] in *.
    + split; intros; discriminate.
    + split; [|intros; discriminate].
      intros l H. injection H as H. apply (Hx e eq_refl). right. left. exists l. exact H.
  - split; [eexists; split; vm_compute; reflexivity|].
    split; [vm_compute; left; reflexivity|].
    split; vm_compute; reflexivity.
Qed.
(* ===================================================================== *)
(** * Further properties: witnesses of the lemmas above                   *)
(* ===================================================================== *)

(** The first comparison of the process, of the published snapshot {A1}
    with the working copy {A1, A2} of the fixtures. *)
Lemma calculate_update_summary_fresh_partition_witness :
  summary_class (Fixtures.world Fixtures.S1) = empty_summary
  /\ NoDup (accessions_of Fixtures.S0 (Fixtures.world Fixtures.S1))
  /\ NoDup (accessions_of Fixtures.S1 (Fixtures.world Fixtures.S1))
  /\ exists s,
       calculate_update_summary Fixtures.S0 Fixtures.S1 (Fixtures.world Fixtures.S1)
       = (Ok s, set_summary_class s (Fixtures.world Fixtures.S1))
       /\ partitions s ["A1"] ["A1"; "A2"].
Proof.
  assert (H0 : NoDup (accessions_of Fixtures.S0 (Fixtures.world Fixtures.S1))).
  { vm_compute. repeat constructor. intros []. }
  assert (H1 : NoDup (accessions_of Fixtures.S1 (Fixtures.world Fixtures.S1))).
  { vm_compute. repeat constructor; simpl; intuition discriminate. }
  split; [reflexivity|]. split; [exact H0|]. split; [exact H1|].
  exact (@calculate_update_summary_fresh_partition Fixtures.S0 Fixtures.S1
           (Fixtures.world Fixtures.S1) eq_refl H0 H1).
Defined.

(** The three guarded mutators on the published snapshot of the
    fixtures. *)
Lemma guarded_mutators_on_locked_witness :
  BlastDb.locked (obj (Fixtures.world Fixtures.S0)) = true
  /\ delete_sequences_in_database (Fixtures.env_status 0) ["A1"] (Fixtures.world Fixtures.S0)
     = (Raise DatabaseLocked, Fixtures.world Fixtures.S0).
Proof.
  split; [reflexivity|].
  exact (proj2 (proj2 (@guarded_mutators_on_locked (Fixtures.env_status 0)
                         (Fixtures.world Fixtures.S0) ["A1"] None (-1) (-1) (-1) [] false
                         eq_refl))).
Defined.

(** A search that finds 2000 records, in a strict request that also names
    an accession number. *)
Lemma retrieve_gb_search_over_limit_witness :
  Z.of_nat (length ["A7"]) <= MAX_ACCESSIONS
  /\ 0 < Py.len (Py.strip " danio ")
  /\ MAX_ACCESSIONS < 2000
  /\ retrieve_gb env_many ["A7"] (Some " danio ") true (Fixtures.world Fixtures.S1)
     = (Raise (AccessionLimitExceeded (PyInt 2000) MAX_ACCESSIONS),
        set_trace [EvESearch "danio"] (Fixtures.world Fixtures.S1)).
Proof.
  assert (Hn : Z.of_nat (length ["A7"]) <= MAX_ACCESSIONS) by (vm_compute; discriminate).
  assert (H0 : 0 < Py.len (Py.strip " danio ")) by (vm_compute; reflexivity).
  assert (H1 : MAX_ACCESSIONS < 2000) by (vm_compute; reflexivity).
  split; [exact Hn|]. split; [exact H0|]. split; [exact H1|].
  exact (@retrieve_gb_search_over_limit env_many ["A7"] " danio " true
           (Fixtures.world Fixtures.S1) (Bio.mkESearchReply 2000 "webenv" "1")
           Hn H0 eq_refl H1).
Defined.

(** Rows that were deleted are not found by the query that selected
    them. *)
Lemma filter_filter_empty (db : string) (p : NuccoreSequence.t -> bool)
    (rows : list NuccoreSequence.t) :
  filter p
    (filter (fun s => String.eqb (NuccoreSequence.owner_database s) db)
       (filter (fun s => negb (String.eqb (NuccoreSequence.owner_database s) db && p s)) rows))
  = [].
Proof.
  induction rows as [|r rows IH]; simpl.
  - reflexivity.
  - destruct (String.eqb (NuccoreSequence.owner_database r) db) eqn:E; simpl.
    + destruct (p r) eqn:P; simpl.
      * exact IH.
      * rewrite E. simpl. rewrite P. exact IH.
    + rewrite E. exact IH.
Qed.

(* ===================================================================== *)
(** * Further properties of the collection mutators                       *)
(* ===================================================================== *)

(** X4: [filter_sequences_in_database] keeps a row of the table exactly
    when it belongs to another snapshot or meets none of the criteria: its
    accession number and its version tag are not blacklisted, its length is
    within the bounds that are set (a bound below zero is not set), and its
    number of [N]/[n] is at most the bound when that is set. *)
Theorem filter_removes_exactly (min_length max_length max_ambiguous_bases : Z)
    (blacklist : list string) (require_taxonomy : bool) (w : World) (r : NuccoreSequence.t) :
  In r (sequences (snd (filter_sequences_in_database min_length max_length
                          max_ambiguous_bases blacklist require_taxonomy w)))
  <-> In r (sequences w)
      /\ ~ (NuccoreSequence.owner_database r = BlastDb.id (obj w)
            /\ (In (NuccoreSequence.accession_number r) blacklist
                \/ In (NuccoreSequence.version r) blacklist
                \/ (-1 < min_length
                    /\ Py.len (NuccoreSequence.dna_sequence r) < min_length)
                \/ (-1 < max_length
                    /\ max_length < Py.len (NuccoreSequence.dna_sequence r))
                \/ (-1 < max_ambiguous_bases /\ max_ambiguous_bases < ambiguous_bases r))).
Proof.
  destruct (filter_sequences_in_database_removes min_length max_length max_ambiguous_bases
              blacklist require_taxonomy w) as [removed [_ H]].
  rewrite H. rewrite violates_iff. tauto.
Qed.

(** X5: on an unlocked snapshot [delete_sequences_in_database] removes
    from the table exactly the rows of that snapshot whose accession number
    was requested; rows of other snapshots and rows not requested stay; the
    snapshot is saved with the reason "Deleted sequences" appended. *)
Theorem delete_removes_exactly (env : Env) (desired_nums : list string) (w : World) :
  BlastDb.locked (obj w) = false ->
  (forall r,
      In r (sequences (snd (delete_sequences_in_database env desired_nums w)))
      <-> In r (sequences w)
          /\ ~ (NuccoreSequence.owner_database r = BlastDb.id (obj w)
                /\ In (NuccoreSequence.accession_number r) desired_nums))
  /\ In (obj (snd (delete_sequences_in_database env desired_nums w)))
        (blastdbs (snd (delete_sequences_in_database env desired_nums w)))
  /\ BlastDb._change_reason (obj (snd (delete_sequences_in_database env desired_nums w)))
     = Some (match BlastDb._change_reason (obj w) with
             | Some r => if (0 <? String.length r)%nat
                         then r ++ ", Deleted sequences" else "Deleted sequences"
             | None => "Deleted sequences"
             end).
Proof.
  intro Hl.
  set (run := delete_sequences_in_database env desired_nums w).
  assert (Hrun : run = delete_sequences_in_database env desired_nums w) by reflexivity.
  clearbody run.
  unfold delete_sequences_in_database in Hrun.
  unfold bind at 1, get at 1 in Hrun. rewrite Hl in Hrun.
  unfold bind at 1, modify at 1 in Hrun.
  unfold bind at 1, get at 1 in Hrun.
  simpl sequences in Hrun. simpl obj in Hrun.
  (* the query, evaluated again after the deletion, is empty *)
  match type of Hrun with
  | context [log_deleted_sequences ?q] =>
      assert (Hq : q = []); [|rewrite Hq in Hrun]
  end.
  { unfold NuccoreSequence.of_database. rewrite filter_filter_empty. reflexivity. }
  unfold log_deleted_sequences, save_blastdb, append_change_reason in Hrun.
  run_m.
  destruct (0 <? length _)%nat in Hrun; subst run; simpl.
  - split; [|split; [apply save_In|]].
    + intro r. rewrite filter_In, negb_true_iff, andb_false_iff.
      rewrite String.eqb_neq, mem_false. unfold Py.list_set. rewrite nodup_In.
      destruct (string_dec (NuccoreSequence.owner_database r) (BlastDb.id (obj w)));
        tauto.
    + destruct (BlastDb._change_reason (obj w)) as [reason|]; [|reflexivity].
      destruct (0 <? String.length reason)%nat; reflexivity.
  - split; [|split; [apply save_In|]].
    + intro r. rewrite filter_In, negb_true_iff, andb_false_iff.
      rewrite String.eqb_neq, mem_false. unfold Py.list_set. rewrite nodup_In.
      destruct (string_dec (NuccoreSequence.owner_database r) (BlastDb.id (obj w)));
        tauto.
    + destruct (BlastDb._change_reason (obj w)) as [reason|]; [|reflexivity].
      destruct (0 <? String.length reason)%nat; reflexivity.
Qed.

(** The working copy of the fixtures loses A2 and keeps A1. *)
Lemma delete_removes_exactly_witness :
  BlastDb.locked (obj (Fixtures.world Fixtures.S1)) = false
  /\ forall r,
       In r (sequences (snd (delete_sequences_in_database (Fixtures.env_status 0) ["A2"]
                               (Fixtures.world Fixtures.S1))))
       <-> In r (sequences (Fixtures.world Fixtures.S1))
           /\ ~ (NuccoreSequence.owner_database r = "db1"
                 /\ In (NuccoreSequence.accession_number r) ["A2"]).
Proof.
  split; [reflexivity|].
  exact (proj1 (@delete_removes_exactly (Fixtures.env_status 0) ["A2"]
                  (Fixtures.world Fixtures.S1) eq_refl)).
Defined.

(** X6: [update_sequences_in_database] with no accession number (the
    request the docstring describes as "update all") always ends in the
    [ValueError] of [retrieve_gb], which is handed the empty list and no
    search term: nothing is updated and the registry is not contacted. *)
Theorem update_all_raises (env : Env) (w : World) :
  BlastDb.locked (obj w) = false ->
  update_sequences_in_database env [] w
  = (Raise (ValueError "List of accession numbers and search terms to query is empty."), w).
Proof.
  intro Hl. unfold update_sequences_in_database.
  unfold bind at 1, get at 1. rewrite Hl. reflexivity.
Qed.

Lemma update_all_raises_witness :
  BlastDb.locked (obj (Fixtures.world Fixtures.S1)) = false
  /\ update_sequences_in_database (Fixtures.env_status 0) [] (Fixtures.world Fixtures.S1)
     = (Raise (ValueError "List of accession numbers and search terms to query is empty."),
        Fixtures.world Fixtures.S1).
Proof.
  split; [reflexivity|].
  exact (@update_all_raises (Fixtures.env_status 0) (Fixtures.world Fixtures.S1) eq_refl).
Defined.

(* ===================================================================== *)
(** * Further properties of the update of records                         *)
(* ===================================================================== *)

Lemma selected_accessions_unique (keep : NuccoreSequence.t -> bool)
    (rows : list NuccoreSequence.t) :
  NoDup (map NuccoreSequence.accession_number rows) ->
  NoDup (map NuccoreSequence.accession_number (filter keep rows)).
Proof.
  intro Hrows. induction rows as [|row rows IH]; [constructor|].
  cbn [map filter] in *. apply NoDup_cons_iff in Hrows. destruct Hrows as [Hnew Hrest].
  destruct (keep row); [|exact (IH Hrest)].
  cbn [map]. apply NoDup_cons_iff. split; [|exact (IH Hrest)].
  intro Hin. apply Hnew. apply in_map_iff in Hin. destruct Hin as [other [Eo Ho]].
  apply filter_In in Ho. apply in_map_iff. exists other. tauto.
Qed.

(** The rows of the snapshot found for the requested numbers are fewer
    than the numbers exactly when a number is absent, provided accession
    numbers are unique within the snapshot. *)
Lemma found_fewer_iff (rows : list NuccoreSequence.t) (desired : list string) :
  NoDup (map NuccoreSequence.accession_number rows) ->
  NoDup desired ->
  ((length (filter (fun s => Py.mem (NuccoreSequence.accession_number s) desired) rows)
    <? length desired)%nat = true
   <-> exists d, In d desired /\ ~ In d (map NuccoreSequence.accession_number rows)).
Proof.
  intros Hrows Hdes.
  set (found := filter (fun s => Py.mem (NuccoreSequence.accession_number s) desired) rows).
  assert (Hnd : NoDup (map NuccoreSequence.accession_number found))
    by (apply selected_accessions_unique; exact Hrows).
  assert (Hincl : incl (map NuccoreSequence.accession_number found) desired).
  { intros a Ha. apply in_map_iff in Ha. destruct Ha as [s [Hs Hin]].
    apply filter_In in Hin. destruct Hin as [_ Hm]. apply mem_In in Hm. congruence. }
  assert (Hfound : forall d, In d desired ->
                     In d (map NuccoreSequence.accession_number rows) ->
                     In d (map NuccoreSequence.accession_number found)).
  { intros d Hd Hin. apply in_map_iff in Hin. destruct Hin as [s [Hs Hin]].
    apply in_map_iff. exists s. split; [exact Hs|].
    apply filter_In. split; [exact Hin|]. apply mem_In. congruence. }
  rewrite Nat.ltb_lt. rewrite <- (length_map NuccoreSequence.accession_number found).
  split.
  - intro Hlt.
    destruct (existsb (fun d => negb (Py.mem d (map NuccoreSequence.accession_number rows)))
                      desired) eqn:E.
    + apply existsb_exists in E. destruct E as [d [Hd Hm]].
      exists d. split; [exact Hd|]. apply mem_false. apply negb_true_iff. exact Hm.
    + exfalso.
      assert (Hall : incl desired (map NuccoreSequence.accession_number found)).
      { intros d Hd. apply Hfound; [exact Hd|].
        apply mem_In.
        destruct (Py.mem d (map NuccoreSequence.accession_number rows)) eqn:M;
          [reflexivity|].
        exfalso.
        assert (Hex : existsb
                        (fun d => negb (Py.mem d (map NuccoreSequence.accession_number rows)))
                        desired = true).
        { apply existsb_exists. exists d. rewrite M. auto. }
        congruence. }
      pose proof (NoDup_incl_length Hdes Hall). lia.
  - intros [d [Hd Hnot]].
    destruct (Nat.lt_ge_cases (length (map NuccoreSequence.accession_number found))
                              (length desired)) as [Hlt|Hge]; [exact Hlt|].
    exfalso. apply Hnot.
    pose proof (NoDup_length_incl Hnd Hge Hincl d Hd) as Hin.
    apply in_map_iff in Hin. destruct Hin as [s [Hs Hin]].
    apply filter_In in Hin. apply in_map_iff. exists s. tauto.
Qed.

Lemma runs_within_weaken (E E' : Event -> Prop) (X X' : Exn -> Prop) {A : Type} (m : M A) :
  (forall ev, E ev -> E' ev) -> (forall e, X e -> X' e) ->
  runs_within E X m -> runs_within E' X' m.
Proof.
  intros HE HX Hm w. destruct (Hm w) as [t [Hw [Ht Hx]]].
  exists t. split; [exact Hw|]. split.
  - eapply Forall_impl; [exact HE|exact Ht].
  - intros e He. apply HX, Hx, He.
Qed.

Lemma runs_within_bind_l (E : Event -> Prop) (X : Exn -> Prop) {A B : Type}
    (m : M A) (k : A -> M B) :
  runs_within E X m -> never_returns m -> runs_within E X (bind m k).
Proof.
  intros Hm Hn w. unfold bind. destruct (Hm w) as [t [Hw [Ht Hx]]]. specialize (Hn w).
  destruct (m w) as [[a|e] w1]; [exfalso; exact (Hn a eq_refl)|].
  cbn [fst snd] in *. exists t. split; [exact Hw|]. split; [exact Ht|].
  intros e0 H0. injection H0 as <-. apply Hx. reflexivity.
Qed.

Lemma find_last {A : Type} (p : A -> bool) (l : list A) (x : A) :
  p x = true -> exists y, find p (l ++ [x]) = Some y.
Proof.
  intro H. induction l as [|a l IH]; simpl.
  - rewrite H. eauto.
  - destruct (p a); [eauto|exact IH].
Qed.

(** [bulk_update] with ['updated'] among the names raises
    [FieldDoesNotExist] and writes nothing. *)
Lemma bulk_update_updated (objs : list NuccoreSequence.t) (names : list string) :
  exists name, bulk_update objs (names ++ ["updated"]) = raise (FieldDoesNotExist name).
Proof.
  unfold bulk_update.
  assert (Hlen : (length (names ++ ["updated"]) =? 0)%nat = false).
  { rewrite length_app. cbn [length]. apply Nat.eqb_neq. lia. }
  rewrite Hlen.
  destruct (@find_last string (fun name => negb (Py.mem name known_fields)) names "updated"
              eq_refl) as [name Hf].
  rewrite Hf. exists name. reflexivity.
Qed.

(** [update_sequences_in_database] from the fetch on: only the registry is
    talked to, no exception of the controller is raised, and the call does
    not return, since it ends in [bulk_update] at the latest. *)
Lemma update_after_presence (env : Env) (desired_numbers : list string)
    (existing : list NuccoreSequence.t) :
  let run :=
    (genbank_data <- retrieve_gb env desired_numbers None false ;;
     let keys := map (fun d => entry_str d "accession_number") genbank_data in
     let acc_to_data :=
       fold_left (fun acc kd => dict_set acc (fst kd) (snd kd)) (combine keys genbank_data) [] in
     to_update <-
       for_each existing
         (fun record to_update =>
            match dict_get acc_to_data (NuccoreSequence.accession_number record) with
            | None => raise (KeyError (NuccoreSequence.accession_number record))
            | Some data =>
                w <- get ;;
                let record :=
                  fold_left (fun r kv => NuccoreSequence.setattr (fst kv) (py_str (snd kv)) r)
                            data record in
                let record := NuccoreSequence.set_updated (now env (length (trace w))) record in
                ret (to_update ++l [record])
            end)
         [] ;;
     match genbank_data with
     | [] => raise IndexError
     | first :: _ =>
         let fields_to_update := (dict_keys first ++ ["updated"])%list in
         bulk_update to_update fields_to_update ;;;
         ret to_update
     end) in
  runs_within (fun _ => True) (fun e => ~ raised_by_controller e) run
  /\ never_returns run.
Proof.
  intro run. subst run. split.
  - apply runs_within_bind.
    + eapply runs_within_weaken; [| |apply retrieve_gb_runs]; auto.
    + intro genbank_data. cbv zeta. apply runs_within_bind.
      * match goal with
        | |- runs_within ?E ?X (for_each existing ?body []) =>
            assert (Hloop : forall acc, runs_within E X (for_each existing body acc))
        end; [|apply Hloop].
        induction existing as [|record existing IH]; intro acc; cbn [for_each].
        -- apply runs_within_ret.
        -- apply runs_within_bind; [|intro acc'; apply IH].
           destruct (dict_get _ _) as [data|].
           ++ apply runs_within_get. intro w0. apply runs_within_ret.
           ++ apply runs_within_raise. not_controller.
      * intro to_update. destruct genbank_data as [|first rest].
        -- apply runs_within_raise. not_controller.
        -- destruct (bulk_update_updated to_update (dict_keys first)) as [name Hb].
           rewrite Hb. apply runs_within_bind_l.
           ++ apply runs_within_raise. not_controller.
           ++ apply never_returns_raise.
  - apply never_returns_bind_r. intro genbank_data. cbv zeta.
    apply never_returns_bind_r. intro to_update.
    destruct genbank_data as [|first rest]; [apply never_returns_raise|].
    destruct (bulk_update_updated to_update (dict_keys first)) as [name Hb].
    rewrite Hb. apply never_returns_bind_l. apply never_returns_raise.
Qed.

(** X7: with accession numbers unique within the snapshot,
    [update_sequences_in_database] raises [AccessionsNotFound] exactly when
    a requested number is absent from the snapshot; the exception carries
    the absent numbers and is raised in the world the call started in, so
    before any fetch and any change. *)
Theorem update_requires_presence (env : Env) (desired_numbers : list string) (w : World) :
  BlastDb.locked (obj w) = false ->
  NoDup (existing_accessions w) ->
  ((exists d, In d desired_numbers /\ ~ In d (existing_accessions w)) ->
   update_sequences_in_database env desired_numbers w
   = (Raise (AccessionsNotFound
               (filter (fun d => negb (Py.mem d (existing_accessions w)))
                       (Py.list_set desired_numbers))), w))
  /\ ((forall d, In d desired_numbers -> In d (existing_accessions w)) ->
      forall l, fst (update_sequences_in_database env desired_numbers w)
                <> Raise (AccessionsNotFound l)).
Proof.
  intros Hl Hnd.
  unfold existing_accessions, accessions_of in *.
  set (rows := NuccoreSequence.of_database (BlastDb.id (obj w)) (sequences w)) in *.
  assert (Hset : NoDup (Py.list_set desired_numbers)) by apply NoDup_nodup.
  pose proof (found_fewer_iff rows Hnd Hset) as Hiff.
  split.
  - intros [d [Hd Habs]].
    assert (Hlt : (length (filter (fun s => Py.mem (NuccoreSequence.accession_number s)
                                               (Py.list_set desired_numbers)) rows)
                   <? length (Py.list_set desired_numbers))%nat = true).
    { apply Hiff. exists d. split; [apply nodup_In; exact Hd|exact Habs]. }
    assert (Hpos : (0 <? length (Py.list_set desired_numbers))%nat = true).
    { apply length_pos_iff. intro E.
      assert (Hin : In d (Py.list_set desired_numbers)) by (apply nodup_In; exact Hd).
      rewrite E in Hin. exact Hin. }
    unfold update_sequences_in_database.
    unfold bind at 1, get at 1. rewrite Hl.
    unfold bind at 1. fold rows. rewrite Hpos, Hlt. unfold raise.
    f_equal. f_equal. f_equal. apply filter_ext_in. intros a Ha. f_equal.
    destruct (Py.mem a (map NuccoreSequence.accession_number rows)) eqn:M.
    + apply mem_In in M. apply mem_In. apply in_map_iff in M.
      destruct M as [s [Hs Hin]]. apply in_map_iff. exists s. split; [exact Hs|].
      apply filter_In. split; [exact Hin|]. apply mem_In. congruence.
    + apply mem_false in M. apply mem_false. intro Hin. apply M.
      apply in_map_iff in Hin. destruct Hin as [s [Hs Hin]].
      apply filter_In in Hin. apply in_map_iff. exists s. tauto.
  - intros Hall l.
    assert (Hge : (length (filter (fun s => Py.mem (NuccoreSequence.accession_number s)
                                               (Py.list_set desired_numbers)) rows)
                   <? length (Py.list_set desired_numbers))%nat = false).
    { apply Bool.not_true_is_false. intro E.
      apply Hiff in E. destruct E as [d [Hd Habs]]. exfalso. apply Habs.
      apply Hall. apply (nodup_In string_dec). exact Hd. }
    unfold update_sequences_in_database.
    unfold bind at 1, get at 1. rewrite Hl.
    unfold bind at 1. fold rows. rewrite Hge.
    destruct (0 <? length (Py.list_set desired_numbers))%nat; unfold ret at 1.
    + destruct (@update_after_presence env (Py.list_set desired_numbers)
                  (filter (fun s => Py.mem (NuccoreSequence.accession_number s)
                                      (Py.list_set desired_numbers)) rows)) as [Hr _].
      destruct (Hr w) as [t [_ [_ Hx]]].
      intro H. apply (Hx _ H). right. right. exists l. reflexivity.
    + destruct (@update_after_presence env (Py.list_set desired_numbers) rows) as [Hr _].
      destruct (Hr w) as [t [_ [_ Hx]]].
      intro H. apply (Hx _ H). right. right. exists l. reflexivity.
Qed.

(** The working copy of the fixtures, which holds A1 and A2, asked to
    update A1 and A7. *)
Lemma update_requires_presence_witness :
  BlastDb.locked (obj (Fixtures.world Fixtures.S1)) = false
  /\ NoDup (existing_accessions (Fixtures.world Fixtures.S1))
  /\ update_sequences_in_database (Fixtures.env_status 0) ["A1"; "A7"]
       (Fixtures.world Fixtures.S1)
     = (Raise (AccessionsNotFound ["A7"]), Fixtures.world Fixtures.S1).
Proof.
  assert (Hnd : NoDup (existing_accessions (Fixtures.world Fixtures.S1))).
  { vm_compute. repeat constructor; simpl; intuition discriminate. }
  split; [reflexivity|]. split; [exact Hnd|].
  refine (proj1 (@update_requires_presence (Fixtures.env_status 0) ["A1"; "A7"]
                   (Fixtures.world Fixtures.S1) eq_refl Hnd) _).
  exists "A7". split; [simpl; auto|].
  vm_compute. intuition discriminate.
Defined.


(* ===================================================================== *)
(** * Further properties of the addition of records                       *)
(* ===================================================================== *)

Lemma filter_nil_forall {A : Type} (p : A -> bool) (l : list A) :
  filter p l = [] -> forall x, In x l -> p x = false.
Proof.
  induction l as [|a l IH]; simpl; intros H x Hx.
  - contradiction.
  - destruct (p a) eqn:E; [discriminate|].
    destruct Hx as [Hx|Hx]; [subst; exact E|apply IH; assumption].
Qed.



(* ===================================================================== *)
(** * Sealing: the run                                                    *)
(* ===================================================================== *)

(** A sealing call, step by step: the version chosen, the events of the
    folders, the file and the build command, and the instance saved. *)
Lemma save_blastdb_lock_run (env : Env) (w : World) :
  exists v s dirs,
    version_nums w = (Ok v, set_summary_class s w)
    /\ forallb is_directory_event dirs = true
    /\ ((fishdb_path_exists env = true /\ rmtree_succeeds env = false
         /\ save_blastdb env true w
            = (Raise (OSError "Encountered error while setting up database files."),
               mkWorld (obj w) (blastdbs w) (sequences w) s (uuid_count w)
                       (trace w ++ dirs)))
        \/ (directories_ready env
            /\ exists command,
                 let o1 := BlastDb.set_locked true
                             (BlastDb.set_version (fst (fst v)) (snd (fst v)) (snd v) (obj w)) in
                 let t := (trace w ++ dirs ++ [fasta_event env w; EvSystem command])%list in
                 match BlastDb._change_reason (obj w) with
                 | None =>
                     save_blastdb env true w
                     = (Raise (AttributeError "_change_reason"),
                        mkWorld o1 (blastdbs w) (sequences w) s (uuid_count w) t)
                 | Some reason =>
                     let o' := BlastDb.set_change_reason (locked_reason reason) o1 in
                     save_blastdb env true w
                     = (Ok o',
                        mkWorld o' (BlastDb.save o' (blastdbs w)) (sequences w) s
                                (uuid_count w) t)
                 end)).
Proof.
  destruct (version_nums_frame w) as [v [s V]].
  exists v, s.
  exists ((if negb (library_path_exists env)
           then [EvMkdir (get_data_library_path env (BlastDb.library (obj w)))]
           else if library_path_isfile env
                then [EvRemove (get_data_library_path env (BlastDb.library (obj w)));
                      EvMkdir (get_data_library_path env (BlastDb.library (obj w)))]
                else [])
          ++ (if negb (fishdb_path_exists env)
              then [EvMkdir (get_data_fishdb_path env (obj w))]
              else if rmtree_succeeds env
                   then [EvRmtree (get_data_fishdb_path env (obj w));
                         EvMkdir (get_data_fishdb_path env (obj w))]
                   else []))%list.
  split; [exact V|].
  destruct v as [[g m] n].
  unfold save_blastdb, directories_ready, fasta_event, locked_reason.
  unfold make_directories, os_system.
  destruct (fishdb_path_exists env) eqn:Ef; [destruct (rmtree_succeeds env) eqn:Er|].
  - split; [destruct (library_path_exists env), (library_path_isfile env); reflexivity|].
    right. split; [right; reflexivity|]. eexists.
    destruct (BlastDb._change_reason (obj w)) as [reason|] eqn:Ec;
      destruct (library_path_exists env), (library_path_isfile env);
      run_m; rewrite V; simpl; rewrite Ec; simpl; rewrite <- ?app_assoc; reflexivity.
  - split; [destruct (library_path_exists env), (library_path_isfile env); reflexivity|].
    left. split; [reflexivity|]. split; [reflexivity|].
    destruct (library_path_exists env), (library_path_isfile env);
      run_m; rewrite V; simpl; rewrite <- ?app_assoc; rewrite ?app_nil_r; reflexivity.
  - split; [destruct (library_path_exists env), (library_path_isfile env); reflexivity|].
    right. split; [left; reflexivity|]. eexists.
    destruct (BlastDb._change_reason (obj w)) as [reason|] eqn:Ec;
      destruct (library_path_exists env), (library_path_isfile env);
      run_m; rewrite V; simpl; rewrite Ec; simpl; rewrite <- ?app_assoc; reflexivity.
Qed.

Lemma next_version_above (lastPublished : BlastDb.t) (s : SequenceUpdateSummary) :
  lex_lt (BlastDb.version_triple lastPublished) (next_version lastPublished s).
Proof.
  unfold next_version, BlastDb.version_triple, lex_lt.
  destruct (_ || _)%bool; [lia|]. destruct (0 <? _)%nat; lia.
Qed.

Lemma save_In_inv (o r : BlastDb.t) (rows : list BlastDb.t) :
  In r (BlastDb.save o rows) -> r = o \/ In r rows.
Proof.
  induction rows as [|x rows IH]; simpl.
  - intros [E|[]]. left. symmetry. exact E.
  - destruct (String.eqb (BlastDb.id x) (BlastDb.id o)); simpl.
    + intros [E|H]; [left; symmetry; exact E|right; right; exact H].
    + intros [E|H]; [right; left; exact E|]. destruct (IH H); auto.
Qed.

(** X13: when sealing returns, the snapshot it returns is what
    [BlastDb.objects.latest] then answers for its library, and its version
    triple is strictly above the one of the version that was the latest
    before the call, in the lexicographic order of (genbank, major,
    minor). *)
Theorem seal_becomes_latest (env : Env) (w : World) (o' : BlastDb.t) :
  fst (save_blastdb env true w) = Ok o' ->
  BlastDb.latest (blastdbs (snd (save_blastdb env true w))) (BlastDb.library (obj w))
  = Some o'
  /\ forall prev,
       BlastDb.latest (blastdbs w) (BlastDb.library (obj w)) = Some prev ->
       lex_lt (BlastDb.version_triple prev) (BlastDb.version_triple o').
Proof.
  intro Hok.
  destruct (save_blastdb_lock_run env w) as [v [s [dirs [V [_ Cases]]]]].
  destruct Cases as [[_ [_ E]]|[_ [command E]]].
  { rewrite E in Hok. discriminate. }
  cbv zeta in E.
  destruct (BlastDb._change_reason (obj w)) as [reason|];
    [|rewrite E in Hok; discriminate].
  rewrite E in Hok |- *. simpl in Hok |- *. inversion Hok as [Ho]. clear Hok E.
  set (o1 := BlastDb.set_change_reason (locked_reason reason)
               (BlastDb.set_locked true
                  (BlastDb.set_version (fst (fst v)) (snd (fst v)) (snd v) (obj w)))) in *.
  assert (Hpub : published (BlastDb.library (obj w)) o1) by (split; reflexivity).
  assert (Htriple : BlastDb.version_triple o1 = v) by (destruct v as [[g m] n]; reflexivity).
  assert (Hprev : forall prev,
            BlastDb.latest (blastdbs w) (BlastDb.library (obj w)) = Some prev ->
            lex_lt (BlastDb.version_triple prev) (BlastDb.version_triple o1)).
  { intros prev Hl. destruct (version_nums_spec w Hl) as [s' [_ V']].
    rewrite V in V'. inversion V' as [[Hv Hs]]. rewrite Htriple, Hv.
    apply next_version_above. }
  assert (Hbelow : forall r,
            In r (blastdbs w) -> published (BlastDb.library (obj w)) r ->
            BlastDb.version_ltb r o1 = true).
  { intros r Hr Hp.
    pose proof (latest_spec (blastdbs w) (BlastDb.library (obj w))) as Hl.
    destruct (BlastDb.latest (blastdbs w) (BlastDb.library (obj w))) as [prev|] eqn:El.
    - destruct Hl as [_ [_ Hmax]]. specialize (Hmax r Hr Hp).
      specialize (Hprev prev eq_refl).
      apply Bool.not_true_iff_false in Hmax. rewrite version_ltb_lex in Hmax.
      apply version_ltb_lex.
      unfold lex_lt, BlastDb.version_triple in *.
      destruct o1, prev, r; simpl in *. lia.
    - exfalso. exact (Hl r Hr Hp). }
  split; [|exact Hprev].
  pose proof (latest_spec (BlastDb.save o1 (blastdbs w)) (BlastDb.library (obj w))) as Hl.
  destruct (BlastDb.latest (BlastDb.save o1 (blastdbs w)) (BlastDb.library (obj w)))
    as [b|].
  - destruct Hl as [Hin [Hp Hmax]].
    destruct (save_In_inv _ _ _ Hin) as [E|Hb]; [rewrite E; reflexivity|].
    specialize (Hmax o1 (save_In o1 (blastdbs w)) Hpub).
    rewrite (Hbelow b Hb Hp) in Hmax. discriminate.
  - exfalso. exact (Hl o1 (save_In o1 (blastdbs w)) Hpub).
Qed.

(** The working copy of the fixtures is sealed as version 2.0.0 and is then
    the latest version of its library. *)
Lemma seal_becomes_latest_witness :
  fst (save_blastdb (Fixtures.env_status 0) true (Fixtures.world Fixtures.S1))
  = Ok (BlastDb.mk "db1" "lib" 2 0 0 true (Some "Locked database") None None None)
  /\ BlastDb.latest
       (blastdbs (snd (save_blastdb (Fixtures.env_status 0) true (Fixtures.world Fixtures.S1))))
       "lib"
     = Some (BlastDb.mk "db1" "lib" 2 0 0 true (Some "Locked database") None None None).
Proof.
  assert (H : fst (save_blastdb (Fixtures.env_status 0) true (Fixtures.world Fixtures.S1))
              = Ok (BlastDb.mk "db1" "lib" 2 0 0 true (Some "Locked database") None None None))
    by reflexivity.
  split; [exact H|].
  exact (proj1 (@seal_becomes_latest (Fixtures.env_status 0) (Fixtures.world Fixtures.S1)
                  _ H)).
Defined.

(** The events a sealing call that returns has added to the trace. *)
Lemma save_blastdb_lock_trace (env : Env) (w : World) (o : BlastDb.t) :
  fst (save_blastdb env true w) = Ok o ->
  exists dirs command,
    forallb is_directory_event dirs = true
    /\ trace (snd (save_blastdb env true w))
       = (trace w ++ dirs ++ [fasta_event env w; EvSystem command])%list.
Proof.
  intro Hok.
  destruct (save_blastdb_lock_run env w) as [v [s [dirs [_ [Hd Cases]]]]].
  destruct Cases as [[_ [_ E]]|[_ [command E]]].
  { rewrite E in Hok. discriminate. }
  cbv zeta in E. exists dirs, command. split; [exact Hd|].
  destruct (BlastDb._change_reason (obj w)); rewrite E in Hok |- *;
    [reflexivity|discriminate].
Qed.

(** What a sealing call that returns has made of the instance. *)
Lemma save_blastdb_lock_result (env : Env) (w : World) (o : BlastDb.t) :
  fst (save_blastdb env true w) = Ok o ->
  BlastDb.locked o = true
  /\ BlastDb.library o = BlastDb.library (obj w)
  /\ fst (version_nums w) = Ok (BlastDb.version_triple o)
  /\ obj (snd (save_blastdb env true w)) = o
  /\ blastdbs (snd (save_blastdb env true w)) = BlastDb.save o (blastdbs w).
Proof.
  intro Hok.
  destruct (save_blastdb_lock_run env w) as [v [s [dirs [V [_ Cases]]]]].
  destruct Cases as [[_ [_ E]]|[_ [command E]]].
  { rewrite E in Hok. discriminate. }
  cbv zeta in E.
  destruct (BlastDb._change_reason (obj w)) as [reason|];
    rewrite E in Hok |- *; [|discriminate].
  cbn [fst snd obj blastdbs] in Hok |- *. injection Hok as <-.
  rewrite V. destruct v as [[g m] n]. repeat split.
Qed.

(* ===================================================================== *)
(** * Sealing a locked snapshot; sealing when the build tool fails        *)
(* ===================================================================== *)

(** C1, amended: sealing an already locked snapshot is not rejected.  The
    call never raises [DatabaseLocked]; however it ends, the record set and
    the locked flag (set) are as they were; but the version triple is not
    protected: whenever the call returns, the snapshot carries the version
    the version policy computes and is saved with it, and for a snapshot
    that is a row of the table that version is strictly above the one it
    had. *)
Theorem seal_of_locked_snapshot (env : Env) (w : World) :
  BlastDb.locked (obj w) = true ->
  fst (save_blastdb env true w) <> Raise DatabaseLocked
  /\ sequences (snd (save_blastdb env true w)) = sequences w
  /\ BlastDb.locked (obj (snd (save_blastdb env true w))) = true
  /\ forall o,
       fst (save_blastdb env true w) = Ok o ->
       fst (version_nums w) = Ok (BlastDb.version_triple o)
       /\ obj (snd (save_blastdb env true w)) = o
       /\ In o (blastdbs (snd (save_blastdb env true w)))
       /\ (In (obj w) (blastdbs w) ->
           lex_lt (BlastDb.version_triple (obj w)) (BlastDb.version_triple o)).
Proof.
  intro Hlocked.
  assert (Hframe : fst (save_blastdb env true w) <> Raise DatabaseLocked
                   /\ sequences (snd (save_blastdb env true w)) = sequences w
                   /\ BlastDb.locked (obj (snd (save_blastdb env true w))) = true).
  { destruct (save_blastdb_lock_run env w) as [v [s [dirs [V [_ Cases]]]]].
    destruct Cases as [[_ [_ E]]|[_ [command E]]].
    - rewrite E. cbn [fst snd sequences obj]. split; [discriminate|]. split; [reflexivity|].
      exact Hlocked.
    - cbv zeta in E. destruct (BlastDb._change_reason (obj w)); rewrite E;
        cbn [fst snd sequences obj]; (split; [discriminate|]); split; reflexivity. }
  destruct Hframe as [H1 [H2 H3]].
  split; [exact H1|]. split; [exact H2|]. split; [exact H3|].
  intros o Hok.
  destruct (save_blastdb_lock_result env w Hok) as [_ [_ [Hv [Ho Hb]]]].
  split; [exact Hv|]. split; [exact Ho|]. split; [rewrite Hb; apply save_In|].
  intro Hin.
  pose proof (latest_spec (blastdbs w) (BlastDb.library (obj w))) as Hl.
  destruct (BlastDb.latest (blastdbs w) (BlastDb.library (obj w))) as [prev|] eqn:El.
  - destruct Hl as [_ [_ Hmax]].
    specialize (Hmax (obj w) Hin (conj eq_refl Hlocked)).
    destruct (version_nums_spec w El) as [s [_ V]]. rewrite V in Hv.
    cbn [fst] in Hv. injection Hv as Hv.
    pose proof (next_version_above prev s) as Habove. rewrite Hv in Habove.
    apply Bool.not_true_iff_false in Hmax. rewrite version_ltb_lex in Hmax.
    unfold lex_lt, BlastDb.version_triple in *.
    destruct (obj w), prev, o; cbn in *. lia.
  - exfalso. exact (Hl (obj w) Hin (conj eq_refl Hlocked)).
Qed.

(** The theorem applied to the published snapshot of the fixtures: the
    second sealing returns, and version 1.0.0 has become 1.0.1. *)
Lemma seal_of_locked_snapshot_witness :
  BlastDb.locked (obj (Fixtures.world Fixtures.S0)) = true
  /\ fst (save_blastdb (Fixtures.env_status 0) true (Fixtures.world Fixtures.S0))
     = Ok (BlastDb.mk "db0" "lib" 1 0 1 true (Some "Locked database") None None None)
  /\ lex_lt (BlastDb.version_triple (obj (Fixtures.world Fixtures.S0)))
            (BlastDb.version_triple
               (BlastDb.mk "db0" "lib" 1 0 1 true (Some "Locked database") None None None)).
Proof.
  assert (Hok : fst (save_blastdb (Fixtures.env_status 0) true (Fixtures.world Fixtures.S0))
                = Ok (BlastDb.mk "db0" "lib" 1 0 1 true (Some "Locked database")
                        None None None)) by reflexivity.
  split; [reflexivity|]. split; [exact Hok|].
  destruct (@seal_of_locked_snapshot (Fixtures.env_status 0) (Fixtures.world Fixtures.S0)
              eq_refl) as [_ [_ [_ H]]].
  destruct (H _ Hok) as [_ [_ [_ Hlt]]].
  apply Hlt. left. reflexivity.
Defined.

(** C6, amended: sealing does not look at the outcome of the build tool.
    Whatever exit status the tool returns, the call ends in the same way
    and leaves the same world; so when it returns after the tool failed,
    the tool was invoked, and the snapshot is locked, carries the version
    the version policy computes, and is saved. *)
Theorem seal_ignores_build_status (env : Env) (w : World) (status : Z) :
  save_blastdb (with_status status env) true w = save_blastdb env true w
  /\ forall o,
       fst (save_blastdb (with_status status env) true w) = Ok o ->
       (exists command,
           In (EvSystem command) (trace (snd (save_blastdb (with_status status env) true w))))
       /\ BlastDb.locked o = true
       /\ fst (version_nums w) = Ok (BlastDb.version_triple o)
       /\ obj (snd (save_blastdb (with_status status env) true w)) = o
       /\ In o (blastdbs (snd (save_blastdb (with_status status env) true w))).
Proof.
  assert (Hsame : save_blastdb (with_status status env) true w = save_blastdb env true w)
    by reflexivity.
  split; [exact Hsame|]. rewrite Hsame. intros o Hok.
  destruct (save_blastdb_lock_trace env w Hok) as [dirs [command [_ Ht]]].
  destruct (save_blastdb_lock_result env w Hok) as [Hl [_ [Hv [Ho Hb]]]].
  split.
  - exists command. rewrite Ht. apply in_or_app. right. apply in_or_app. right.
    right. left. reflexivity.
  - split; [exact Hl|]. split; [exact Hv|]. split; [exact Ho|].
    rewrite Hb. apply save_In.
Qed.

(** The theorem applied to the working copy of the fixtures with a build
    tool that exits with status 1: the call returns, the snapshot is locked
    with version 2.0.0. *)
Lemma seal_ignores_build_status_witness :
  fst (save_blastdb (with_status 1 (Fixtures.env_status 0)) true (Fixtures.world Fixtures.S1))
  = Ok (BlastDb.mk "db1" "lib" 2 0 0 true (Some "Locked database") None None None)
  /\ BlastDb.locked (BlastDb.mk "db1" "lib" 2 0 0 true (Some "Locked database")
                       None None None) = true
  /\ In (BlastDb.mk "db1" "lib" 2 0 0 true (Some "Locked database") None None None)
        (blastdbs (snd (save_blastdb (with_status 1 (Fixtures.env_status 0)) true
                          (Fixtures.world Fixtures.S1)))).
Proof.
  assert (Hok : fst (save_blastdb (with_status 1 (Fixtures.env_status 0)) true
                       (Fixtures.world Fixtures.S1))
                = Ok (BlastDb.mk "db1" "lib" 2 0 0 true (Some "Locked database")
                        None None None)) by reflexivity.
  split; [exact Hok|].
  destruct (proj2 (@seal_ignores_build_status (Fixtures.env_status 0)
                     (Fixtures.world Fixtures.S1) 1) _ Hok) as [_ [Hl [_ [_ Hin]]]].
  split; [exact Hl|exact Hin].
Defined.

(* ===================================================================== *)
(** * Sealing: what happens outside the process                           *)
(* ===================================================================== *)

(** X14: what a sealing call does outside the process.  A call that
    returns has first only prepared folders, then written one file,
    [database.fasta] in the folder of the version, holding for each record
    of the snapshot a header line with its version tag and a line with its
    sequence, the records in some order, and then run one command.  A call
    that stops with the [OSError] of the folder clean-up has written no
    file and run no command.  A call without [perform_lock] does nothing
    outside the process. *)
Theorem seal_events (env : Env) (w : World) :
  (forall o,
      fst (save_blastdb env true w) = Ok o ->
      exists dirs rows command,
        forallb is_directory_event dirs = true
        /\ Permutation rows (NuccoreSequence.of_database (BlastDb.id (obj w)) (sequences w))
        /\ trace (snd (save_blastdb env true w))
           = (trace w ++ dirs
              ++ [EvWriteFile (get_data_fishdb_path env (obj w) ++ "/database.fasta")
                    (fasta_text rows);
                  EvSystem command])%list)
  /\ (fst (save_blastdb env true w)
      = Raise (OSError "Encountered error while setting up database files.") ->
      exists dirs,
        forallb is_directory_event dirs = true
        /\ trace (snd (save_blastdb env true w)) = (trace w ++ dirs)%list)
  /\ trace (snd (save_blastdb env false w)) = trace w.
Proof.
  split; [|split; [|reflexivity]].
  - intros o Hok.
    destruct (save_blastdb_lock_trace env w Hok) as [dirs [command [Hd Ht]]].
    exists dirs, (NuccoreSequence.of_database (BlastDb.id (obj w)) (sequences w)), command.
    split; [exact Hd|]. split; [apply Permutation_refl|exact Ht].
  - intro Hraise.
    destruct (save_blastdb_lock_run env w) as [v [s [dirs [_ [Hd Cases]]]]].
    destruct Cases as [[_ [_ E]]|[_ [command E]]].
    + exists dirs. split; [exact Hd|]. rewrite E. reflexivity.
    + cbv zeta in E. destruct (BlastDb._change_reason (obj w));
        rewrite E in Hraise; discriminate.
Qed.

(** Sealing the working copy of the fixtures returns, so the first part
    applies: the file lists the two records A1 and A2 of the snapshot. *)
Lemma seal_events_witness :
  fst (save_blastdb (Fixtures.env_status 0) true (Fixtures.world Fixtures.S1))
  = Ok (BlastDb.mk "db1" "lib" 2 0 0 true (Some "Locked database") None None None)
  /\ exists dirs rows command,
       Permutation (map NuccoreSequence.accession_number rows) ["A1"; "A2"]
       /\ trace (snd (save_blastdb (Fixtures.env_status 0) true (Fixtures.world Fixtures.S1)))
          = (dirs ++ [EvWriteFile "/data/lib/db1/database.fasta" (fasta_text rows);
                      EvSystem command])%list.
Proof.
  split; [reflexivity|].
  destruct (proj1 (@seal_events (Fixtures.env_status 0) (Fixtures.world Fixtures.S1))
              _ eq_refl) as [dirs [rows [command [_ [Hp Ht]]]]].
  exists dirs, rows, command. split.
  - exact (Permutation_map NuccoreSequence.accession_number Hp).
  - exact Ht.
Defined.
(* ===================================================================== *)
(** * The parser                                                          *)
(* ===================================================================== *)

Lemma dict_get_set_other {V : Type} (d : list (string * V)) (k k' : string) (v : V) :
  k <> k' -> dict_get (dict_set d k v) k' = dict_get d k'.
Proof.
  intro H. rewrite dict_get_set. destruct (String.eqb k k') eqn:E; [|reflexivity].
  apply String.eqb_eq in E. contradiction.
Qed.

Lemma dict_get_set_same {V : Type} (d : list (string * V)) (k : string) (v : V) :
  dict_get (dict_set d k v) k = Some v.
Proof. rewrite dict_get_set, String.eqb_refl. reflexivity. Qed.

Lemma db_xref_loop_keeps (values : list string) (d d' : Dict) (k : string) :
  db_xref_loop values d = Ok d' -> k <> "taxid" -> dict_get d' k = dict_get d k.
Proof.
  intros H Hk. induction values as [|v values IH]; simpl in H.
  - inversion H. reflexivity.
  - destruct (Py.split_colon v) as [|a [|b [|c l]]]; try discriminate.
    destruct (String.eqb a "taxon").
    + inversion H. apply dict_get_set_other. congruence.
    + apply IH. exact H.
Qed.

Lemma extract_qualifier_keeps (f : Bio.SeqFeature) (q : string) (d d' : Dict) (k : string) :
  extract_qualifier f q d = Ok d' -> k <> q -> k <> "taxid" -> dict_get d' k = dict_get d k.
Proof.
  unfold extract_qualifier. intros H Hq Ht.
  destruct (Bio.qualifier (Bio.qualifiers f) q) as [values|].
  - destruct (String.eqb q "db_xref").
    + eapply db_xref_loop_keeps; eassumption.
    + destruct values; inversion H; apply dict_get_set_other; congruence.
  - inversion H. apply dict_get_set_other. congruence.
Qed.

Lemma extract_qualifiers_keeps (f : Bio.SeqFeature) (names : list string) (k : string) :
  ~ In k names -> k <> "taxid" ->
  forall d d', extract_qualifiers f names d = Ok d' -> dict_get d' k = dict_get d k.
Proof.
  intros Hk Ht. induction names as [|q names IH]; intros d d' H; simpl in H.
  - inversion H. reflexivity.
  - destruct (extract_qualifier f q d) as [d1|e] eqn:E; [|discriminate].
    rewrite (IH (fun Hin => Hk (or_intror Hin)) d1 d' H).
    eapply extract_qualifier_keeps; [exact E| |exact Ht].
    intro Heq. apply Hk. left. symmetry. exact Heq.
Qed.

Lemma infer_type_material_keeps (f : Bio.SeqFeature) (d : Dict) (k : string) :
  k <> "type_material" -> dict_get (infer_type_material f d) k = dict_get d k.
Proof.
  intro Hk. unfold infer_type_material.
  destruct (dict_get d "type_material") as [[|tm| |]|]; try reflexivity.
  destruct (Bio.qualifier (Bio.qualifiers f) "note"); [|reflexivity].
  destruct (String.eqb tm ""); [|reflexivity].
  apply dict_get_set_other. congruence.
Qed.

Lemma first_reference_keeps (r : Bio.SeqRecord) (d : Dict) (k : string) :
  k <> "journal" -> k <> "authors" -> k <> "title" ->
  dict_get (first_reference r d) k = dict_get d k.
Proof.
  intros H1 H2 H3. unfold first_reference. destruct (Bio.references r); [reflexivity|].
  rewrite !dict_get_set_other; congruence.
Qed.

Lemma fill_keeps (names : list string) (v : PyVal) (k : string) :
  ~ In k names ->
  forall d, dict_get (fold_left (fun d q => dict_set d q v) names d) k = dict_get d k.
Proof.
  intro Hk. induction names as [|q names IH]; intro d; simpl.
  - reflexivity.
  - rewrite IH.
    + apply dict_get_set_other. intro E. apply Hk. left. exact E.
    + intro Hin. apply Hk. right. exact Hin.
Qed.

(** A field that no step of the parser assigns keeps the value of the
    dictionary literal. *)
Lemma parse_record_keeps (r : Bio.SeqRecord) (dna_sequence : string) (d : Dict) (k : string) :
  parse_record r dna_sequence = Ok d ->
  ~ In k qualifiers_to_extract -> k <> "taxid" ->
  k <> "journal" -> k <> "authors" -> k <> "title" ->
  dict_get d k = dict_get (initial_data r dna_sequence) k.
Proof.
  unfold parse_record. intros H Hq Ht H1 H2 H3.
  destruct (source_feature_of r) as [f|].
  - destruct (extract_qualifiers f qualifiers_to_extract _) as [d1|e] eqn:E; [|discriminate].
    injection H as Hd. subst d. rewrite infer_type_material_keeps.
    + rewrite (extract_qualifiers_keeps f _ Hq Ht _ E).
      apply first_reference_keeps; assumption.
    + intro Ek. apply Hq. rewrite Ek. simpl. tauto.
  - injection H as Hd. subst d.
    transitivity (dict_get (first_reference r (initial_data r dna_sequence)) k).
    + exact (@fill_keeps qualifiers_to_extract (PyStr "N/A") k Hq _).
    + apply first_reference_keeps; assumption.
Qed.

Lemma parse_record_identity (r : Bio.SeqRecord) (dna_sequence : string) (d : Dict) :
  parse_record r dna_sequence = Ok d ->
  identity_of d = (Bio.name r, Bio.id r, dna_sequence).
Proof.
  intro H. unfold identity_of, entry_str.
  rewrite !(parse_record_keeps r dna_sequence (d := d) H);
    try discriminate; try (simpl; intuition discriminate).
Qed.

(** X15: whenever [parse_gb_handle] returns, it returns one entry for each
    record of the handle that has a defined sequence, in the order of the
    handle, with the name of the record as accession number, its id as
    version tag and its sequence; records with an undefined sequence leave
    no entry. *)
Theorem parse_gb_handle_entries (handle : list Bio.SeqRecord) (result : list Dict) :
  parse_gb_handle handle = Ok result ->
  map identity_of result
  = map (fun rs => (Bio.name (fst rs), Bio.id (fst rs), snd rs)) (defined_records handle).
Proof.
  revert result. induction handle as [|r handle IH]; intros result H; simpl in H |- *.
  - injection H as <-. reflexivity.
  - destruct (Bio.seq r) as [dna|] eqn:Es; [|exact (IH result H)].
    destruct (parse_record r dna) as [d|e] eqn:Ed; [|discriminate].
    destruct (parse_gb_handle handle) as [rest|e] eqn:Er; [|discriminate].
    injection H as <-. simpl.
    rewrite (IH rest eq_refl), (parse_record_identity r dna Ed). reflexivity.
Qed.

(** A handle of three records, each with a submission reference, the second
    without a sequence. *)
Lemma parse_gb_handle_entries_witness :
  exists result,
    parse_gb_handle
      [Bio.mkSeqRecord "A1" "Danio rerio COI gene" (Some "ACGT") "A1.1"
         (Some [""]) ["Eukaryota"] "01-JAN-2020" [direct_submission]
         [Bio.mkSeqFeature "source" [("organism", ["Danio rerio"])]];
       Bio.mkSeqRecord "A2" "Danio rerio COI gene" None "A2.1"
         (Some [""]) ["Eukaryota"] "01-JAN-2020" [direct_submission]
         [Bio.mkSeqFeature "source" [("organism", ["Danio rerio"])]];
       Bio.mkSeqRecord "A3" "Danio rerio COI gene" (Some "ACGTA") "A3.2"
         (Some [""]) ["Eukaryota"] "01-JAN-2020" [direct_submission]
         [Bio.mkSeqFeature "source"
            [("organism", ["Danio rerio"]); ("db_xref", ["BOLD:AAA1111"; "taxon:7955"])]]]
    = Ok result
    /\ map identity_of result = [("A1", "A1.1", "ACGT"); ("A3", "A3.2", "ACGTA")].
Proof.
  match goal with
  | |- exists result, parse_gb_handle ?h = _ /\ _ =>
      pose proof (@parse_gb_handle_entries h) as entries
  end.
  eexists. split; [reflexivity|].
  exact (entries _ eq_refl).
Defined.

Lemma extract_qualifiers_first_value (f : Bio.SeqFeature) (q : string) (names : list string) :
  In q names -> q <> "db_xref" -> q <> "taxid" ->
  forall d d',
    extract_qualifiers f names d = Ok d' ->
    dict_get d' q
    = Some (PyStr (match Bio.qualifier (Bio.qualifiers f) q with
                   | Some (v :: _) => v
                   | Some [] => "error"
                   | None => ""
                   end)).
Proof.
  intros Hin Hx Ht. induction names as [|q' names IH]; [destruct Hin|].
  intros d d' H. simpl in H.
  destruct (extract_qualifier f q' d) as [d1|e] eqn:E; [|discriminate].
  destruct (in_dec string_dec q names) as [Hl|Hl].
  - exact (IH Hl d1 d' H).
  - destruct Hin as [Eq|Hin]; [subst q'|contradiction].
    rewrite (extract_qualifiers_keeps f names Hl Ht d1 H).
    unfold extract_qualifier in E.
    assert (Ex : String.eqb q "db_xref" = false).
    { apply String.eqb_neq. exact Hx. }
    rewrite Ex in E.
    destruct (Bio.qualifier (Bio.qualifiers f) q) as [[|v values]|];
      inversion E; apply dict_get_set_same.
Qed.

(** X16: for a record with a source feature, each extracted field other
    than [db_xref] holds the first value of the qualifier of that name,
    ['error'] if the qualifier has no value and [''] if the feature has no
    such qualifier; only an empty [type_material] is replaced, by the
    notes.  A type material given by the record is never overwritten by
    its notes. *)
Theorem parse_record_first_values (r : Bio.SeqRecord) (dna_sequence : string)
    (f : Bio.SeqFeature) (d : Dict) (q : string) :
  parse_record r dna_sequence = Ok d ->
  source_feature_of r = Some f ->
  In q qualifiers_to_extract ->
  q <> "db_xref" ->
  match Bio.qualifier (Bio.qualifiers f) q with
  | Some (v :: _) => (q = "type_material" -> v <> "") -> dict_get d q = Some (PyStr v)
  | Some [] => dict_get d q = Some (PyStr "error")
  | None => q <> "type_material" -> dict_get d q = Some (PyStr "")
  end.
Proof.
  unfold parse_record. intros H Hf Hq Hx. rewrite Hf in H.
  destruct (extract_qualifiers f qualifiers_to_extract _) as [d1|e] eqn:E; [|discriminate].
  inversion H as [Hd]. clear H. subst d.
  assert (Ht : q <> "taxid").
  { intro Et. subst q. simpl in Hq. intuition discriminate. }
  pose proof (@extract_qualifiers_first_value f q qualifiers_to_extract Hq Hx Ht _ _ E) as H1.
  destruct (string_dec q "type_material") as [Etm|Ntm].
  - subst q. unfold infer_type_material. rewrite H1.
    destruct (Bio.qualifier (Bio.qualifiers f) "type_material") as [[|v values]|].
    + destruct (Bio.qualifier (Bio.qualifiers f) "note"); [|exact H1].
      simpl. exact H1.
    + intro Hv. specialize (Hv eq_refl).
      destruct (Bio.qualifier (Bio.qualifiers f) "note"); [|exact H1].
      destruct (String.eqb v "") eqn:Ev; [|exact H1].
      apply String.eqb_eq in Ev. contradiction.
    + intro Hn. exfalso. apply Hn. reflexivity.
  - rewrite (infer_type_material_keeps f d1 Ntm), H1.
    destruct (Bio.qualifier (Bio.qualifiers f) q) as [[|v values]|]; auto.
Qed.

(** The record with a type material and a note that names another type. *)
Lemma parse_record_first_values_witness :
  parse_record record_with_type_material "ACGT"
  = Ok (match parse_record record_with_type_material "ACGT" with Ok d => d | Raise _ => [] end)
  /\ dict_get (match parse_record record_with_type_material "ACGT" with
               | Ok d => d | Raise _ => [] end) "type_material"
     = Some (PyStr "holotype of Danio rerio").
Proof.
  assert (H : parse_record record_with_type_material "ACGT"
              = Ok (match parse_record record_with_type_material "ACGT" with
                    | Ok d => d | Raise _ => [] end)) by reflexivity.
  split; [exact H|].
  refine (@parse_record_first_values record_with_type_material "ACGT"
            (Bio.mkSeqFeature "source"
               [("organism", ["Danio rerio"; "Brachydanio rerio"]);
                ("type_material", ["holotype of Danio rerio"]);
                ("db_xref", ["BOLD:AAA1111"; "taxon:7955"]);
                ("note", ["type: paratype of something else"])])
            _ "type_material" H eq_refl _ _ _).
  - simpl. tauto.
  - discriminate.
  - discriminate.
Defined.

(* ===================================================================== *)
(** * The fetch client: strict mode and blank search strings              *)
(* ===================================================================== *)

Lemma send_gb_request_strict (env : Env) (accession_numbers : list string)
    (kwargs : Bio.EFetchArgs) (w : World) (result : list Dict) :
  fst (send_gb_request env accession_numbers true kwargs w) = Ok result ->
  forall a, In a accession_numbers -> exists entry, In entry result /\ answers a entry.
Proof.
  unfold send_gb_request. unfold bind, get, emit, modify, lift, raise, ret. cbn [fst snd].
  destruct (efetch env _ _) as [code| |handle].
  - destruct (code =? 400); discriminate.
  - discriminate.
  - destruct (parse_gb_handle handle) as [parsed|e]; [|discriminate].
    destruct (0 <? length _)%nat eqn:El; [discriminate|].
    cbn [fst]. intro H. injection H as H. subst parsed.
    apply length_zero_iff in El.
    intros a Ha. pose proof (filter_nil_forall _ _ El a Ha) as Hm.
    apply negb_false_iff, mem_In, in_app_or in Hm.
    destruct Hm as [Hm|Hm]; apply in_map_iff in Hm; destruct Hm as [entry [E Hin]];
      exists entry; (split; [exact Hin|]); [left|right]; exact E.
Qed.

Lemma id_batches_strict (env : Env) (fuel : nat) :
  forall desired_numbers all_data w result,
    (length desired_numbers <= fuel)%nat ->
    fst (id_batches env fuel desired_numbers true all_data w) = Ok result ->
    incl all_data result
    /\ forall a, In a desired_numbers -> exists entry, In entry result /\ answers a entry.
Proof.
  induction fuel as [|fuel IH]; intros desired_numbers all_data w result Hlen H.
  - destruct desired_numbers; [|simpl in Hlen; lia].
    simpl in H. injection H as H. subst result.
    split; [apply incl_refl|intros a []].
  - destruct desired_numbers as [|x l].
    + simpl in H. injection H as H. subst result.
      split; [apply incl_refl|intros a []].
    + cbn [id_batches] in H.
      replace ((0 <? length (x :: l))%nat) with true in H by reflexivity.
      cbv iota in H. unfold bind at 1 in H.
      pose proof (@send_gb_request_strict env (firstn ACCESSIONS_PER_REQUEST (x :: l))
                    (Bio.mkEFetchArgs None None None None None) w) as Hbatch.
      destruct (send_gb_request env (firstn ACCESSIONS_PER_REQUEST (x :: l)) true _ w)
        as [[batch|e] w1]; [|discriminate].
      specialize (Hbatch batch eq_refl).
      unfold bind at 1 in H.
      match type of H with
      | context [if ?c then emit ?e else ret tt] =>
          destruct ((if c then emit e else ret tt) w1) as [[u|e'] w2] eqn:Es;
            [|destruct c; discriminate]
      end.
      assert (Hl : (length (skipn ACCESSIONS_PER_REQUEST (x :: l)) <= fuel)%nat).
      { rewrite length_skipn. unfold ACCESSIONS_PER_REQUEST. simpl in Hlen |- *. lia. }
      destruct (IH _ _ _ _ Hl H) as [Hincl Hrest].
      split.
      * intros entry Hin. apply Hincl. apply in_or_app. left. exact Hin.
      * intros a Ha.
        rewrite <- (firstn_skipn ACCESSIONS_PER_REQUEST (x :: l)) in Ha.
        apply in_app_or in Ha. destruct Ha as [Ha|Ha]; [|apply Hrest; exact Ha].
        destruct (Hbatch a Ha) as [entry [Hin Hans]].
        exists entry. split; [|exact Hans].
        apply Hincl. apply in_or_app. right. exact Hin.
Qed.

(** X17: when [retrieve_gb] is called with [raise_if_missing] and returns,
    every requested identifier is answered by an entry of the result: the
    entry carries it as accession number or as version tag. *)
Theorem retrieve_gb_strict_complete (env : Env) (accession_numbers : list string)
    (term : option string) (w : World) (result : list Dict) :
  fst (retrieve_gb env accession_numbers term true w) = Ok result ->
  forall a, In a accession_numbers -> exists entry, In entry result /\ answers a entry.
Proof.
  unfold retrieve_gb.
  destruct (_ && _)%bool; [discriminate|].
  destruct (_ >? _); [discriminate|].
  unfold bind at 1.
  match goal with
  | |- context [match ?m w with _ => _ end] => destruct (m w) as [[all_data|e] w1]
  end; [|discriminate].
  intros H a Ha.
  destruct (@id_batches_strict env _ _ _ _ _ (le_n _) H) as [_ Hall].
  apply Hall. unfold Py.list_set. apply nodup_In. exact Ha.
Qed.

(** A registry that answers every fetch with the records A1 and A9: the
    strict request for A1 and for the version tag A9.1 returns. *)
Lemma retrieve_gb_strict_complete_witness :
  fst (retrieve_gb env_search ["A1"; "A9.1"] None true (Fixtures.world Fixtures.S1))
  = Ok (match fst (retrieve_gb env_search ["A1"; "A9.1"] None true
                     (Fixtures.world Fixtures.S1)) with
        | Ok result => result
        | Raise _ => []
        end)
  /\ exists entry,
       In entry (match fst (retrieve_gb env_search ["A1"; "A9.1"] None true
                              (Fixtures.world Fixtures.S1)) with
                 | Ok result => result
                 | Raise _ => []
                 end)
       /\ answers "A9.1" entry.
Proof.
  assert (H : fst (retrieve_gb env_search ["A1"; "A9.1"] None true
                     (Fixtures.world Fixtures.S1))
              = Ok (match fst (retrieve_gb env_search ["A1"; "A9.1"] None true
                                 (Fixtures.world Fixtures.S1)) with
                    | Ok result => result
                    | Raise _ => []
                    end)) by (vm_compute; reflexivity).
  split; [exact H|].
  exact (@retrieve_gb_strict_complete env_search ["A1"; "A9.1"] None
           (Fixtures.world Fixtures.S1) _ H "A9.1" (or_intror (or_introl eq_refl))).
Defined.

(** X18: a search string that is blank after stripping is no search.
    With accession numbers, the call is the call without search string;
    with none, it returns the empty list without a request to the registry,
    where the call without search string raises [ValueError]. *)
Theorem retrieve_gb_blank_term (env : Env) (accession_numbers : list string)
    (term : string) (raise_if_missing : bool) (w : World) :
  Py.strip term = "" ->
  (accession_numbers <> [] ->
   retrieve_gb env accession_numbers (Some term) raise_if_missing w
   = retrieve_gb env accession_numbers None raise_if_missing w)
  /\ retrieve_gb env [] (Some term) raise_if_missing w = (Ok [], w)
  /\ retrieve_gb env [] None raise_if_missing w
     = (Raise (ValueError "List of accession numbers and search terms to query is empty."), w).
Proof.
  intro H. split; [|split].
  - intro Hne. unfold retrieve_gb.
    destruct accession_numbers as [|a l]; [contradiction|].
    cbn [length Nat.eqb andb]. rewrite H. reflexivity.
  - unfold retrieve_gb. cbn [length Nat.eqb andb]. rewrite H. reflexivity.
  - reflexivity.
Qed.

Lemma retrieve_gb_blank_term_witness :
  Py.strip "  " = ""
  /\ retrieve_gb env_search [] (Some "  ") false (Fixtures.world Fixtures.S1)
     = (Ok [], Fixtures.world Fixtures.S1).
Proof.
  split; [reflexivity|].
  exact (proj1 (proj2 (@retrieve_gb_blank_term env_search [] "  " false
                         (Fixtures.world Fixtures.S1) eq_refl))).
Defined.

(* ===================================================================== *)
(** * The diff engine: which bucket                                       *)
(* ===================================================================== *)

(** The second loop appends to [added] the accessions of the current
    records that the dictionary of the last version does not have. *)
Lemma current_loop_added (d : list (string * NuccoreSequence.t))
    (l : list NuccoreSequence.t) :
  forall w,
    added (summary_class (snd (for_each l (fun c _ => classify d c) tt w)))
    = (added (summary_class w)
       ++ filter (fun a => negb (dict_mem d a)) (map NuccoreSequence.accession_number l))%list.
Proof.
  induction l as [|c l IH]; intro w.
  - simpl. rewrite app_nil_r. reflexivity.
  - cbn [for_each map filter]. unfold bind at 1. unfold classify, dict_mem.
    destruct (dict_get d (NuccoreSequence.accession_number c)) as [instance|].
    + destruct (negb _ || negb _)%bool;
        [|destruct (has_any_field_changed c instance)];
        unfold append_accession_version_changed, append_metadata_changed, append_no_change,
               modify; cbn [negb]; rewrite IH; reflexivity.
    + unfold append_added, modify. cbn [negb]. rewrite IH. simpl.
      rewrite <- app_assoc. reflexivity.
Qed.

Lemma calculate_update_summary_added (last current : BlastDb.t) (w : World) :
  added (summary_class (snd (calculate_update_summary last current w)))
  = (added (summary_class w)
     ++ filter (fun a => negb (Py.mem a (accessions_of last w)))
               (accessions_of current w))%list.
Proof.
  unfold calculate_update_summary. unfold bind at 1. unfold get at 1.
  unfold bind at 1. rewrite last_loop.
  unfold bind at 1.
  match goal with
  | |- context [for_each ?l (fun c _ => classify ?d c) tt ?w0] =>
      pose proof (current_loop_added d l w0) as Ha;
      destruct (@current_loop d l) with (w := w0) as [s2 [E2 _]]
  end.
  { apply by_accession_keys. intros k v H. discriminate. }
  rewrite E2 in Ha |- *. unfold bind, get, ret. simpl in Ha |- *.
  rewrite Ha. f_equal. unfold accessions_of. apply filter_ext.
  intro a. f_equal.
  change (fold_left _ ?l []) with (by_accession l []).
  rewrite by_accession_mem. reflexivity.
Qed.

Lemma filter_split (p : string -> bool) (l : list string) :
  Permutation l (filter p l ++ filter (fun a => negb (p a)) l).
Proof.
  induction l as [|a l IH]; simpl.
  - constructor.
  - destruct (p a); simpl.
    + constructor. exact IH.
    + apply Permutation_cons_app. exact IH.
Qed.

(** X19: the first comparison of a process (the class lists are empty)
    puts into [added] the accession numbers of the records of the current
    snapshot that the last version lacks, into [deleted] those of the
    records of the last version that the current snapshot lacks, and
    shares out the accession numbers of the records of the current snapshot
    that the last version has among [no_change],
    [accession_version_changed] and [metadata_changed]; each of the three
    statements up to the order of the accession numbers. *)
Theorem diff_fresh_buckets (last current : BlastDb.t) (w : World) :
  summary_class w = empty_summary ->
  exists s,
    calculate_update_summary last current w = (Ok s, set_summary_class s w)
    /\ Permutation (added s)
         (filter (fun a => negb (Py.mem a (accessions_of last w))) (accessions_of current w))
    /\ Permutation (deleted s)
         (filter (fun a => negb (Py.mem a (accessions_of current w))) (accessions_of last w))
    /\ Permutation (no_change s ++ accession_version_changed s ++ metadata_changed s)
         (filter (fun a => Py.mem a (accessions_of last w)) (accessions_of current w)).
Proof.
  intro Hfresh.
  destruct (calculate_update_summary_spec last current w) as [s [E [D P]]].
  pose proof (calculate_update_summary_added last current w) as A.
  rewrite E in A. simpl in A.
  rewrite Hfresh in D, P, A. simpl in D, P, A. rewrite app_nil_r in P.
  exists s. split; [exact E|].
  split; [rewrite A; apply Permutation_refl|].
  split; [rewrite D; apply Permutation_refl|].
  unfold current_buckets in P.
  apply Permutation_app_inv_r with (l := added s).
  rewrite <- !app_assoc. eapply Permutation_trans; [exact P|].
  rewrite A. apply filter_split.
Qed.

(** The first comparison of the fixtures: A2 was added, A1 is in both. *)
Lemma diff_fresh_buckets_witness :
  summary_class (Fixtures.world Fixtures.S1) = empty_summary
  /\ exists s,
       calculate_update_summary Fixtures.S0 Fixtures.S1 (Fixtures.world Fixtures.S1)
       = (Ok s, set_summary_class s (Fixtures.world Fixtures.S1))
       /\ added s = ["A2"]
       /\ deleted s = [].
Proof.
  split; [reflexivity|].
  destruct (@diff_fresh_buckets Fixtures.S0 Fixtures.S1 (Fixtures.world Fixtures.S1) eq_refl)
    as [s [E [A [D _]]]].
  exists s. split; [exact E|]. split.
  - apply Permutation_length_1_inv. apply Permutation_sym. exact A.
  - apply Permutation_nil. apply Permutation_sym. exact D.
Defined.

(** X20: when the snapshot being sealed and the latest version of its
    library differ in an accession number, one having it and the other
    not, a sealing call that returns gives the snapshot the version
    (g+1, 0, 0), where g is the genbank component of the latest version;
    this holds whatever earlier comparisons left in the class lists. *)
Theorem seal_bumps_genbank (env : Env) (w : World) (prev o' : BlastDb.t) (a : string) :
  BlastDb.latest (blastdbs w) (BlastDb.library (obj w)) = Some prev ->
  (In a (accessions_of (obj w) w) /\ ~ In a (accessions_of prev w))
  \/ (In a (accessions_of prev w) /\ ~ In a (accessions_of (obj w) w)) ->
  fst (save_blastdb env true w) = Ok o' ->
  BlastDb.version_triple o' = (BlastDb.genbank_version prev + 1, 0, 0).
Proof.
  intros Hl Hdiff Hok.
  destruct (save_blastdb_lock_run env w) as [v [s [dirs [V [_ Cases]]]]].
  destruct (version_nums_spec w Hl) as [s' [E V']].
  rewrite V in V'. injection V' as Hv Hs.
  subst s'.
  assert (Hver : v = (BlastDb.genbank_version prev + 1, 0, 0)).
  { rewrite Hv. unfold next_version.
    destruct (calculate_update_summary_spec prev (obj w) w) as [s0 [E0 [D _]]].
    pose proof (calculate_update_summary_added prev (obj w) w) as A.
    rewrite E in E0. injection E0 as Hs0 _. subst s0.
    rewrite E in A. simpl in A.
    destruct Hdiff as [[Hin Hnot]|[Hin Hnot]].
    - assert (Ha : In a (added s)).
      { rewrite A. apply in_or_app. right. apply filter_In. split; [exact Hin|].
        apply negb_true_iff, mem_false. exact Hnot. }
      destruct (added s) as [|x l]; [destruct Ha|].
      replace ((0 <? length (x :: l))%nat) with true by reflexivity.
      rewrite orb_true_r. reflexivity.
    - assert (Hd : In a (deleted s)).
      { rewrite D. apply in_or_app. right. apply filter_In. split; [exact Hin|].
        apply negb_true_iff, mem_false. exact Hnot. }
      destruct (deleted s) as [|x l]; [destruct Hd|].
      replace ((0 <? length (x :: l))%nat) with true by reflexivity.
      reflexivity. }
  destruct Cases as [[_ [_ Er]]|[_ [command Er]]].
  { rewrite Er in Hok. discriminate. }
  cbv zeta in Er.
  destruct (BlastDb._change_reason (obj w)) as [reason|];
    rewrite Er in Hok; [|discriminate].
  simpl in Hok. injection Hok as Ho. subst o'. rewrite <- Hver.
  destruct v as [[g m] n]. reflexivity.
Qed.

(** The working copy of the fixtures has A2, which version 1.0.0 lacks:
    it is sealed as 2.0.0. *)
Lemma seal_bumps_genbank_witness :
  BlastDb.latest (blastdbs (Fixtures.world Fixtures.S1))
                 (BlastDb.library (obj (Fixtures.world Fixtures.S1))) = Some Fixtures.S0
  /\ In "A2" (accessions_of (obj (Fixtures.world Fixtures.S1)) (Fixtures.world Fixtures.S1))
  /\ ~ In "A2" (accessions_of Fixtures.S0 (Fixtures.world Fixtures.S1))
  /\ exists o',
       fst (save_blastdb (Fixtures.env_status 0) true (Fixtures.world Fixtures.S1)) = Ok o'
       /\ BlastDb.version_triple o' = (2, 0, 0).
Proof.
  assert (H1 : In "A2" (accessions_of (obj (Fixtures.world Fixtures.S1))
                          (Fixtures.world Fixtures.S1))).
  { vm_compute. right. left. reflexivity. }
  assert (H2 : ~ In "A2" (accessions_of Fixtures.S0 (Fixtures.world Fixtures.S1))).
  { vm_compute. intros [H|[]]. discriminate. }
  split; [reflexivity|]. split; [exact H1|]. split; [exact H2|].
  eexists. split; [reflexivity|].
  exact (@seal_bumps_genbank (Fixtures.env_status 0) (Fixtures.world Fixtures.S1)
           Fixtures.S0 _ "A2" eq_refl (or_introl (conj H1 H2)) eq_refl).
Defined.

(* ===================================================================== *)
(** * Deleting a library                                                  *)
(* ===================================================================== *)

Lemma In_insert_by_version (r x : BlastDb.t) (l : list BlastDb.t) :
  In x (insert_by_version r l) <-> x = r \/ In x l.
Proof.
  induction l as [|a l IH]; simpl.
  - intuition.
  - destruct (BlastDb.version_ltb a r); simpl; rewrite ?IH; intuition.
Qed.

Lemma In_ordered (x : BlastDb.t) (rows : list BlastDb.t) :
  In x (ordered rows) <-> In x rows.
Proof.
  induction rows as [|a rows IH]; simpl.
  - tauto.
  - rewrite In_insert_by_version, IH. intuition.
Qed.

Lemma mem_ext (x : string) (l l' : list string) :
  (forall a, In a l <-> In a l') -> Py.mem x l = Py.mem x l'.
Proof.
  intro H. destruct (Py.mem x l') eqn:E.
  - apply mem_In, H, mem_In. exact E.
  - apply mem_false. intro Hin. apply H in Hin. apply mem_In in Hin. congruence.
Qed.

Lemma filter_filter {A : Type} (p q : A -> bool) (l : list A) :
  filter q (filter p l) = filter (fun x => p x && q x)%bool l.
Proof.
  induction l as [|a l IH]; simpl; [reflexivity|].
  destruct (p a); simpl; [destruct (q a)|]; rewrite IH; reflexivity.
Qed.

Lemma NoDup_map_inj {A B : Type} (f : A -> B) (l : list A) (a b : A) :
  NoDup (map f l) -> In a l -> In b l -> f a = f b -> a = b.
Proof.
  induction l as [|x l IH]; simpl; intros Hnd Ha Hb E; [destruct Ha|].
  inversion Hnd as [|y l' Hnot Hnd']; subst.
  destruct Ha as [Ha|Ha], Hb as [Hb|Hb].
  - congruence.
  - subst x. exfalso. apply Hnot. rewrite E. apply in_map. exact Hb.
  - subst x. exfalso. apply Hnot. rewrite <- E. apply in_map. exact Ha.
  - apply IH; assumption.
Qed.

(** The loop of [delete_library]: the snapshots listed and their records
    go, and outside the process folders are removed and nothing else. *)
Lemma delete_loop (env : Env) (path_exists : string -> bool) (dbs : list BlastDb.t) :
  forall w,
  exists t,
    forallb is_rmtree t = true
    /\ for_each dbs (fun db _ => delete_blastdb env path_exists (Some db)) tt w
       = (Ok tt,
          mkWorld (obj w)
            (filter (fun r => negb (Py.mem (BlastDb.id r) (map BlastDb.id dbs))) (blastdbs w))
            (filter (fun s => negb (Py.mem (NuccoreSequence.owner_database s)
                                      (map BlastDb.id dbs)))
                    (sequences w))
            (summary_class w) (uuid_count w) (trace w ++ t)).
Proof.
  induction dbs as [|db dbs IH]; intro w.
  - exists []. split; [reflexivity|]. simpl. unfold ret.
    rewrite app_nil_r.
    rewrite !forallb_filter_id by (apply forallb_forall; intros; reflexivity).
    destruct w; reflexivity.
  - cbn [for_each]. unfold bind at 1.
    set (c := ((0 <? String.length (BlastDb.id db))%nat
               && path_exists (get_data_fishdb_path env db))%bool).
    destruct (IH (mkWorld (obj w)
                    (filter (fun r => negb (String.eqb (BlastDb.id r) (BlastDb.id db)))
                            (blastdbs w))
                    (filter (fun s => negb (String.eqb (NuccoreSequence.owner_database s)
                                                       (BlastDb.id db)))
                            (sequences w))
                    (summary_class w) (uuid_count w)
                    (trace w ++ (if c then [EvRmtree (get_data_fishdb_path env db)] else []))))
      as [t [Ht E]].
    exists ((if c then [EvRmtree (get_data_fishdb_path env db)] else []) ++ t)%list.
    split.
    + rewrite forallb_app, Ht. destruct c; reflexivity.
    + assert (Hrun :
        delete_blastdb env path_exists (Some db) w
        = (Ok tt,
           mkWorld (obj w)
             (filter (fun r => negb (String.eqb (BlastDb.id r) (BlastDb.id db))) (blastdbs w))
             (filter (fun s => negb (String.eqb (NuccoreSequence.owner_database s)
                                                (BlastDb.id db)))
                     (sequences w))
             (summary_class w) (uuid_count w)
             (trace w ++ (if c then [EvRmtree (get_data_fishdb_path env db)] else [])))).
      { unfold delete_blastdb, delete_row. fold c.
        destruct c; unfold bind, emit, modify, ret; simpl; rewrite ?app_nil_r; reflexivity. }
      rewrite Hrun, E. cbn [obj blastdbs sequences summary_class uuid_count trace].
      rewrite !filter_filter, <- app_assoc.
      f_equal. f_equal; apply filter_ext; intro x; simpl; rewrite negb_orb; reflexivity.
Qed.

Lemma filter_none {A : Type} (p : A -> bool) (l : list A) :
  (forall x, In x l -> p x = false) -> filter p l = [].
Proof.
  induction l as [|a l IH]; simpl; intro H; [reflexivity|].
  rewrite (H a (or_introl eq_refl)). apply IH. intros x Hx. apply H. right. exact Hx.
Qed.

(** X21: with snapshot keys unique in the table, [delete_library] on a
    library returns normally; afterwards the table of snapshots holds
    exactly the snapshots of the other libraries and the table of records
    exactly the records of snapshots of other libraries, both in their
    order, so that [BlastDb.objects.latest] answers [None] for the library;
    outside the process it removed folders and did nothing else. *)
Theorem delete_library_removes (env : Env) (path_exists : string -> bool)
    (library : string) (w : World) :
  NoDup (map BlastDb.id (blastdbs w)) ->
  fst (delete_library env path_exists (Some library) w) = Ok tt
  /\ library_gone library w (snd (delete_library env path_exists (Some library) w))
  /\ BlastDb.latest (blastdbs (snd (delete_library env path_exists (Some library) w)))
                    library = None
  /\ exists t,
       forallb is_rmtree t = true
       /\ trace (snd (delete_library env path_exists (Some library) w)) = (trace w ++ t)%list.
Proof.
  intro Hnd.
  set (dbs := ordered (filter (fun r => String.eqb (BlastDb.library r) library) (blastdbs w))).
  assert (Hdbs : forall x, In x dbs <-> In x (blastdbs w) /\ BlastDb.library x = library).
  { intro x. unfold dbs. rewrite In_ordered, filter_In, String.eqb_eq. tauto. }
  assert (Hids : forall x,
            In x (blastdbs w) ->
            Py.mem (BlastDb.id x) (map BlastDb.id dbs)
            = String.eqb (BlastDb.library x) library).
  { intros x Hx. destruct (String.eqb (BlastDb.library x) library) eqn:El.
    - apply mem_In, in_map, Hdbs. apply String.eqb_eq in El. tauto.
    - apply mem_false. intro Hin. apply in_map_iff in Hin. destruct Hin as [db [Eid Hdb]].
      apply Hdbs in Hdb. destruct Hdb as [Hdb Hlib].
      assert (db = x) by (eapply NoDup_map_inj; eassumption).
      subst db. apply String.eqb_neq in El. contradiction. }
  destruct (delete_loop env path_exists dbs w) as [t [Ht E]].
  assert (Hrun :
    delete_library env path_exists (Some library) w
    = (Ok tt,
       mkWorld (obj w)
         (filter (fun r => negb (String.eqb (BlastDb.library r) library))
            (filter (fun r => negb (Py.mem (BlastDb.id r) (map BlastDb.id dbs)))
                    (blastdbs w)))
         (filter
            (fun s =>
               negb (Py.mem (NuccoreSequence.owner_database s)
                       (map BlastDb.id
                          (filter (fun r => String.eqb (BlastDb.library r) library)
                             (filter (fun r => negb (Py.mem (BlastDb.id r)
                                                       (map BlastDb.id dbs)))
                                     (blastdbs w))))))
            (filter (fun s => negb (Py.mem (NuccoreSequence.owner_database s)
                                      (map BlastDb.id dbs)))
                    (sequences w)))
         (summary_class w) (uuid_count w) (trace w ++ t))).
  { unfold delete_library, bind, get. fold dbs. rewrite E. reflexivity. }
  rewrite Hrun. clear Hrun E.
  cbn [fst snd obj blastdbs sequences summary_class uuid_count trace].
  assert (Hrows :
    filter (fun r => negb (String.eqb (BlastDb.library r) library))
           (filter (fun r => negb (Py.mem (BlastDb.id r) (map BlastDb.id dbs))) (blastdbs w))
    = filter (fun r => negb (String.eqb (BlastDb.library r) library)) (blastdbs w)).
  { rewrite filter_filter. apply filter_ext_in. intros x Hx. rewrite (Hids x Hx).
    destruct (String.eqb (BlastDb.library x) library); reflexivity. }
  assert (Hgone :
    filter (fun r => String.eqb (BlastDb.library r) library)
           (filter (fun r => negb (Py.mem (BlastDb.id r) (map BlastDb.id dbs))) (blastdbs w))
    = []).
  { rewrite filter_filter. apply filter_none. intros x Hx. rewrite (Hids x Hx).
    destruct (String.eqb (BlastDb.library x) library); reflexivity. }
  split; [reflexivity|]. split; [|split].
  - unfold library_gone.
    cbn [fst snd obj blastdbs sequences summary_class uuid_count trace].
    split; [exact Hrows|].
    rewrite Hgone. cbn [map].
    rewrite forallb_filter_id by (apply forallb_forall; intros; reflexivity).
    apply filter_ext. intro s. f_equal. apply mem_ext. intro a.
    rewrite !in_map_iff. split; intros [x [Ex Hx]]; exists x; (split; [exact Ex|]).
    + apply In_ordered. exact Hx.
    + apply In_ordered in Hx. exact Hx.
  - rewrite Hrows.
    pose proof (latest_spec
                  (filter (fun r => negb (String.eqb (BlastDb.library r) library)) (blastdbs w))
                  library) as Hl.
    destruct (BlastDb.latest _ library) as [b|]; [|reflexivity].
    destruct Hl as [Hin [[Hlib _] _]]. apply filter_In in Hin. destruct Hin as [_ Hneq].
    rewrite <- Hlib, String.eqb_refl in Hneq. discriminate.
  - exists t. split; [exact Ht|reflexivity].
Qed.

(** Two libraries: deleting the first leaves the snapshot and the record
    of the second. *)
Lemma delete_library_removes_witness :
  NoDup (map BlastDb.id (blastdbs world_two_libraries))
  /\ fst (delete_library (Fixtures.env_status 0) (fun _ => true) (Some "lib")
            world_two_libraries) = Ok tt
  /\ map BlastDb.id
       (blastdbs (snd (delete_library (Fixtures.env_status 0) (fun _ => true) (Some "lib")
                         world_two_libraries))) = ["db2"]
  /\ map NuccoreSequence.id
       (sequences (snd (delete_library (Fixtures.env_status 0) (fun _ => true) (Some "lib")
                          world_two_libraries))) = ["s4"].
Proof.
  assert (H : NoDup (map BlastDb.id (blastdbs world_two_libraries))).
  { vm_compute. repeat constructor; simpl; intuition discriminate. }
  split; [exact H|].
  destruct (@delete_library_removes (Fixtures.env_status 0) (fun _ => true) "lib"
              world_two_libraries H) as [H1 [[H2 H3] _]].
  split; [exact H1|]. split; [rewrite H2|rewrite H3]; reflexivity.
Defined.

(* ===================================================================== *)
(** * Comparing hits                                                      *)
(* ===================================================================== *)

(** X22: [compareHits] is a consistent three-way comparison by
    decreasing percent identity: it answers 1 exactly when the second hit
    has the greater identity and -1 exactly when the first has; swapping
    the arguments negates the answer; and "not worse than" is transitive. *)
Theorem compareHits_consistent (hitA hitB hitC : Hit.t) :
  (compareHits hitA hitB = 1
   <-> QArith_base.Qlt (Hit.percent_identity hitA) (Hit.percent_identity hitB))
  /\ (compareHits hitA hitB = -1
      <-> QArith_base.Qlt (Hit.percent_identity hitB) (Hit.percent_identity hitA))
  /\ compareHits hitB hitA = - compareHits hitA hitB
  /\ (compareHits hitA hitB <= 0 -> compareHits hitB hitC <= 0 -> compareHits hitA hitC <= 0).
Proof.
  unfold compareHits.
  destruct hitA as [a], hitB as [b], hitC as [c]. cbn [Hit.percent_identity].
  destruct (QArith_base.Qlt_le_dec a b) as [Hab|Hab];
    destruct (QArith_base.Qlt_le_dec b a) as [Hba|Hba];
    destruct (QArith_base.Qlt_le_dec b c) as [Hbc|Hbc];
    destruct (QArith_base.Qlt_le_dec c b) as [Hcb|Hcb];
    destruct (QArith_base.Qlt_le_dec a c) as [Hac|Hac];
    destruct (QArith_base.Qlt_le_dec c a) as [Hca|Hca];
    repeat split; intros; try reflexivity; try assumption; try lia; try discriminate;
    exfalso;
    repeat match goal with
           | H : QArith_base.Qlt _ _ |- _ => unfold QArith_base.Qlt in H
           | H : QArith_base.Qle _ _ |- _ => unfold QArith_base.Qle in H
           end; nia.
Qed.

(* ===================================================================== *)
(** * The requests sent to the registry                                   *)
(* ===================================================================== *)


(* ===================================================================== *)
(** * The first version of a library                                      *)
(* ===================================================================== *)

(** X24: when the library of the snapshot has no sealed snapshot, a
    sealing call that returns gives the snapshot the version (1, 0, 0),
    and the class lists of the diff are left as they were: no comparison
    is made. *)
Theorem seal_first_version (env : Env) (w : World) (o' : BlastDb.t) :
  BlastDb.latest (blastdbs w) (BlastDb.library (obj w)) = None ->
  fst (save_blastdb env true w) = Ok o' ->
  BlastDb.version_triple o' = (1, 0, 0)
  /\ summary_class (snd (save_blastdb env true w)) = summary_class w.
Proof.
  intros Hl Hok.
  destruct (save_blastdb_lock_run env w) as [v [s [dirs [V [_ Cases]]]]].
  rewrite (version_nums_first w Hl) in V. injection V as Hv Hs.
  assert (Hs' : s = summary_class w).
  { apply (f_equal summary_class) in Hs. simpl in Hs. symmetry. exact Hs. }
  subst v s.
  destruct Cases as [[_ [_ Er]]|[_ [command Er]]].
  { rewrite Er in Hok. discriminate. }
  cbv zeta in Er.
  destruct (BlastDb._change_reason (obj w)) as [reason|];
    rewrite Er in Hok |- *; [|discriminate].
  simpl in Hok. injection Hok as Ho. subst o'. split; reflexivity.
Qed.

Lemma seal_first_version_witness :
  BlastDb.latest (blastdbs world_unpublished) (BlastDb.library (obj world_unpublished)) = None
  /\ exists o',
       fst (save_blastdb (Fixtures.env_status 0) true world_unpublished) = Ok o'
       /\ BlastDb.version_triple o' = (1, 0, 0).
Proof.
  split; [reflexivity|]. eexists. split; [reflexivity|].
  exact (proj1 (@seal_first_version (Fixtures.env_status 0) world_unpublished _
                  eq_refl eq_refl)).
Defined.

(* ===================================================================== *)
(** * The guard of the logging functions                                  *)
(* ===================================================================== *)

Lemma prefix_app (s b : string) : String.prefix s (s ++ b) = true.
Proof.
  induction s as [|c s IH]; simpl.
  - destruct b; reflexivity.
  - destruct (ascii_dec c c) as [_|Hn]; [exact IH|exfalso; apply Hn; reflexivity].
Qed.

Lemma contains_app (sub a b : string) : Py.contains sub (a ++ sub ++ b) = true.
Proof.
  induction a as [|c a IH]; simpl.
  - pose proof (prefix_app sub b) as H.
    destruct (sub ++ b); cbn [Py.contains]; [exact H|rewrite H; reflexivity].
  - rewrite IH. apply orb_true_r.
Qed.

(** The guard compares the text of an instance, "accession, organism
    (key)", with the key of the snapshot: a key without ", " differs from
    all of them. *)
Lemma any_mismatch_nonempty (instances : list NuccoreSequence.t) (db_id : string) :
  Py.contains ", " db_id = false ->
  instances <> [] ->
  any_mismatch instances db_id = true.
Proof.
  intros Hid Hne. destruct instances as [|i l]; [contradiction|].
  unfold any_mismatch. simpl. apply orb_true_iff. left.
  apply negb_true_iff. apply String.eqb_neq. intro E.
  rewrite <- E in Hid. unfold NuccoreSequence.str in Hid.
  rewrite contains_app in Hid. discriminate.
Qed.

(** X11: if the key of the snapshot contains no ", " (the text of a UUID
    has none), [log_added_sequences] and [log_deleted_sequences] raise
    their [ValueError] for every list of records that is not empty, and
    change nothing: the guard compares [str(i)], the text "accession,
    organism (id)" of the record, with the key of the snapshot. *)
Theorem log_guard_rejects_instances (instances : list NuccoreSequence.t)
    (search_term : option string) (w : World) :
  Py.contains ", " (BlastDb.id (obj w)) = false ->
  instances <> [] ->
  log_added_sequences instances search_term w = (Raise (ValueError mismatch_message), w)
  /\ log_deleted_sequences instances w = (Raise (ValueError mismatch_message), w).
Proof.
  intros Hid Hne.
  pose proof (@any_mismatch_nonempty instances _ Hid Hne) as Hm.
  unfold log_added_sequences, log_deleted_sequences, bind, get.
  rewrite Hm. split; reflexivity.
Qed.

(** The guard on the records of the working copy of the fixtures, which do
    belong to it. *)
Lemma log_guard_rejects_instances_witness :
  Py.contains ", " (BlastDb.id (obj (Fixtures.world Fixtures.S1))) = false
  /\ NuccoreSequence.of_database "db1" Fixtures.rows <> []
  /\ Forall (fun i => NuccoreSequence.owner_database i = "db1")
            (NuccoreSequence.of_database "db1" Fixtures.rows)
  /\ log_added_sequences (NuccoreSequence.of_database "db1" Fixtures.rows) None
       (Fixtures.world Fixtures.S1)
     = (Raise (ValueError mismatch_message), Fixtures.world Fixtures.S1).
Proof.
  assert (Hne : NuccoreSequence.of_database "db1" Fixtures.rows <> [])
    by (vm_compute; discriminate).
  split; [reflexivity|]. split; [exact Hne|]. split.
  - vm_compute. repeat constructor.
  - exact (proj1 (@log_guard_rejects_instances
                    (NuccoreSequence.of_database "db1" Fixtures.rows) None
                    (Fixtures.world Fixtures.S1) eq_refl Hne)).
Defined.
